(** * FacialDetectionModel (tfmodel.ipynb): a shallow embedding

    The notebook defines one class, [FacialDetectionModel], whose methods are
    sequences of calls into NumPy, Keras, matplotlib, [os] and [subprocess].
    The methods are embedded as programs of a state-and-exception monad:

    - the state holds the instance attributes, the objects the hub client
      handed out (the dataset), the file system, and a log of every library
      call the program made, each with its outcome;
    - a library call either returns or raises; an exception ends the program
      unless a handler is installed (the class installs none);
    - what the libraries do is modelled from their sources and documented
      behaviour where the class depends on it ([np.array],
      [to_categorical], [os.makedirs], [os.path.join], dictionary
      subscripts) and left to an environment [Env] where it is a matter of
      the outside world (whether a call fails for want of memory or
      permission, what curves training measures, which event files
      TensorBoard writes).

    The platform is Linux on x86-64 with CPython and NumPy 1.x: paths are
    POSIX paths, NumPy's default integer is [int64]. Symbolic links are not
    modelled. *)

From Stdlib Require Import ZArith Ascii String List Floats.PrimFloat.
From stdpp Require Import gmap strings list.

Set Warnings "-inexact-float".
Local Open Scope string_scope.
Local Open Scope list_scope.
Local Open Scope Z_scope.

(** ** Python values *)

(** Exceptions, by class. [ExternalError] stands for any other exception a
    library raises (shape mismatch, I/O error, ...). *)
Inductive exn :=
| KeyError (key : string)
| IndexError
| ValueError
| AttributeError (name : string)
| FileExistsError (path : string)
| FileNotFoundError (path : string)
| NotADirectoryError (path : string)
| OverflowError
| RecursionError
| ExternalError (message : string).

Inductive Result (A : Type) :=
| Ok (a : A)
| Raise (e : exn).
Arguments Ok {A} a.
Arguments Raise {A} e.

(** How a split hands out its label column: as a Python list of ints (what
    the hub client does unless told otherwise), or as a NumPy array of one
    integer type (a dataset formatted for NumPy). *)
Inductive Format := python_list | numpy_array.

(** A split of the hub dataset: the columns [embedding] and [label]. A
    column that the split does not have is [None]. The labels are given as
    the integers they are; an array holds integers of at most 64 bits. *)
Record Dataset := mkDataset {
  embedding : option (list (list float));
  label : option (list Z);
  label_format : Format
}.

(** ** NumPy values *)

(** The element types [np.array] can give to a sequence of Python ints. *)
Inductive DType := int64 | uint64 | float64 | object.

(** An array made from integers: its element type and what it holds (the
    doubles of a [float64] array are whole numbers here). *)
Record IntArray := mkIntArray {
  dtype : DType;
  items : list Z
}.

(** ** Keras values *)

Inductive Activation := relu | softmax.

Inductive Regularizer := l2 (factor : float).

Inductive Layer :=
| Input (shape : list Z)
| Dense (units : Z) (activation : Activation)
        (kernel_regularizer : option Regularizer)
| Dropout (rate : float).

Inductive Metric :=
| MetricName (name : string)
| Precision
| Recall
| AUC.

Inductive Optimizer := Adam (learning_rate : float) (clipnorm : float).

Record Compiled := mkCompiled {
  optimizer : Optimizer;
  loss : string;
  metrics : list Metric
}.

(** A [Sequential] model object. [model_id] tells objects apart, [fits]
    counts the calls of [fit] the object went through. *)
Record KerasModel := mkKerasModel {
  model_id : nat;
  model_layers : list Layer;
  compiled : option Compiled;
  fits : nat
}.

Inductive Callback :=
| EarlyStopping (monitor : string) (patience : Z) (restore_best_weights : bool)
| ReduceLROnPlateau (monitor : string) (factor : float) (patience : Z)
                    (min_lr : float)
| TensorBoard (log_dir : string) (histogram_freq : Z) (profile_batch : Z)
| ModelCheckpoint (filepath : string) (monitor : string)
                  (save_best_only : bool).

(** The object [fit] returns: its [history] attribute maps a metric name to
    the values measured per epoch. *)
Record History := mkHistory {
  history : gmap string (list float)
}.

(** ** Library calls

    One constructor per call expression the class contains. *)

Inductive PlotCall :=
| plt_figure (width height : Z)
| plt_subplot (nrows ncols index : Z)
| plt_plot (series : list float)
| plt_title (text : string)
| plt_ylabel (text : string)
| plt_xlabel (text : string)
| plt_legend (labels : list string) (loc : string)
| plt_tight_layout
| plt_savefig (fname : string)
| plt_close.

Inductive Event :=
| E_makedirs (name : string) (exist_ok : bool)
| E_getitem (container : string) (key : string)
| E_np_array_float (rows : list (list float))
| E_np_array_int (values : list Z)
| E_to_categorical (y : IntArray) (num_classes : Z)
| E_l2 (factor : float)
| E_layer (l : Layer)
| E_Sequential (layers : list Layer)
| E_Adam (learning_rate : float) (clipnorm : float)
| E_metric (m : Metric)
| E_compile (id : nat) (c : Compiled)
| E_summary (id : nat)
| E_print (text : string)
| E_callback (cb : Callback)
| E_path_join (a b : string)
| E_fit (id : nat) (x : list (list float)) (y : list (list float))
        (validation_x : list (list float)) (validation_y : list (list float))
        (epochs batch_size : Z) (callbacks : list Callback) (verbose : Z)
| E_plt (p : PlotCall)
| E_Popen (args : list string).

(** A log entry: the call and, when it raised, the exception. *)
Record Entry := mkEntry {
  called : Event;
  raised : option exn
}.

(** ** The file system *)

Inductive Node := Dir | File.

(** A node is found by its path: the names that lead to it from the root,
    which is the empty path. *)
Abbreviation Path := (list string).
Abbreviation FS := (gmap (list string) Node).

(** A path name, as a program writes it, is kept as the list of its
    components, the strings between the separators: ['a/../b/'] is
    [["a"; ".."; "b"; ""]], ['/'] is [[""; ""]] and [''] is [[""]]. *)
Abbreviation Name := (list string).

(** ** The outside world *)

Record Env := mkEnv {
  (** the current directory of the process; the class never changes it *)
  cwd : Path;
  (** whether the library raises inside the call, given the calls so far *)
  raises : list Entry -> Event -> option exn;
  (** the curves the training loop measures *)
  training : list Entry -> gmap string (list float);
  (** the event files TensorBoard writes, relative to its log directory *)
  event_files : list Entry -> list Path;
  (** whether the monitored metric improved at least once, so that the
      checkpoint callback saved the model *)
  improved : list Entry -> bool
}.

(** ** Program state *)

Record State := mkState {
  (** instance attributes *)
  model : option KerasModel;
  input_shape : list Z;
  num_classes : Z;
  log_dir : string;
  (** objects of the hub client, by reference *)
  objects : gmap nat (gmap string Dataset);
  fs : FS;
  (** child processes started and not waited for, by command line *)
  children : list (list string);
  trace : list Entry;
  (** the framework's counter for naming new objects *)
  next_id : nat
}.

Definition set_model (m : option KerasModel) (s : State) : State :=
  mkState m (input_shape s) (num_classes s) (log_dir s) (objects s) (fs s)
          (children s) (trace s) (next_id s).

Definition set_input_shape (v : list Z) (s : State) : State :=
  mkState (model s) v (num_classes s) (log_dir s) (objects s) (fs s)
          (children s) (trace s) (next_id s).

Definition set_num_classes (v : Z) (s : State) : State :=
  mkState (model s) (input_shape s) v (log_dir s) (objects s) (fs s)
          (children s) (trace s) (next_id s).

Definition set_log_dir (v : string) (s : State) : State :=
  mkState (model s) (input_shape s) (num_classes s) v (objects s) (fs s)
          (children s) (trace s) (next_id s).

Definition set_fs (v : FS) (s : State) : State :=
  mkState (model s) (input_shape s) (num_classes s) (log_dir s) (objects s) v
          (children s) (trace s) (next_id s).

Definition set_children (v : list (list string)) (s : State) : State :=
  mkState (model s) (input_shape s) (num_classes s) (log_dir s) (objects s)
          (fs s) v (trace s) (next_id s).

Definition set_next_id (v : nat) (s : State) : State :=
  mkState (model s) (input_shape s) (num_classes s) (log_dir s) (objects s)
          (fs s) (children s) (trace s) v.

Definition log (ev : Event) (r : option exn) (s : State) : State :=
  mkState (model s) (input_shape s) (num_classes s) (log_dir s) (objects s)
          (fs s) (children s) (trace s ++ [mkEntry ev r]) (next_id s).

(** ** The monad of programs *)

Definition M (A : Type) : Type := State -> Result A * State.

#[export] Instance M_ret : MRet M := fun A a s => (Ok a, s).

#[export] Instance M_bind : MBind M := fun A B k m s =>
  match m s with
  | (Ok a, s') => k a s'
  | (Raise e, s') => (Raise e, s')
  end.

Definition raise {A : Type} (e : exn) : M A := fun s => (Raise e, s).

Definition gets {A : Type} (f : State -> A) : M A := fun s => (Ok (f s), s).

Definition modify (f : State -> State) : M unit := fun s => (Ok tt, f s).

(** [try: body except: handler]. The class never uses it; it is here to say
    what a handler would do. *)
Definition try_except {A : Type} (body : M A) (handler : exn -> M A) : M A :=
  fun s =>
    match body s with
    | (Ok a, s') => (Ok a, s')
    | (Raise e, s') => handler e s'
    end.

#[export] Instance Result_ret : MRet Result := fun A a => Ok a.

#[export] Instance Result_bind : MBind Result := fun A B k r =>
  match r with
  | Ok a => k a
  | Raise e => Raise e
  end.

(** ** Library models that do not depend on the environment *)

(** *** Strings and paths *)

Definition startswith (prefix s : string) : bool := String.prefix prefix s.

Fixpoint endswith_sep (s : string) : bool :=
  match s with
  | EmptyString => false
  | String c EmptyString => Ascii.eqb c "/"%char
  | String _ rest => endswith_sep rest
  end.

(** [posixpath.join(a, b)] *)
Definition path_join (a b : string) : string :=
  if startswith "/" b then b
  else if (String.eqb a EmptyString || endswith_sep a)%bool then a +:+ b
  else a +:+ "/" +:+ b.

(** [s.split('/')] *)
Fixpoint split_sep (s : string) : Name :=
  match s with
  | EmptyString => [EmptyString]
  | String c rest =>
      if Ascii.eqb c "/"%char then EmptyString :: split_sep rest
      else match split_sep rest with
           | x :: xs => String c x :: xs
           | [] => [String c EmptyString]
           end
  end.

(** ['/'.join(cs)] *)
Definition join_sep (cs : Name) : string := String.concat "/" cs.

(** The name without the separators at its end. *)
Fixpoint strip (cs : Name) : Name :=
  match cs with
  | [] => []
  | c :: rest =>
      match strip rest with
      | [] => if String.eqb c EmptyString then [] else [c]
      | rest' => c :: rest'
      end
  end.

(** The name holds separators only. *)
Definition separators (cs : Name) : bool :=
  forallb (String.eqb EmptyString) cs.
Arguments separators : simpl never.

(** [posixpath.split(p)]:
    [i = p.rfind(sep) + 1; head, tail = p[:i], p[i:]];
    [if head and head != sep*len(head): head = head.rstrip(sep)]. *)
Definition path_split (cs : Name) : Name * string :=
  let tail := default EmptyString (last cs) in
  let front := removelast cs in
  if bool_decide (front = []) then ([EmptyString], tail)
  else if separators front
       then (front ++ [EmptyString], tail)
       else (strip front, tail).

(** The two lines with which [os.makedirs] begins:
    [head, tail = path.split(name)],
    [if not tail: head, tail = path.split(head)]. *)
Definition head_tail (cs : Name) : Name * string :=
  let split1 := path_split cs in
  if String.eqb split1.2 EmptyString then path_split split1.1 else split1.

(** One component further from [p]: an empty component and ['.'] stay,
    ['..'] leads up (the root is its own parent), a name leads down. *)
Definition step (p : Path) (c : string) : Path :=
  if (String.eqb c EmptyString || String.eqb c ".")%bool then p
  else if String.eqb c ".." then removelast p
  else p ++ [c].

(** A name that begins with a separator starts at the root, any other in
    the current directory [here]. *)
Definition absolute (cs : Name) : bool :=
  match cs with
  | c :: _ :: _ => String.eqb c EmptyString
  | _ => false
  end.

Definition start (here : Path) (cs : Name) : Path :=
  if absolute cs then [] else here.

(** Where a name leads when every directory on the way is there. *)
Definition lexical (here : Path) (cs : Name) : Path :=
  foldl step (start here cs) cs.

Definition parts (here : Path) (s : string) : Path :=
  lexical here (split_sep s).

(** *** Files and directories *)

(** The root, the current directory and the directories above it are
    always there. *)
Definition node_at (here : Path) (files : FS) (p : Path) : option Node :=
  if bool_decide (p `prefix_of` here) then Some Dir else files !! p.

(** The error numbers of the system calls modelled. *)
Inductive errno := ENOENT | ENOTDIR | EEXIST.

(** The exception Python makes of an error number. *)
Definition OSError (e : errno) (filename : string) : exn :=
  match e with
  | ENOENT => FileNotFoundError filename
  | ENOTDIR => NotADirectoryError filename
  | EEXIST => FileExistsError filename
  end.

(** Path resolution as the kernel does it, from the directory [cur]: to
    go one component further, be it empty or ['.'], the place reached so
    far has to be a directory. *)
Fixpoint walk (here : Path) (files : FS) (cur : Path) (cs : Name)
  : Path + errno :=
  match cs with
  | [] => inl cur
  | c :: rest =>
      match node_at here files cur with
      | Some Dir => walk here files (step cur c) rest
      | Some File => inr ENOTDIR
      | None => inr ENOENT
      end
  end.

(** [stat(name)] *)
Definition stat (here : Path) (files : FS) (cs : Name) : Node + errno :=
  if bool_decide (cs = [EmptyString]) then inr ENOENT
  else match walk here files (start here cs) cs with
       | inl p =>
           match node_at here files p with
           | Some k => inl k
           | None => inr ENOENT
           end
       | inr e => inr e
       end.

(** [os.path.exists], [os.path.isdir] and [os.path.isfile] *)
Definition name_exists (here : Path) (files : FS) (cs : Name) : bool :=
  match stat here files cs with
  | inl _ => true
  | inr _ => false
  end.

Definition name_isdir (here : Path) (files : FS) (cs : Name) : bool :=
  match stat here files cs with
  | inl Dir => true
  | _ => false
  end.


(** [mkdir(name)]: separators at the end are ignored; the directory above
    has to be there; a last component ['.'] or ['..'] names what is there
    already. *)
Definition mkdir (here : Path) (files : FS) (cs : Name) : FS + errno :=
  if bool_decide (cs = [EmptyString]) then inr ENOENT
  else
    let named := strip cs in
    match last named with
    | None => inr EEXIST
    | Some c =>
        match walk here files (start here cs) (removelast named) with
        | inr e => inr e
        | inl p =>
            match node_at here files p with
            | Some File => inr ENOTDIR
            | None => inr ENOENT
            | Some Dir =>
                if (String.eqb c "." || String.eqb c "..")%bool then inr EEXIST
                else match node_at here files (p ++ [c]) with
                     | Some _ => inr EEXIST
                     | None => inl (<[p ++ [c] := Dir]> files)
                     end
            end
        end
    end.

(** The last lines of [os.makedirs]:
    [try: mkdir(name, mode)]
    [except OSError:]
    [    if not exist_ok or not path.isdir(name): raise]. *)
Definition mkdir_unless_there (here : Path) (cs : Name) (exist_ok : bool)
  (files : FS) : Result unit * FS :=
  match mkdir here files cs with
  | inl files' => (Ok tt, files')
  | inr e =>
      if (exist_ok && name_isdir here files cs)%bool then (Ok tt, files)
      else (Raise (OSError e (join_sep cs)), files)
  end.

(** [os.makedirs(name, exist_ok=exist_ok)], after CPython's [os.py]:

    [head, tail = path.split(name)]
    [if not tail: head, tail = path.split(head)]
    [if head and tail and not path.exists(head):]
    [    try: makedirs(head, exist_ok=exist_ok)]
    [    except FileExistsError: pass]
    [    if tail == curdir: return]
    [try: mkdir(name, mode) ...]

    The recursion is on a shorter name; [fuel] bounds its depth, and
    Python's own bound on it is [RecursionError]. The disk is returned also
    when the call raises: directories made before that stay. *)
Fixpoint makedirs_from (fuel : nat) (here : Path) (cs : Name)
  (exist_ok : bool) (files : FS) : Result unit * FS :=
  match fuel with
  | O => (Raise RecursionError, files)
  | S fuel' =>
      let head := (head_tail cs).1 in
      let tail := (head_tail cs).2 in
      if (negb (bool_decide (head = [EmptyString]))
          && negb (String.eqb tail EmptyString)
          && negb (name_exists here files head))%bool
      then
        match makedirs_from fuel' here head exist_ok files with
        | (Raise (FileExistsError _), files') | (Ok _, files') =>
            if String.eqb tail "." then (Ok tt, files')
            else mkdir_unless_there here cs exist_ok files'
        | (Raise e, files') => (Raise e, files')
        end
      else mkdir_unless_there here cs exist_ok files
  end.

Definition makedirs (here : Path) (name : string) (exist_ok : bool)
  (files : FS) : Result unit * FS :=
  makedirs_from (length (split_sep name)) here (split_sep name) exist_ok files.

(** What the libraries write: regular files at the places the names lead
    to. *)
Definition write_files (ps : list Path) (files : FS) : FS :=
  foldr (fun p acc => <[p := File]> acc) files ps.

(** *** NumPy and Keras utilities *)

(** Whether all rows have one length: [np.array] refuses ragged rows. *)
Definition rectangular (rows : list (list float)) : bool :=
  match rows with
  | [] => true
  | r :: rest => forallb (fun r' => Nat.eqb (length r') (length r)) rest
  end.

Definition fits_int64 (v : Z) : bool := (- 2 ^ 63 <=? v) && (v <? 2 ^ 63).

Definition fits_uint64 (v : Z) : bool := (0 <=? v) && (v <? 2 ^ 64).

(** The int64 with the same 64 bits. *)
Definition wrap_int64 (v : Z) : Z := (v + 2 ^ 63) mod 2 ^ 64 - 2 ^ 63.

(** The nearest double, ties to even: a double holds 53 significant bits. *)
Definition round53 (v : Z) : Z :=
  let beyond := Z.log2 (Z.abs v) - 52 in
  if beyond <=? 0 then v
  else
    let unit := 2 ^ beyond in
    let q := Z.abs v / unit in
    let r := Z.abs v mod unit in
    let q' := if (unit <? 2 * r) || ((unit =? 2 * r) && Z.odd q)
              then q + 1 else q in
    Z.sgn v * (q' * unit).

(** The element type [np.array] finds for a Python list of ints. Each int
    is taken for an [int64], or else a [uint64], or else a Python object,
    and the types found are promoted to one: [int64] with [uint64] gives
    [float64]. So [[0; 5]] is an [int64] array, [[2^64 - 1]] a [uint64]
    array, [[0; 2^64 - 1]] a [float64] array and [[2^64]] an array of
    objects; the empty list gives an empty [float64] array. *)
Definition result_type (values : list Z) : DType :=
  if forallb fits_int64 values
  then match values with
       | [] => float64
       | _ => int64
       end
  else if forallb fits_uint64 values
       then if forallb (fun v => negb (fits_int64 v)) values
            then uint64 else float64
       else if forallb (fun v => fits_int64 v || fits_uint64 v) values
            then float64 else object.

(** [np.array(column)]. A Python list makes an array of the type found for
    it, and a [float64] array holds the nearest doubles. An integer array
    is copied with its type, which matters only where it is [uint64] with
    values from [2^63] on. *)
Definition np_array (format : Format) (values : list Z) : IntArray :=
  match format with
  | numpy_array =>
      mkIntArray (if forallb fits_int64 values then int64 else uint64) values
  | python_list =>
      match result_type values with
      | float64 => mkIntArray float64 (round53 <$> values)
      | t => mkIntArray t values
      end
  end.

(** A whole double as an [int64]: out of range, the conversion instruction
    of x86-64 yields the smallest [int64]. *)
Definition double_to_int64 (x : Z) : Z :=
  if fits_int64 x then x else - 2 ^ 63.

(** [np.array(y, dtype='int')]: an [int64] array is taken as it is, the
    bits of a [uint64] array are read as [int64], doubles are converted,
    and a Python int that is no [int64] raises [OverflowError]. *)
Definition as_int64 (y : IntArray) : Result (list Z) :=
  match dtype y with
  | int64 => Ok (items y)
  | uint64 => Ok (wrap_int64 <$> items y)
  | float64 => Ok (double_to_int64 <$> items y)
  | object =>
      if forallb fits_int64 (items y) then Ok (items y)
      else Raise OverflowError
  end.

(** An index into an axis of length [n]; negative indices count from the
    end. *)
Definition normalize_index (n i : Z) : option Z :=
  if (0 <=? i) && (i <? n) then Some i
  else if (- n <=? i) && (i <? 0) then Some (i + n)
  else None.

(** Whether NumPy makes a [float32] array of [rows] by [cols] at all: no
    dimension is negative, and the four bytes of an element, multiplied by
    every dimension that is not zero, stay below [2^63] (NumPy leaves the
    zero dimensions out of this product, so that an array without rows can
    still have too many columns). Whether there is memory for the array is
    a matter of the environment. *)
Definition array_fits (rows : nat) (cols : Z) : bool :=
  (0 <=? cols)
  && (4 * Z.max 1 (Z.of_nat rows) * Z.max 1 cols <? 2 ^ 63).

(** [np.zeros((rows, cols), dtype='float32')] *)
Definition np_zeros (rows : nat) (cols : Z) : Result (list (list float)) :=
  if array_fits rows cols
  then Ok (replicate rows (replicate (Z.to_nat cols) 0%float))
  else Raise ValueError.

(** [categorical[np.arange(n), y] = 1] *)
Definition set_ones (categorical : list (list float)) (y : list Z) (classes : Z)
  : Result (list (list float)) :=
  match mapM (normalize_index classes) y with
  | None => Raise IndexError
  | Some columns =>
      Ok (zip_with (fun row column => <[Z.to_nat column := 1%float]> row)
                   categorical columns)
  end.

(** [tf.keras.utils.to_categorical(y, num_classes=num_classes)] on a
    one-dimensional array, after Keras' [np_utils.py]:

    [y = np.array(y, dtype='int')]
    [if not num_classes: num_classes = np.max(y) + 1]
    [n = y.shape[0]]
    [categorical = np.zeros((n, num_classes), dtype=dtype)]
    [categorical[np.arange(n), y] = 1]

    [np.max] of an empty array raises [ValueError]; its sum with 1 is an
    [int64] again. *)
Definition to_categorical (y : IntArray) (num_classes : Z)
  : Result (list (list float)) :=
  y ← as_int64 y;
  classes ←
    (if num_classes =? 0
     then match y with
          | [] => Raise ValueError
          | l :: rest => Ok (wrap_int64 (foldr Z.max l rest + 1))
          end
     else Ok num_classes);
  categorical ← np_zeros (length y) classes;
  set_ones categorical y classes.

(** ** Library calls as programs *)

Section Program.
Context (env : Env).

(** A library call: it is logged with its outcome. The environment may make
    it raise; otherwise it behaves as modelled. *)
Definition call {A : Type} (ev : Event)
  (behaviour : State -> Result A * State) : M A :=
  fun s =>
    match raises env (trace s) ev with
    | Some e => (Raise e, log ev (Some e) s)
    | None =>
        match behaviour s with
        | (Ok a, s') => (Ok a, log ev None s')
        | (Raise e, s') => (Raise e, log ev (Some e) s')
        end
    end.

(** A call that changes nothing. *)
Definition pure_call {A : Type} (ev : Event) (r : Result A) : M A :=
  call ev (fun s => (r, s)).

(** [d[key]] on a dictionary *)
Definition subscript {A : Type} (container key : string) (d : gmap string A)
  : M A :=
  pure_call (E_getitem container key)
    (match d !! key with
     | Some v => Ok v
     | None => Raise (KeyError key)
     end).

(** [dataset[key]] on the object the reference [dataset] stands for *)
Definition dataset_getitem (dataset : nat) (key : string) : M Dataset :=
  call (E_getitem "dataset" key)
    (fun s =>
       match objects s !! dataset with
       | Some d =>
           match d !! key with
           | Some split => (Ok split, s)
           | None => (Raise (KeyError key), s)
           end
       | None => (Raise (ExternalError "no such object"), s)
       end).

(** [split[key]] for a column of a split *)
Definition column_getitem {A : Type} (container key : string)
  (column : option A) : M A :=
  pure_call (E_getitem container key)
    (match column with
     | Some v => Ok v
     | None => Raise (KeyError key)
     end).

Definition np_array_float (rows : list (list float)) : M (list (list float)) :=
  pure_call (E_np_array_float rows)
    (if rectangular rows then Ok rows else Raise ValueError).

Definition np_array_int (format : Format) (values : list Z) : M IntArray :=
  pure_call (E_np_array_int values) (Ok (np_array format values)).

Definition utils_to_categorical (y : IntArray) (classes : Z)
  : M (list (list float)) :=
  pure_call (E_to_categorical y classes) (to_categorical y classes).

Definition os_makedirs (name : string) (exist_ok : bool) : M unit :=
  call (E_makedirs name exist_ok)
    (fun s =>
       let r := makedirs (cwd env) name exist_ok (fs s) in
       (r.1, set_fs r.2 s)).

Definition os_path_join (a b : string) : M string :=
  pure_call (E_path_join a b) (Ok (path_join a b)).

Definition regularizers_l2 (factor : float) : M Regularizer :=
  pure_call (E_l2 factor) (Ok (l2 factor)).

(** [layers.Input(...)], [layers.Dense(...)], [layers.Dropout(...)] *)
Definition layers_new (l : Layer) : M Layer := pure_call (E_layer l) (Ok l).

Definition models_Sequential (ls : list Layer) : M KerasModel :=
  call (E_Sequential ls)
    (fun s => (Ok (mkKerasModel (next_id s) ls None 0),
               set_next_id (S (next_id s)) s)).

Definition optimizers_Adam (learning_rate clipnorm : float) : M Optimizer :=
  pure_call (E_Adam learning_rate clipnorm) (Ok (Adam learning_rate clipnorm)).

(** [tf.keras.metrics.Precision()] and the like *)
Definition metrics_new (m : Metric) : M Metric := pure_call (E_metric m) (Ok m).

(** [callbacks.EarlyStopping(...)] and the like *)
Definition callbacks_new (cb : Callback) : M Callback :=
  pure_call (E_callback cb) (Ok cb).

Definition print (text : string) : M unit := pure_call (E_print text) (Ok tt).

(** [self.model.<name>]: the attribute of [None] does not exist. *)
Definition self_model (name : string) : M KerasModel :=
  m ← gets model;
  match m with
  | Some k => mret k
  | None => raise (AttributeError name)
  end.

(** [self.model.compile(optimizer=..., loss=..., metrics=...)] *)
Definition model_compile (c : Compiled) : M unit :=
  k ← self_model "compile";
  call (E_compile (model_id k) c)
    (fun s =>
       (Ok tt,
        set_model
          (Some (mkKerasModel (model_id k) (model_layers k) (Some c) (fits k)))
          s)).

(** [self.model.summary()] *)
Definition model_summary : M unit :=
  k ← self_model "summary";
  pure_call (E_summary (model_id k)) (Ok tt).

(** The files a callback leaves behind during [fit]. *)
Definition callback_files (tr : list Entry) (cb : Callback) : list Path :=
  match cb with
  | TensorBoard d _ _ =>
      (fun rel => parts (cwd env) d ++ rel)
        <$> List.filter (fun rel => negb (Nat.eqb (length rel) 0))
                        (event_files env tr)
  | ModelCheckpoint f _ _ => if improved env tr then [parts (cwd env) f] else []
  | _ => []
  end.

(** [self.model.fit(x, y, validation_data=..., epochs=..., batch_size=...,
    callbacks=..., verbose=...)] *)
Definition model_fit (x y : list (list float))
  (validation_data : list (list float) * list (list float))
  (epochs batch_size : Z) (callbacks : list Callback) (verbose : Z)
  : M History :=
  k ← self_model "fit";
  call (E_fit (model_id k) x y validation_data.1 validation_data.2
              epochs batch_size callbacks verbose)
    (fun s =>
       (Ok (mkHistory (training env (trace s))),
        set_fs (write_files (callbacks ≫= callback_files (trace s)) (fs s))
          (set_model
             (Some (mkKerasModel (model_id k) (model_layers k) (compiled k)
                                 (S (fits k))))
             s))).

Definition plt (p : PlotCall) : M unit :=
  call (E_plt p)
    (fun s =>
       match p with
       | plt_savefig fname =>
           (Ok tt, set_fs (write_files [parts (cwd env) fname] (fs s)) s)
       | _ => (Ok tt, s)
       end).

(** [subprocess.Popen(args)]: the child runs on its own; the call returns
    its command line as the handle. *)
Definition subprocess_Popen (args : list string) : M (list string) :=
  call (E_Popen args)
    (fun s => (Ok args, set_children (children s ++ [args]) s)).

(** ** class FacialDetectionModel *)

Definition default_input_shape : list Z := [512].
Definition default_num_classes : Z := 10.
Definition default_log_dir : string := "./logs".
Definition default_learning_rate : float := 1e-3%float.
Definition default_epochs : Z := 100.
Definition default_batch_size : Z := 8.

(** [def __init__(self, input_shape=(512,), num_classes=10, log_dir='./logs')] *)
Definition __init__ (input_shape : list Z) (num_classes : Z) (log_dir : string)
  : M unit :=
  modify (set_model None);;
  modify (set_input_shape input_shape);;
  modify (set_num_classes num_classes);;
  modify (set_log_dir log_dir);;
  (* Ensure log directory exists *)
  os_makedirs log_dir true.

(** [def prepare_dataset(self, dataset)] *)
Definition prepare_dataset (dataset : nat)
  : M (list (list float) * list (list float)
       * list (list float) * list (list float)) :=
  (* Convert embeddings and labels to numpy arrays *)
  train ← dataset_getitem dataset "train";
  column ← column_getitem "dataset['train']" "embedding" (embedding train);
  X_train ← np_array_float column;
  train ← dataset_getitem dataset "train";
  column ← column_getitem "dataset['train']" "label" (label train);
  y_train ← np_array_int (label_format train) column;
  test ← dataset_getitem dataset "test";
  column ← column_getitem "dataset['test']" "embedding" (embedding test);
  X_test ← np_array_float column;
  test ← dataset_getitem dataset "test";
  column ← column_getitem "dataset['test']" "label" (label test);
  y_test ← np_array_int (label_format test) column;
  (* One-hot encode labels *)
  classes ← gets num_classes;
  y_train ← utils_to_categorical y_train classes;
  classes ← gets num_classes;
  y_test ← utils_to_categorical y_test classes;
  mret (X_train, y_train, X_test, y_test).

(** [def build_model(self, learning_rate=1e-3)] *)
Definition build_model (learning_rate : float) : M unit :=
  shape ← gets input_shape;
  input ← layers_new (Input shape);
  (* First dense layer with L2 regularization and dropout *)
  reg ← regularizers_l2 1e-4;
  dense1 ← layers_new (Dense 264 relu (Some reg));
  dropout1 ← layers_new (Dropout 0.4);
  (* Second dense layer *)
  reg ← regularizers_l2 1e-4;
  dense2 ← layers_new (Dense 128 relu (Some reg));
  dropout2 ← layers_new (Dropout 0.4);
  (* Third dense layer *)
  reg ← regularizers_l2 1e-4;
  dense3 ← layers_new (Dense 64 relu (Some reg));
  dropout3 ← layers_new (Dropout 0.3);
  classes ← gets num_classes;
  output ← layers_new (Dense classes softmax None);
  sequential ← models_Sequential
    [input; dense1; dropout1; dense2; dropout2; dense3; dropout3; output];
  modify (set_model (Some sequential));;
  (* Advanced optimizer with adaptive learning rate *)
  optimizer ← optimizers_Adam learning_rate 1.0;
  (* Compile with advanced metrics *)
  precision ← metrics_new Precision;
  recall ← metrics_new Recall;
  auc ← metrics_new AUC;
  model_compile
    (mkCompiled optimizer "categorical_crossentropy"
                [MetricName "accuracy"; precision; recall; auc]);;
  model_summary;;
  print "None".

(** [def train(self, dataset, epochs=100, batch_size=8)] *)
Definition train (dataset : nat) (epochs batch_size : Z) : M History :=
  (* Prepare dataset *)
  '(X_train, y_train, X_test, y_test) ← prepare_dataset dataset;
  (* Build model if not already built *)
  current ← gets model;
  (if current is None then build_model default_learning_rate else mret tt);;
  (* Callbacks for advanced training *)
  early_stopping ← callbacks_new (EarlyStopping "val_loss" 10 true);
  reduce_lr ← callbacks_new (ReduceLROnPlateau "val_loss" 0.5 5 1e-5);
  dir ← gets log_dir;
  tensorboard ← callbacks_new (TensorBoard dir 1 0);
  dir ← gets log_dir;
  filepath ← os_path_join dir "best_model.keras";
  checkpoint ← callbacks_new (ModelCheckpoint filepath "val_accuracy" true);
  (* Train the model with callbacks *)
  history ← model_fit X_train y_train (X_test, y_test) epochs batch_size
    [early_stopping; reduce_lr; tensorboard; checkpoint] 1;
  mret history.

(** [def plot_training_history(self, history)] *)
Definition plot_training_history (h : History) : M unit :=
  (* Create a figure with multiple subplots *)
  plt (plt_figure 10 5);;
  (* Plot training & validation accuracy values *)
  plt (plt_subplot 1 2 1);;
  series ← subscript "history.history" "accuracy" (history h);
  plt (plt_plot series);;
  series ← subscript "history.history" "val_accuracy" (history h);
  plt (plt_plot series);;
  plt (plt_title "Model Accuracy");;
  plt (plt_ylabel "Accuracy");;
  plt (plt_xlabel "Epoch");;
  plt (plt_legend ["Train"; "Validation"] "lower right");;
  (* Plot training & validation loss values *)
  plt (plt_subplot 1 2 2);;
  series ← subscript "history.history" "loss" (history h);
  plt (plt_plot series);;
  series ← subscript "history.history" "val_loss" (history h);
  plt (plt_plot series);;
  plt (plt_title "Model Loss");;
  plt (plt_ylabel "Loss");;
  plt (plt_xlabel "Epoch");;
  plt (plt_legend ["Train"; "Validation"] "upper right");;
  plt plt_tight_layout;;
  plt (plt_savefig "training_history.png");;
  plt plt_close.

(** [def run_tensorboard(self)] *)
Definition run_tensorboard : M (list string) :=
  (* Start TensorBoard *)
  dir ← gets log_dir;
  tensorboard_process ← subprocess_Popen ["tensorboard"; "--logdir"; dir];
  print "TensorBoard running. Open http://localhost:6006 in your browser.";;
  mret tensorboard_process.

End Program.

(** ** Sample worlds *)

Definition sample_curves : gmap string (list float) :=
  {[ "accuracy" := [0.1071; 0.1969]%float;
     "val_accuracy" := [0.2029; 0.3121]%float;
     "loss" := [3.0869; 2.6058]%float;
     "val_loss" := [2.5609; 2.24]%float ]}.

(** The directory the notebook runs in. *)
Definition sample_cwd : Path := ["home"; "notebook"].

(** An environment in which no call fails. *)
Definition calm : Env :=
  mkEnv sample_cwd
        (fun _ _ => None)
        (fun _ => sample_curves)
        (fun _ => [["train"; "events.out.tfevents"];
                   ["validation"; "events.out.tfevents"]])
        (fun _ => true).

(** An environment in which the training loop fails. *)
Definition stormy : Env :=
  mkEnv sample_cwd
        (fun _ ev =>
           match ev with
           | E_fit _ _ _ _ _ _ _ _ _ => Some (ExternalError "shape mismatch")
           | _ => None
           end)
        (fun _ => sample_curves)
        (fun _ => [])
        (fun _ => false).

Definition sample_dataset : gmap string Dataset :=
  {[ "train" := mkDataset (Some [[0.5; 0.25]; [0.75; 1]; [0; 0.125]]%float)
                          (Some [0; 2; 1]) python_list;
     "test" := mkDataset (Some [[1; 0.5]]%float) (Some [1]) python_list ]}.

(** The world before the notebook creates the instance: the dataset is
    loaded (reference 0), no directory has been made. *)
Definition world0 : State :=
  mkState None [] 0 EmptyString {[ 0%nat := sample_dataset ]} ∅ [] [] 0.


(** ** Vocabulary of the properties *)

(** The operations of the class, with their arguments. *)
Inductive Operation :=
| op_init (input_shape : list Z) (num_classes : Z) (log_dir : string)
| op_prepare_dataset (dataset : nat)
| op_build_model (learning_rate : float)
| op_train (dataset : nat) (epochs batch_size : Z)
| op_plot_training_history (h : History)
| op_run_tensorboard.

(** What the caller sees of a run: the exception, if any, and the state. *)
Definition outcome {A : Type} (r : Result A * State) : option exn * State :=
  (match r.1 with Ok _ => None | Raise e => Some e end, r.2).

Definition perform (env : Env) (op : Operation) (s : State)
  : option exn * State :=
  match op with
  | op_init i n l => outcome (__init__ env i n l s)
  | op_prepare_dataset d => outcome (prepare_dataset env d s)
  | op_build_model lr => outcome (build_model env lr s)
  | op_train d e b => outcome (train env d e b s)
  | op_plot_training_history h => outcome (plot_training_history env h s)
  | op_run_tensorboard => outcome (run_tensorboard env s)
  end.

(** The log entries a run from [s] to [s'] added. *)
Definition new_entries (s s' : State) : list Entry :=
  drop (length (trace s)) (trace s').

Definition new_calls (s s' : State) : list Event :=
  called <$> new_entries s s'.

(** The environment makes no call fail. *)
Definition quiet (env : Env) : Prop :=
  forall tr ev, raises env tr ev = None.

(** [os.path.isdir(name)] *)
Definition isdir (here : Path) (files : FS) (name : string) : bool :=
  name_isdir here files (split_sep name).

(** The places a name passes, component by component, when every
    directory on the way is there. *)
Definition passes (here : Path) (cs : Name) (n : nat) : Path :=
  foldl step (start here cs) (take n cs).

(** [try: makedirs(head) except FileExistsError: pass]: the outcomes of the
    inner call after which [makedirs] goes on. *)
Definition goes_on (r : Result unit) : bool :=
  match r with
  | Ok _ | Raise (FileExistsError _) => true
  | Raise _ => false
  end.

(** The disk [files'] is [files] with directories added where nothing
    was. *)
Definition grows (here : Path) (files files' : FS) : Prop :=
  forall p, files' !! p = files !! p \/
            (node_at here files p = None /\ files' !! p = Some Dir).

(** Every place above [p] is a directory. *)
Definition dirs_above (here : Path) (files : FS) (p : Path) : Prop :=
  forall n, (n < length p)%nat -> node_at here files (take n p) = Some Dir.

(** The name resolves to the directory at [p]. *)
Definition leads_to (here : Path) (files : FS) (cur : Path) (cs : Name)
  (p : Path) : Prop :=
  walk here files cur cs = inl p /\ node_at here files p = Some Dir.

(** No regular file lies where the name leads or on the way there. *)
Definition unobstructed (here : Path) (files : FS) (name : string) : Prop :=
  forall n, node_at here files (passes here (split_sep name) n) <> Some File.

(** A row that is 1 at [index] and 0 elsewhere. *)
Definition one_hot_at (width : Z) (index : Z) (row : list float) : Prop :=
  length row = Z.to_nat width /\
  row !! Z.to_nat index = Some 1%float /\
  forall j, j <> Z.to_nat index -> (j < length row)%nat ->
            row !! j = Some 0%float.

(** The width of the last layer. *)
Definition output_width (k : KerasModel) : option Z :=
  match last (model_layers k) with
  | Some (Dense units _ _) => Some units
  | _ => None
  end.

(** The calls that assemble and compile a model. *)
Definition is_build (ev : Event) : bool :=
  match ev with
  | E_l2 _ | E_layer _ | E_Sequential _ | E_Adam _ _ | E_metric _
  | E_compile _ _ | E_summary _ => true
  | _ => false
  end.

(** The calls that start something running beside the program. *)
Definition spawns (ev : Event) : bool :=
  match ev with
  | E_Popen _ => true
  | _ => false
  end.

(** Where a call is told to write: one file, or files below a directory. *)
Inductive Target :=
| file_at (name : string)
| files_below (dir : string).

Definition callback_targets (cb : Callback) : list Target :=
  match cb with
  | TensorBoard d _ _ => [files_below d]
  | ModelCheckpoint f _ _ => [file_at f]
  | _ => []
  end.

Definition targets (ev : Event) : list Target :=
  match ev with
  | E_fit _ _ _ _ _ _ _ cbs _ => cbs ≫= callback_targets
  | E_plt (plt_savefig f) => [file_at f]
  | _ => []
  end.

(** [p] lies strictly below the directory [d]. *)
Definition below (d p : Path) : Prop :=
  exists rel, rel <> [] /\ p = d ++ rel.

Definition required_keys : list string :=
  ["accuracy"; "val_accuracy"; "loss"; "val_loss"].

(** *** The steps of [train], as lists of calls *)

(** (a) array conversion and one-hot label encoding *)
Definition conversion_calls (X_train : list (list float))
  (format_train : Format) (y_train : list Z) (X_test : list (list float))
  (format_test : Format) (y_test : list Z) (classes : Z) : list Event :=
  [ E_getitem "dataset" "train"; E_getitem "dataset['train']" "embedding";
    E_np_array_float X_train;
    E_getitem "dataset" "train"; E_getitem "dataset['train']" "label";
    E_np_array_int y_train;
    E_getitem "dataset" "test"; E_getitem "dataset['test']" "embedding";
    E_np_array_float X_test;
    E_getitem "dataset" "test"; E_getitem "dataset['test']" "label";
    E_np_array_int y_test;
    E_to_categorical (np_array format_train y_train) classes;
    E_to_categorical (np_array format_test y_test) classes ].

Definition dense_stack (shape : list Z) (classes : Z) : list Layer :=
  [ Input shape;
    Dense 264 relu (Some (l2 1e-4)); Dropout 0.4;
    Dense 128 relu (Some (l2 1e-4)); Dropout 0.4;
    Dense 64 relu (Some (l2 1e-4)); Dropout 0.3;
    Dense classes softmax None ].

(** (b) sequential dense-layer model assembly *)
Definition assembly_calls (shape : list Z) (classes : Z) : list Event :=
  [ E_layer (Input shape);
    E_l2 1e-4; E_layer (Dense 264 relu (Some (l2 1e-4)));
    E_layer (Dropout 0.4);
    E_l2 1e-4; E_layer (Dense 128 relu (Some (l2 1e-4)));
    E_layer (Dropout 0.4);
    E_l2 1e-4; E_layer (Dense 64 relu (Some (l2 1e-4)));
    E_layer (Dropout 0.3);
    E_layer (Dense classes softmax None);
    E_Sequential (dense_stack shape classes) ].

Definition compile_config (learning_rate : float) : Compiled :=
  mkCompiled (Adam learning_rate 1.0) "categorical_crossentropy"
             [MetricName "accuracy"; Precision; Recall; AUC].

(** (c) optimizer/loss/metric compilation *)
Definition compilation_calls (learning_rate : float) (id : nat) : list Event :=
  [ E_Adam learning_rate 1.0;
    E_metric Precision; E_metric Recall; E_metric AUC;
    E_compile id (compile_config learning_rate);
    E_summary id; E_print "None" ].

Definition four_callbacks (dir : string) : list Callback :=
  [ EarlyStopping "val_loss" 10 true;
    ReduceLROnPlateau "val_loss" 0.5 5 1e-5;
    TensorBoard dir 1 0;
    ModelCheckpoint (path_join dir "best_model.keras") "val_accuracy" true ].

(** (d) the callbacks and the one call into the training loop *)
Definition training_calls (dir : string) (id : nat)
  (X_train y_train X_test y_test : list (list float)) (epochs batch_size : Z)
  : list Event :=
  [ E_callback (EarlyStopping "val_loss" 10 true);
    E_callback (ReduceLROnPlateau "val_loss" 0.5 5 1e-5);
    E_callback (TensorBoard dir 1 0);
    E_path_join dir "best_model.keras";
    E_callback (ModelCheckpoint (path_join dir "best_model.keras")
                                "val_accuracy" true);
    E_fit id X_train y_train X_test y_test epochs batch_size
          (four_callbacks dir) 1 ].

(** The instance the notebook creates, with three classes. *)
Definition world1 : State := (__init__ calm [2] 3 "./logs" world0).2.

(** The same instance after one call of [train]. *)
Definition world2 : State := (train calm 0 100 8 world1).2.

(** *** Properties of programs *)

(** Every run of [m] relates the state before to the state after. *)
Definition keeps {A : Type} (R : State -> State -> Prop) (m : M A) : Prop :=
  forall s, R s (m s).2.

(** A run from [s] only added entries to the log, and an entry that raised
    is the last one and is what the run raised. *)
Definition propagated (s : State) (r : option exn * State) : Prop :=
  exists new,
    trace r.2 = trace s ++ new /\
    forall i en e,
      new !! i = Some en -> raised en = Some e ->
      r.1 = Some e /\ S i = length new.

Definition faithful {A : Type} (m : M A) : Prop :=
  forall s, propagated s (outcome (m s)).

(** All but the log is as before. *)
Definition same_but_trace (s s' : State) : Prop :=
  model s' = model s /\ input_shape s' = input_shape s /\
  num_classes s' = num_classes s /\ log_dir s' = log_dir s /\
  objects s' = objects s /\ fs s' = fs s /\ children s' = children s /\
  next_id s' = next_id s.

(** Log entries of calls that returned. *)
Definition returned (evs : list Event) : list Entry :=
  (fun ev => mkEntry ev None) <$> evs.

(** The run from [s] to [s'] logged only calls that satisfy [allowed]. *)
Definition only (allowed : Event -> bool) (s s' : State) : Prop :=
  exists new,
    trace s' = trace s ++ new /\
    Forall (fun en => allowed (called en) = true) new.

Definition no_spawn (ev : Event) : bool := negb (spawns ev).

Definition no_build (ev : Event) : bool := negb (is_build ev).

(** The instance attributes other than [model] are as before. *)
Definition settled (s s' : State) : Prop :=
  input_shape s' = input_shape s /\ num_classes s' = num_classes s /\
  log_dir s' = log_dir s.

(** No process was started. *)
Definition alone (s s' : State) : Prop :=
  children s' = children s /\ only no_spawn s s'.

(** The identity of the model [train] fits: the one the instance has, or
    the one about to be built. *)
Definition fitted_model_id (s : State) : nat :=
  match model s with
  | Some k => model_id k
  | None => next_id s
  end.

(** The calls of a run of [train] that returns, from the state [s]: steps
    (b) and (c) belong to it when the instance has no model yet. *)
Definition train_calls (s : State) (X_train : list (list float))
  (format_train : Format) (labels_train : list Z)
  (X_test : list (list float)) (format_test : Format) (labels_test : list Z)
  (y_train y_test : list (list float)) (epochs batch_size : Z) : list Event :=
  conversion_calls X_train format_train labels_train
                   X_test format_test labels_test (num_classes s) ++
  match model s with
  | None =>
      assembly_calls (input_shape s) (num_classes s) ++
      compilation_calls default_learning_rate (next_id s)
  | Some _ => []
  end ++
  training_calls (log_dir s) (fitted_model_id s)
                 X_train y_train X_test y_test epochs batch_size.

(** The model object of [s] is still the model object of [s']: same
    identity, layers and compilation. *)
Definition same_model (s s' : State) : Prop :=
  forall k, model s = Some k ->
  exists k', model s' = Some k' /\ model_id k' = model_id k /\
             model_layers k' = model_layers k /\ compiled k' = compiled k.

(** The run built nothing: no call assembles or compiles a model, and the
    model the instance had is the model it has. *)
Definition reuses (s s' : State) : Prop :=
  only no_build s s' /\ same_model s s'.

(** The first of the four keys that a history lacks. *)
Definition first_missing (d : gmap string (list float)) : option string :=
  head (List.filter
          (fun k => match d !! k with Some _ => false | None => true end)
          required_keys).

(** The calls of a run of [plot_training_history] that returns. *)
Definition plot_calls (accuracy val_accuracy loss val_loss : list float)
  : list Event :=
  [ E_plt (plt_figure 10 5);
    E_plt (plt_subplot 1 2 1);
    E_getitem "history.history" "accuracy"; E_plt (plt_plot accuracy);
    E_getitem "history.history" "val_accuracy"; E_plt (plt_plot val_accuracy);
    E_plt (plt_title "Model Accuracy"); E_plt (plt_ylabel "Accuracy");
    E_plt (plt_xlabel "Epoch");
    E_plt (plt_legend ["Train"; "Validation"] "lower right");
    E_plt (plt_subplot 1 2 2);
    E_getitem "history.history" "loss"; E_plt (plt_plot loss);
    E_getitem "history.history" "val_loss"; E_plt (plt_plot val_loss);
    E_plt (plt_title "Model Loss"); E_plt (plt_ylabel "Loss");
    E_plt (plt_xlabel "Epoch");
    E_plt (plt_legend ["Train"; "Validation"] "upper right");
    E_plt plt_tight_layout;
    E_plt (plt_savefig "training_history.png");
    E_plt plt_close ].

(** Where the class may write: below the log directory, the checkpoint
    file in it, and the plot in the current directory. *)
Definition allowed_targets (dir : string) : list Target :=
  [ files_below dir;
    file_at (path_join dir "best_model.keras");
    file_at "training_history.png" ].

#[export] Instance Target_eq_dec : EqDecision Target.
Proof. solve_decision. Defined.

(** The call is told to write nowhere else. *)
Definition within (dir : string) (ev : Event) : bool :=
  forallb (fun t => bool_decide (t ∈ allowed_targets dir)) (targets ev).

(** A regular file of [s'] was one of [s], or lies below the log
    directory, or is the plot. *)
Definition files_within (here : Path) (dir : string) (s s' : State) : Prop :=
  forall p, fs s' !! p = Some File ->
            fs s !! p = Some File \/ below (parts here dir) p \/
            p = here ++ ["training_history.png"].

Definition artifacts (here : Path) (dir : string) (s s' : State) : Prop :=
  only (within dir) s s' /\ files_within here dir s s'.

(** ** The notebook's driver cell

    [facial_model = FacialDetectionModel(
         input_shape=(len(dataset['train'][0]['embedding']),),
         num_classes=len(set(dataset['train']['label'])))],
    [history = facial_model.train(dataset)],
    [facial_model.plot_training_history(history)]. *)

(** One example of a split: the value of each column the split has. *)
Record Row := mkRow {
  row_embedding : option (list float);
  row_label : option Z
}.

Definition column_first {A : Type} (column : option (list A))
  : Result (option A) :=
  match column with
  | None => Ok None
  | Some [] => Raise IndexError
  | Some (x :: _) => Ok (Some x)
  end.

(** [split[0]]: the first example; a split without rows has none. *)
Definition first_row (split : Dataset) : Result Row :=
  match embedding split, label split with
  | None, None => Raise IndexError
  | e, l =>
      x ← column_first e;
      y ← column_first l;
      Ok (mkRow x y)
  end.

(** [len(set(labels))] *)
Definition count_distinct (labels : list Z) : Z :=
  Z.of_nat (length (remove_dups labels)).

Section Notebook.
Context (env : Env).

Definition row_getitem (container : string) (split : Dataset) : M Row :=
  pure_call env (E_getitem container "0") (first_row split).

Definition notebook_cell (dataset : nat) : M unit :=
  (* Initialize and train the model *)
  split ← dataset_getitem env dataset "train";
  row ← row_getitem "dataset['train']" split;
  first ← column_getitem env "dataset['train'][0]" "embedding"
                         (row_embedding row);
  split ← dataset_getitem env dataset "train";
  labels ← column_getitem env "dataset['train']" "label" (label split);
  __init__ env [Z.of_nat (length first)] (count_distinct labels)
           default_log_dir;;
  (* Train the model *)
  history ← train env dataset default_epochs default_batch_size;
  (* Plot training history *)
  plot_training_history env history.

(** [n] calls of [train] in a row, each one returning. *)
Fixpoint train_times (dataset : nat) (epochs batch_size : Z) (n : nat)
  : M unit :=
  match n with
  | O => mret tt
  | S n' =>
      train env dataset epochs batch_size;;
      train_times dataset epochs batch_size n'
  end.

End Notebook.


(** The largest label. *)
Definition max_label (l : Z) (rest : list Z) : Z := foldr Z.max l rest.

(** An environment in which compiling a model fails. *)
Definition brittle : Env :=
  mkEnv sample_cwd
        (fun _ ev =>
           match ev with
           | E_compile _ _ => Some (ExternalError "cannot compile")
           | _ => None
           end)
        (fun _ => sample_curves)
        (fun _ => [])
        (fun _ => false).

(** A dataset whose labels are not the class indices 0, 1. *)
Definition gapped_dataset : gmap string Dataset :=
  {[ "train" := mkDataset (Some [[0.5; 0.25]; [0.75; 1]]%float) (Some [0; 5]) python_list;
     "test" := mkDataset (Some [[1; 0.5]]%float) (Some [0]) python_list ]}.

(** A dataset whose train split has no rows. *)
Definition empty_dataset : gmap string Dataset :=
  {[ "train" := mkDataset (Some []) (Some []) python_list;
     "test" := mkDataset (Some [[1; 0.5]]%float) (Some [0]) python_list ]}.

Definition world_with (ds : gmap string Dataset) : State :=
  mkState None [] 0 EmptyString {[ 0%nat := ds ]} ∅ [] [] 0.

(** A dataset with a label that counts from the end. *)
Definition wrapping_dataset : gmap string Dataset :=
  {[ "train" := mkDataset (Some [[0.5; 0.25]; [0.75; 1]]%float) (Some [0; -1]) python_list;
     "test" := mkDataset (Some [[1; 0.5]]%float) (Some [-3]) python_list ]}.

(** A dataset formatted for NumPy whose train labels are unsigned: the
    second is the largest [uint64]. *)
Definition unsigned_dataset : gmap string Dataset :=
  {[ "train" := mkDataset (Some [[0.5; 0.25]; [0.75; 1]]%float)
                          (Some [5; 2 ^ 64 - 1]) numpy_array;
     "test" := mkDataset (Some [[1; 0.5]]%float) (Some [0]) numpy_array ]}.

(** What [build_model lr] run from [s] can leave behind, [r] being its
    result and final state: the model is untouched, or assembled, or
    assembled and compiled; and a failing [compile] as last call means the
    run raised its exception with the model assembled and not compiled. *)
Definition build_outcome (lr : float) (s : State) (r : Result unit * State)
  : Prop :=
  (model r.2 = model s \/
   model r.2
   = Some (mkKerasModel (next_id s)
             (dense_stack (input_shape s) (num_classes s)) None 0) \/
   model r.2
   = Some (mkKerasModel (next_id s)
             (dense_stack (input_shape s) (num_classes s))
             (Some (compile_config lr)) 0)) /\
  (forall tr e id c,
     trace r.2 = tr ++ [mkEntry (E_compile id c) (Some e)] ->
     r.1 = Raise e /\
     model r.2
     = Some (mkKerasModel (next_id s)
               (dense_stack (input_shape s) (num_classes s)) None 0)).

(** Both splits are there, each with both columns. *)
Definition complete (ds : gmap string Dataset) : Prop :=
  exists train test,
    ds !! "train" = Some train /\ ds !! "test" = Some test /\
    is_Some (embedding train) /\ is_Some (label train) /\
    is_Some (embedding test) /\ is_Some (label test).

(** A dataset without a test split. *)
Definition partial_dataset : gmap string Dataset :=
  {[ "train" := mkDataset (Some [[0.5; 0.25]; [0.75; 1]]%float) (Some [0; 1]) python_list ]}.

(** The calls into the training loop. *)
Definition is_fit (ev : Event) : bool :=
  match ev with
  | E_fit _ _ _ _ _ _ _ _ _ => true
  | _ => false
  end.


(** * Properties *)

(** ** The monad *)

Lemma bind_run {A B : Type} (m : M A) (k : A -> M B) (s : State) :
  (m ≫= k) s =
  match m s with
  | (Ok a, s') => k a s'
  | (Raise e, s') => (Raise e, s')
  end.
Proof. reflexivity. Qed.

Lemma bind_Ok {A B : Type} (m : M A) (k : A -> M B) s b s2 :
  (m ≫= k) s = (Ok b, s2) ->
  exists a s1, m s = (Ok a, s1) /\ k a s1 = (Ok b, s2).
Proof.
  rewrite bind_run. destruct (m s) as [[a|e] s1]; intros H.
  - exists a, s1. split; [reflexivity | exact H].
  - discriminate H.
Qed.

Lemma trace_log ev r s : trace (log ev r s) = trace s ++ [mkEntry ev r].
Proof. reflexivity. Qed.

Lemma new_entries_app s s' new :
  trace s' = trace s ++ new -> new_entries s s' = new.
Proof.
  intros H. unfold new_entries. rewrite H. apply drop_app_length.
Qed.

(** ** Relations kept by every step *)

Section Keeps.
Context (env : Env) (R : State -> State -> Prop) `{!PreOrder R}.

Lemma keeps_ret {A : Type} (a : A) : keeps R (mret a).
Proof. intros s. reflexivity. Qed.

Lemma keeps_raise {A : Type} (e : exn) : keeps R (@raise A e).
Proof. intros s. reflexivity. Qed.

Lemma keeps_gets {A : Type} (f : State -> A) : keeps R (gets f).
Proof. intros s. reflexivity. Qed.

Lemma keeps_modify (f : State -> State) :
  (forall s, R s (f s)) -> keeps R (modify f).
Proof. intros Hf s. apply Hf. Qed.

Lemma keeps_bind {A B : Type} (m : M A) (k : A -> M B) :
  keeps R m -> (forall a, keeps R (k a)) -> keeps R (m ≫= k).
Proof.
  intros Hm Hk s. rewrite bind_run. specialize (Hm s).
  destruct (m s) as [[a|e] s1]; simpl in *.
  - transitivity s1; [exact Hm | apply Hk].
  - exact Hm.
Qed.

Lemma keeps_call {A : Type} ev (behaviour : State -> Result A * State) :
  (forall s, R s (behaviour s).2) ->
  (forall s r, R s (log ev r s)) ->
  keeps R (call env ev behaviour).
Proof.
  intros Hb Hl s. unfold call.
  destruct (raises env (trace s) ev) as [e|]; simpl.
  - apply Hl.
  - specialize (Hb s). destruct (behaviour s) as [[a|e] s1]; simpl in *;
      (transitivity s1; [exact Hb | apply Hl]).
Qed.

Lemma keeps_pure_call {A : Type} ev (r : Result A) :
  (forall s o, R s (log ev o s)) -> keeps R (pure_call env ev r).
Proof. intros Hl. apply keeps_call; [intros s; reflexivity | exact Hl]. Qed.

Lemma keeps_self_model name : keeps R (self_model name).
Proof.
  apply keeps_bind; [apply keeps_gets |].
  intros [k|]; [apply keeps_ret | apply keeps_raise].
Qed.

End Keeps.

(** ** Exceptions reach the caller *)

Lemma propagated_refl s : propagated s (None, s).
Proof.
  exists []. split; [symmetry; apply app_nil_r |].
  intros i en e H. rewrite lookup_nil in H. discriminate H.
Qed.

Lemma faithful_ret {A : Type} (a : A) : faithful (mret a).
Proof. intros s. apply propagated_refl. Qed.

Lemma faithful_gets {A : Type} (f : State -> A) : faithful (gets f).
Proof. intros s. apply propagated_refl. Qed.

Lemma faithful_raise {A : Type} (e : exn) : faithful (@raise A e).
Proof.
  intros s. exists []. split; [symmetry; apply app_nil_r |].
  intros i en e' H. rewrite lookup_nil in H. discriminate H.
Qed.

Lemma faithful_modify (f : State -> State) :
  (forall s, trace (f s) = trace s) -> faithful (modify f).
Proof.
  intros Hf s. exists []. split; [simpl; rewrite Hf, app_nil_r; reflexivity |].
  intros i en e H. rewrite lookup_nil in H. discriminate H.
Qed.

Lemma faithful_bind {A B : Type} (m : M A) (k : A -> M B) :
  faithful m -> (forall a, faithful (k a)) -> faithful (m ≫= k).
Proof.
  intros Hm Hk s. unfold outcome. rewrite bind_run.
  destruct (Hm s) as (new1 & Ht1 & Hr1). unfold outcome in Ht1, Hr1.
  destruct (m s) as [[a|e] s1]; simpl in *.
  - destruct (Hk a s1) as (new2 & Ht2 & Hr2). unfold outcome in Ht2, Hr2.
    exists (new1 ++ new2). split.
    + rewrite Ht2, Ht1, app_assoc. reflexivity.
    + intros i en e Hi He.
      destruct (lookup_app_Some new1 new2 i en) as [Hsplit _].
      destruct (Hsplit Hi) as [Hl | [Hge Hl]].
      * destruct (Hr1 i en e Hl He) as [Hbad _]. discriminate Hbad.
      * destruct (Hr2 _ en e Hl He) as [Hres Hlen]. split; [exact Hres |].
        rewrite length_app. lia.
  - exists new1. split; [exact Ht1 | exact Hr1].
Qed.

Lemma faithful_call (env : Env) {A : Type} ev
  (behaviour : State -> Result A * State) :
  (forall s, trace (behaviour s).2 = trace s) ->
  faithful (call env ev behaviour).
Proof.
  intros Hb s. unfold outcome, call.
  destruct (raises env (trace s) ev) as [e|]; simpl.
  - exists [mkEntry ev (Some e)]. split; [reflexivity |].
    intros [|i] en e' Hi He; simpl in Hi; [| discriminate Hi].
    injection Hi as <-. simpl in He. injection He as <-. split; reflexivity.
  - specialize (Hb s). destruct (behaviour s) as [[a|e] s1]; simpl in *.
    + exists [mkEntry ev None]. split; [simpl; rewrite Hb; reflexivity |].
      intros [|i] en e' Hi He; simpl in Hi; [| discriminate Hi].
      injection Hi as <-. discriminate He.
    + exists [mkEntry ev (Some e)]. split; [simpl; rewrite Hb; reflexivity |].
      intros [|i] en e' Hi He; simpl in Hi; [| discriminate Hi].
      injection Hi as <-. simpl in He. injection He as <-. split; reflexivity.
Qed.

Lemma faithful_pure_call (env : Env) {A : Type} ev (r : Result A) :
  faithful (pure_call env ev r).
Proof. apply faithful_call. reflexivity. Qed.

Section Faithful.
Context (env : Env).

Lemma faithful_subscript {A : Type} container key (d : gmap string A) :
  faithful (subscript env container key d).
Proof. apply faithful_pure_call. Qed.

Lemma faithful_dataset_getitem dataset key :
  faithful (dataset_getitem env dataset key).
Proof.
  apply faithful_call. intros s.
  destruct (objects s !! dataset) as [d|]; [| reflexivity].
  destruct (d !! key); reflexivity.
Qed.

Lemma faithful_os_makedirs name exist_ok :
  faithful (os_makedirs env name exist_ok).
Proof.
  apply faithful_call. intros s. reflexivity.
Qed.

Lemma faithful_models_Sequential ls : faithful (models_Sequential env ls).
Proof. apply faithful_call. reflexivity. Qed.

Lemma faithful_self_model name : faithful (self_model name).
Proof.
  apply faithful_bind; [apply faithful_gets |].
  intros [k|]; [apply faithful_ret | apply faithful_raise].
Qed.

Lemma faithful_model_compile c : faithful (model_compile env c).
Proof.
  apply faithful_bind; [apply faithful_self_model |].
  intros k. apply faithful_call. reflexivity.
Qed.

Lemma faithful_model_summary : faithful (model_summary env).
Proof.
  apply faithful_bind; [apply faithful_self_model |].
  intros k. apply faithful_pure_call.
Qed.

Lemma faithful_model_fit x y v epochs batch_size cbs verbose :
  faithful (model_fit env x y v epochs batch_size cbs verbose).
Proof.
  apply faithful_bind; [apply faithful_self_model |].
  intros k. apply faithful_call. reflexivity.
Qed.

Lemma faithful_plt p : faithful (plt env p).
Proof. apply faithful_call. intros s. destruct p; reflexivity. Qed.

Lemma faithful_subprocess_Popen args : faithful (subprocess_Popen env args).
Proof. apply faithful_call. reflexivity. Qed.

(** One step of a program built from the calls above. *)
Ltac faithful_step :=
  first
    [ apply faithful_ret | apply faithful_gets | apply faithful_raise
    | apply faithful_pure_call | apply faithful_subscript
    | apply faithful_dataset_getitem | apply faithful_os_makedirs
    | apply faithful_models_Sequential | apply faithful_model_compile
    | apply faithful_model_summary | apply faithful_model_fit
    | apply faithful_plt | apply faithful_subprocess_Popen
    | apply faithful_modify; reflexivity
    | apply faithful_bind; [| intros ?] ].

Lemma faithful_init i n l : faithful (__init__ env i n l).
Proof. unfold __init__. repeat faithful_step. Qed.

Lemma faithful_prepare_dataset d : faithful (prepare_dataset env d).
Proof.
  unfold prepare_dataset, column_getitem, np_array_float, np_array_int,
    utils_to_categorical.
  repeat faithful_step.
Qed.

Lemma faithful_build_model lr : faithful (build_model env lr).
Proof.
  unfold build_model, layers_new, regularizers_l2, optimizers_Adam,
    metrics_new, print.
  repeat faithful_step.
Qed.

Lemma faithful_train d e b : faithful (train env d e b).
Proof.
  unfold train. apply faithful_bind; [apply faithful_prepare_dataset |].
  intros [[[X_train y_train] X_test] y_test].
  apply faithful_bind; [apply faithful_gets |]. intros current.
  apply faithful_bind.
  { destruct current; [apply faithful_ret | apply faithful_build_model]. }
  intros _. unfold callbacks_new, os_path_join. repeat faithful_step.
Qed.

Lemma faithful_plot_training_history h :
  faithful (plot_training_history env h).
Proof. unfold plot_training_history. repeat faithful_step. Qed.

Lemma faithful_run_tensorboard : faithful (run_tensorboard env).
Proof. unfold run_tensorboard, print. repeat faithful_step. Qed.

End Faithful.

(** C4. For every operation of the class, in every environment and from
    every state: when a library call made by the operation raises, be it a
    shape mismatch inside the framework, a missing key or an I/O error, the
    call is the last one the operation makes and the operation raises that
    very exception. Nothing is caught, retried or translated. *)
Theorem failures_propagate_unchanged (env : Env) (op : Operation) (s : State)
  (i : nat) (en : Entry) (e : exn) :
  new_entries s (perform env op s).2 !! i = Some en ->
  raised en = Some e ->
  (perform env op s).1 = Some e /\
  S i = length (new_entries s (perform env op s).2).
Proof.
  assert (Hp : propagated s (perform env op s)).
  { destruct op; simpl.
    - apply faithful_init.
    - apply faithful_prepare_dataset.
    - apply faithful_build_model.
    - apply faithful_train.
    - apply faithful_plot_training_history.
    - apply faithful_run_tensorboard. }
  destruct Hp as (new & Ht & Hr).
  rewrite (new_entries_app _ _ _ Ht). apply Hr.
Qed.

Lemma failures_propagate_unchanged_witness :
  (perform stormy (op_train 0 100 8) world1).1
  = Some (ExternalError "shape mismatch") /\
  S 38 = length (new_entries world1 (perform stormy (op_train 0 100 8) world1).2).
Proof.
  eapply (failures_propagate_unchanged stormy (op_train 0 100 8) world1 38).
  - vm_compute. reflexivity.
  - reflexivity.
Defined.

(** ** What [prepare_dataset] leaves alone *)

#[export] Instance same_but_trace_preorder : PreOrder same_but_trace.
Proof.
  split.
  - intros s. repeat split.
  - intros s1 s2 s3 H1 H2. unfold same_but_trace in *.
    destruct H1 as (A1 & A2 & A3 & A4 & A5 & A6 & A7 & A8).
    destruct H2 as (B1 & B2 & B3 & B4 & B5 & B6 & B7 & B8).
    repeat split; congruence.
Qed.

Lemma same_but_trace_log ev r s : same_but_trace s (log ev r s).
Proof. repeat split. Qed.

Lemma prepare_dataset_same_but_trace env d :
  keeps same_but_trace (prepare_dataset env d).
Proof.
  unfold prepare_dataset, column_getitem, np_array_float, np_array_int,
    utils_to_categorical.
  repeat first
    [ apply keeps_ret; apply _
    | apply keeps_gets; apply _
    | apply keeps_pure_call;
      [apply _ | intros; apply same_but_trace_log]
    | apply keeps_call;
      [ apply _
      | intros s; destruct (objects s !! d) as [ds|]; [| reflexivity];
        match goal with |- context [ds !! ?k] => destruct (ds !! k) end;
        reflexivity
      | intros; apply same_but_trace_log ]
    | apply keeps_bind; [apply _ | | intros ?] ].
Qed.

(** C5. [prepare_dataset] consumes the dataset read-only: in every
    environment and from every state, whether it returns or raises, the
    objects of the hub client are what they were, the dataset and its
    splits among them. *)
Theorem prepare_dataset_reads_only (env : Env) (dataset : nat) (s : State) :
  objects (prepare_dataset env dataset s).2 = objects s.
Proof.
  destruct (prepare_dataset_same_but_trace env dataset s)
    as (_ & _ & _ & _ & H & _).
  exact H.
Qed.


(** ** Path names *)

Lemma split_sep_not_nil s : split_sep s <> [].
Proof.
  destruct s as [|c rest]; simpl; [discriminate |].
  destruct (Ascii.eqb c "/"); [discriminate |].
  destruct (split_sep rest); discriminate.
Qed.

Lemma split_sep_empty s : split_sep s = [EmptyString] <-> s = EmptyString.
Proof.
  split; [| intros ->; reflexivity].
  destruct s as [|c rest]; [reflexivity |]. simpl.
  pose proof (split_sep_not_nil rest) as Hne.
  destruct (Ascii.eqb c "/"); [| destruct (split_sep rest); discriminate].
  destruct (split_sep rest); [done | discriminate].
Qed.

Lemma append_cons x (a b : string) : String x a +:+ b = String x (a +:+ b).
Proof. reflexivity. Qed.

Lemma append_assoc (a b c : string) : (a +:+ b) +:+ c = a +:+ (b +:+ c).
Proof.
  induction a as [|x a IH]; [reflexivity |].
  rewrite !append_cons, IH. reflexivity.
Qed.

Lemma append_nil_r (a : string) : a +:+ EmptyString = a.
Proof.
  induction a as [|x a IH]; [reflexivity |].
  rewrite append_cons, IH. reflexivity.
Qed.

Lemma split_sep_app a b :
  split_sep (a +:+ "/" +:+ b) = split_sep a ++ split_sep b.
Proof.
  induction a as [|c a IH]; [reflexivity |].
  simpl. destruct (Ascii.eqb c "/"); [rewrite IH; reflexivity |].
  rewrite IH. pose proof (split_sep_not_nil a) as Hne.
  destruct (split_sep a); [congruence | reflexivity].
Qed.

Lemma split_sep_trailing a : split_sep (a +:+ "/") = split_sep a ++ [EmptyString].
Proof. apply (split_sep_app a EmptyString). Qed.

Lemma endswith_sep_app a :
  endswith_sep a = true -> exists a', a = a' +:+ "/".
Proof.
  induction a as [|c a IH]; [discriminate |].
  destruct a as [|c' a'].
  - simpl. intros H. apply Ascii.eqb_eq in H as ->. exists EmptyString.
    reflexivity.
  - intros H. destruct (IH H) as [a0 Ha0]. exists (String c a0).
    rewrite Ha0. reflexivity.
Qed.

Lemma startswith_app a b :
  a <> EmptyString -> startswith "/" (a +:+ b) = startswith "/" a.
Proof.
  destruct a as [|c a]; [congruence |]. intros _.
  assert (Hnil : forall s, String.prefix EmptyString s = true)
    by (intros [|? ?]; reflexivity).
  rewrite append_cons. unfold startswith. cbn [String.prefix].
  destruct (ascii_dec "/" c); [rewrite !Hnil |]; reflexivity.
Qed.

Lemma append_sep_not_nil (a : string) : a +:+ "/" <> EmptyString.
Proof.
  destruct a as [|c a]; [intros H; vm_compute in H; discriminate H |].
  rewrite append_cons. discriminate.
Qed.

(** A name starts at the root when it begins with a separator. *)
Lemma absolute_split_sep s : absolute (split_sep s) = startswith "/" s.
Proof.
  destruct s as [|c rest]; [reflexivity |]. unfold startswith.
  cbn [split_sep String.prefix].
  pose proof (split_sep_not_nil rest) as Hne.
  assert (Hnil : forall s, String.prefix EmptyString s = true)
    by (intros [|? ?]; reflexivity).
  destruct (Ascii.eqb c "/") eqn:Ec.
  - apply Ascii.eqb_eq in Ec as ->.
    destruct (ascii_dec "/" "/") as [_ | N]; [| done].
    destruct (split_sep rest); [done |]. rewrite Hnil. reflexivity.
  - apply Ascii.eqb_neq in Ec.
    destruct (ascii_dec "/" c) as [E | _]; [congruence |].
    destruct (split_sep rest) as [|x [|y xs]]; reflexivity.
Qed.


(** The checkpoint path names the file 'best_model.keras' of the log
    directory. *)
Lemma parts_path_join here dir :
  parts here (path_join dir "best_model.keras")
  = parts here dir ++ ["best_model.keras"].
Proof.
  unfold path_join.
  change (startswith "/" "best_model.keras") with false. cbv iota.
  destruct (String.eqb_spec dir EmptyString) as [->|Hne]; [reflexivity |].
  simpl orb. unfold parts, lexical, start. rewrite !absolute_split_sep.
  destruct (endswith_sep dir) eqn:Eend.
  - destruct (endswith_sep_app dir Eend) as [a' ->].
    rewrite append_assoc.
    rewrite <- (append_assoc a' "/" "best_model.keras") at 1.
    rewrite !startswith_app by apply append_sep_not_nil.
    rewrite (split_sep_app a' "best_model.keras"), split_sep_trailing.
    rewrite !foldl_app. reflexivity.
  - rewrite startswith_app by exact Hne.
    rewrite split_sep_app, foldl_app. reflexivity.
Qed.

(** ** Directories *)

Section Disk.
Context (here : Path).

Lemma node_at_above files p : p `prefix_of` here -> node_at here files p = Some Dir.
Proof. intros H. unfold node_at. rewrite bool_decide_eq_true_2; done. Qed.

Lemma node_at_root files : node_at here files [] = Some Dir.
Proof. apply node_at_above, prefix_nil. Qed.

Lemma node_at_here files : node_at here files here = Some Dir.
Proof. apply node_at_above. reflexivity. Qed.

Lemma node_at_File files p :
  node_at here files p = Some File -> files !! p = Some File.
Proof. unfold node_at. case_bool_decide; [discriminate | done]. Qed.

Lemma node_at_None files p :
  node_at here files p = None -> files !! p = None.
Proof. unfold node_at. case_bool_decide; [discriminate | done]. Qed.

Lemma node_at_insert_eq files p : node_at here (<[p := Dir]> files) p = Some Dir.
Proof.
  unfold node_at. case_bool_decide; [reflexivity | apply lookup_insert_eq].
Qed.

Lemma node_at_insert_ne files p q k :
  q <> p -> node_at here (<[p := k]> files) q = node_at here files q.
Proof.
  intros Hne. unfold node_at. case_bool_decide; [reflexivity |].
  apply lookup_insert_ne. congruence.
Qed.

(** *** A disk that grows *)

Lemma grows_refl files : grows here files files.
Proof. intros p. left. reflexivity. Qed.

Lemma grows_trans files1 files2 files3 :
  grows here files1 files2 -> grows here files2 files3 ->
  grows here files1 files3.
Proof.
  intros H12 H23 p.
  destruct (H23 p) as [E23 | [N2 D3]].
  - destruct (H12 p) as [E12 | [N1 D2]].
    + left. congruence.
    + right. split; [exact N1 | congruence].
  - right. split; [| exact D3].
    destruct (H12 p) as [E12 | [N1 D2]]; [| exact N1].
    unfold node_at in *. case_bool_decide; [discriminate |]. congruence.
Qed.

Lemma grows_node files files' p k :
  grows here files files' ->
  node_at here files p = Some k -> node_at here files' p = Some k.
Proof.
  intros H Hk. unfold node_at in *. case_bool_decide; [exact Hk |].
  destruct (H p) as [E | [N _]]; [congruence |].
  unfold node_at in N. rewrite bool_decide_eq_false_2 in N by done. congruence.
Qed.

Lemma grows_File files files' p :
  grows here files files' ->
  node_at here files' p = Some File -> node_at here files p = Some File.
Proof.
  intros H Hk. unfold node_at in *. case_bool_decide; [exact Hk |].
  destruct (H p) as [E | [_ D]]; congruence.
Qed.

Lemma grows_files files files' p :
  grows here files files' ->
  (files' !! p = Some File <-> files !! p = Some File).
Proof.
  intros H. destruct (H p) as [E | [N D]].
  - rewrite E. reflexivity.
  - apply node_at_None in N. rewrite N, D. split; discriminate.
Qed.

Lemma grows_insert files p :
  node_at here files p = None -> grows here files (<[p := Dir]> files).
Proof.
  intros Hnone q. destruct (decide (q = p)) as [-> | Hne].
  - right. split; [exact Hnone | apply lookup_insert_eq].
  - left. apply lookup_insert_ne. congruence.
Qed.

(** *** Components *)


Lemma foldl_step_empties p k : foldl step p (replicate k EmptyString) = p.
Proof. induction k as [|k IH]; [reflexivity | exact IH]. Qed.

Lemma strip_empties k : strip (replicate k EmptyString) = [].
Proof. induction k as [|k IH]; [reflexivity |]. simpl. rewrite IH. reflexivity. Qed.

Lemma strip_spec cs : exists k, cs = strip cs ++ replicate k EmptyString.
Proof.
  induction cs as [|c rest [k IH]]; [exists 0%nat; reflexivity |].
  simpl. destruct (strip rest) as [|c' rest'] eqn:E.
  - destruct (String.eqb_spec c EmptyString) as [-> | Hc].
    + exists (S k). simpl. f_equal. exact IH.
    + exists k. simpl. f_equal. exact IH.
  - exists k. simpl. f_equal. exact IH.
Qed.

Lemma strip_last cs : last (strip cs) <> Some EmptyString.
Proof.
  induction cs as [|c rest IH]; [discriminate |].
  simpl. destruct (strip rest) as [|c' rest'] eqn:E.
  - destruct (String.eqb_spec c EmptyString) as [-> | Hc]; [discriminate |].
    simpl. congruence.
  - rewrite last_cons. destruct (last (c' :: rest')) eqn:El; [exact IH |].
    apply last_None in El. discriminate El.
Qed.

Lemma strip_app_name cs c k :
  c <> EmptyString -> strip (cs ++ c :: replicate k EmptyString) = cs ++ [c].
Proof.
  intros Hc. induction cs as [|x rest IH]; simpl.
  - rewrite strip_empties. destruct (String.eqb_spec c EmptyString); done.
  - rewrite IH. destruct (rest ++ [c]) eqn:E; [| reflexivity].
    destruct rest; discriminate.
Qed.

Lemma strip_nil_all cs :
  strip cs = [] -> separators cs = true.
Proof.
  unfold separators. induction cs as [|c rest IH]; [reflexivity |]. simpl.
  destruct (strip rest) eqn:E; [| discriminate].
  destruct (String.eqb_spec c EmptyString) as [-> | Hc]; [| discriminate].
  intros _. apply IH. reflexivity.
Qed.

Lemma all_empty_replicate cs :
  separators cs = true ->
  cs = replicate (length cs) EmptyString.
Proof.
  unfold separators. induction cs as [|c rest IH]; [reflexivity |]. simpl.
  intros H. apply andb_prop in H as [Hc Hr].
  destruct c; [| discriminate Hc]. f_equal. apply IH, Hr.
Qed.

(** *** Walking *)

Lemma walk_app files cur cs1 cs2 :
  walk here files cur (cs1 ++ cs2)
  = match walk here files cur cs1 with
    | inl p => walk here files p cs2
    | inr e => inr e
    end.
Proof.
  revert cur. induction cs1 as [|c rest IH]; intros cur; [reflexivity |].
  simpl. destruct (node_at here files cur) as [[|]|]; [apply IH | |]; reflexivity.
Qed.

Lemma walk_lexical files cs : forall cur p,
  walk here files cur cs = inl p -> p = foldl step cur cs.
Proof.
  induction cs as [|c rest IH]; intros cur p H; simpl in *.
  - congruence.
  - destruct (node_at here files cur) as [[|]|]; [| discriminate..].
    apply IH, H.
Qed.

Lemma walk_not_EEXIST files cs : forall cur,
  walk here files cur cs <> inr EEXIST.
Proof.
  induction cs as [|c rest IH]; intros cur; simpl; [discriminate |].
  destruct (node_at here files cur) as [[|]|]; [apply IH | discriminate..].
Qed.

Lemma walk_empties files cur k :
  node_at here files cur = Some Dir ->
  walk here files cur (replicate k EmptyString) = inl cur.
Proof.
  intros Hd. induction k as [|k IH]; [reflexivity |]. simpl. rewrite Hd. exact IH.
Qed.

Lemma walk_grows files files' cs : forall cur p,
  grows here files files' ->
  walk here files cur cs = inl p -> walk here files' cur cs = inl p.
Proof.
  induction cs as [|c rest IH]; intros cur p Hg H; simpl in *; [exact H |].
  destruct (node_at here files cur) as [[|]|] eqn:E; [| discriminate..].
  rewrite (grows_node _ _ _ _ Hg E). apply IH; assumption.
Qed.

Lemma dirs_above_step files cur c :
  dirs_above here files cur -> node_at here files cur = Some Dir ->
  dirs_above here files (step cur c).
Proof.
  intros Ha Hd n Hn. unfold step in *.
  destruct (String.eqb c EmptyString || String.eqb c ".")%bool; [apply Ha, Hn |].
  destruct (String.eqb c "..").
  - rewrite removelast_firstn_len in *. rewrite length_take in Hn.
    rewrite take_take. replace (n `min` Nat.pred (length cur))%nat with n by lia.
    apply Ha. lia.
  - rewrite length_app in Hn. simpl in Hn.
    destruct (decide (n = length cur)) as [-> | Hne].
    + rewrite take_app_length. exact Hd.
    + rewrite take_app_le by lia. apply Ha. lia.
Qed.

Lemma dirs_above_walk files cs : forall cur p,
  dirs_above here files cur ->
  walk here files cur cs = inl p -> dirs_above here files p.
Proof.
  induction cs as [|c rest IH]; intros cur p Ha H; simpl in *.
  - injection H as <-. exact Ha.
  - destruct (node_at here files cur) as [[|]|] eqn:E; [| discriminate..].
    eapply IH; [| exact H]. apply dirs_above_step; assumption.
Qed.

Lemma dirs_above_start files cs : dirs_above here files (start here cs).
Proof.
  intros n Hn. apply node_at_above. unfold start in *.
  destruct (absolute cs); [simpl in Hn; lia |]. apply prefix_take.
Qed.

Lemma dirs_above_all files p :
  dirs_above here files p -> node_at here files p = Some Dir ->
  forall n, node_at here files (take n p) = Some Dir.
Proof.
  intros Ha Hd n. destruct (decide (n < length p)%nat) as [Hlt | Hge].
  - apply Ha, Hlt.
  - rewrite take_ge by lia. exact Hd.
Qed.

(** *** What a name leads to *)

Lemma name_isdir_spec files cs :
  name_isdir here files cs = true <->
  cs <> [EmptyString] /\ exists p, leads_to here files (start here cs) cs p.
Proof.
  unfold name_isdir, stat, leads_to. case_bool_decide as Hcs.
  - split; [discriminate | intros [H _]; done].
  - destruct (walk here files (start here cs) cs) as [p|e] eqn:W.
    + destruct (node_at here files p) as [[|]|] eqn:N.
      * split; [intros _; split; [done | eauto] | done].
      * split; [discriminate | intros (_ & q & Hq & Hd)].
        injection Hq as <-. congruence.
      * split; [discriminate | intros (_ & q & Hq & Hd)].
        injection Hq as <-. congruence.
    + split; [discriminate | intros (_ & q & Hq & _); discriminate].
Qed.

Lemma name_exists_spec files cs :
  name_exists here files cs = true <->
  cs <> [EmptyString] /\
  exists p, walk here files (start here cs) cs = inl p /\
            is_Some (node_at here files p).
Proof.
  unfold name_exists, stat. case_bool_decide as Hcs.
  - split; [discriminate | intros [H _]; done].
  - destruct (walk here files (start here cs) cs) as [p|e] eqn:W.
    + destruct (node_at here files p) as [k|] eqn:N.
      * split; [intros _; split; [done | eauto] | done].
      * split; [discriminate | intros (_ & q & Hq & Hd)].
        injection Hq as <-. rewrite N in Hd. destruct Hd; discriminate.
    + split; [discriminate | intros (_ & q & Hq & _); discriminate].
Qed.

Lemma name_isdir_exists files cs :
  name_isdir here files cs = true -> name_exists here files cs = true.
Proof.
  rewrite name_isdir_spec, name_exists_spec.
  intros (Hcs & p & Hw & Hd). split; [exact Hcs |]. exists p. split; eauto.
Qed.

Lemma leads_to_lexical files cur cs p :
  leads_to here files cur cs p -> p = foldl step cur cs.
Proof. intros [H _]. eapply walk_lexical, H. Qed.

Lemma leads_to_empties files cur cs k p :
  leads_to here files cur (cs ++ replicate k EmptyString) p <->
  leads_to here files cur cs p.
Proof.
  unfold leads_to. rewrite walk_app. split.
  - intros [H Hd]. destruct (walk here files cur cs) as [q|] eqn:W; [| discriminate].
    pose proof (walk_lexical _ _ _ _ H) as E. rewrite foldl_step_empties in E.
    subst q. split; [reflexivity | exact Hd].
  - intros [H Hd]. rewrite H. split; [apply walk_empties, Hd | exact Hd].
Qed.

Lemma leads_to_app files cur cs1 cs2 p :
  leads_to here files cur (cs1 ++ cs2) p ->
  exists q, walk here files cur cs1 = inl q /\ leads_to here files q cs2 p.
Proof.
  unfold leads_to. rewrite walk_app. intros [H Hd].
  destruct (walk here files cur cs1) as [q|]; [| discriminate]. eauto.
Qed.

Lemma leads_to_grows files files' cur cs p :
  grows here files files' ->
  leads_to here files cur cs p -> leads_to here files' cur cs p.
Proof.
  intros Hg [H Hd]. split; [eapply walk_grows | eapply grows_node]; eassumption.
Qed.

Lemma name_isdir_grows files files' cs :
  grows here files files' ->
  name_isdir here files cs = true -> name_isdir here files' cs = true.
Proof.
  intros Hg. rewrite !name_isdir_spec. intros (Hcs & p & Hp).
  split; [exact Hcs |]. exists p. eapply leads_to_grows; eassumption.
Qed.

Lemma name_isdir_lexical files cs :
  name_isdir here files cs = true ->
  forall n, node_at here files (take n (lexical here cs)) = Some Dir.
Proof.
  rewrite name_isdir_spec. intros (_ & p & Hp).
  pose proof (leads_to_lexical _ _ _ _ Hp) as E. destruct Hp as [Hw Hd].
  unfold lexical. rewrite <- E. apply dirs_above_all; [| exact Hd].
  eapply dirs_above_walk; [apply dirs_above_start | exact Hw].
Qed.

Lemma name_isdir_target files cs :
  name_isdir here files cs = true ->
  node_at here files (lexical here cs) = Some Dir.
Proof.
  intros H. pose proof (name_isdir_lexical _ _ H (length (lexical here cs))) as E.
  rewrite take_ge in E by lia. exact E.
Qed.

(** *** [mkdir] *)

Lemma lexical_named cs front c k :
  cs = front ++ c :: replicate k EmptyString ->
  lexical here cs = step (foldl step (start here cs) front) c.
Proof.
  intros ->. unfold lexical. rewrite foldl_app. simpl.
  apply foldl_step_empties.
Qed.

Lemma mkdir_inl files cs files' :
  mkdir here files cs = inl files' ->
  node_at here files (lexical here cs) = None /\
  files' = <[lexical here cs := Dir]> files /\
  name_isdir here files' cs = true.
Proof.
  unfold mkdir. case_bool_decide as Hcs; [discriminate |].
  destruct (last (strip cs)) as [c|] eqn:El; [| discriminate].
  destruct (walk here files (start here cs) (removelast (strip cs)))
    as [p|] eqn:W; [| discriminate].
  destruct (node_at here files p) as [[|]|] eqn:Np; [| discriminate..].
  destruct (String.eqb c "." || String.eqb c "..")%bool eqn:Ec; [discriminate |].
  destruct (node_at here files (p ++ [c])) eqn:Nt; [discriminate |].
  intros H. injection H as <-.
  apply last_Some in El as [front Ef].
  assert (Hc : c <> EmptyString).
  { intros ->. apply (strip_last cs). rewrite Ef. apply last_snoc. }
  destruct (strip_spec cs) as [k Hk]. rewrite Ef, <- app_assoc in Hk. simpl in Hk.
  rewrite Ef, removelast_last in W.
  assert (Elex : lexical here cs = p ++ [c]).
  { rewrite (lexical_named cs front c k Hk).
    rewrite <- (walk_lexical _ _ _ _ W). unfold step.
    apply orb_false_elim in Ec as [E1 E2].
    destruct (String.eqb_spec c EmptyString); [done |]. simpl.
    rewrite E1, E2. reflexivity. }
  rewrite Elex. split; [exact Nt |]. split; [reflexivity |].
  apply name_isdir_spec. split; [exact Hcs |]. exists (p ++ [c]).
  pose proof (grows_insert files (p ++ [c]) Nt) as Hg.
  rewrite Hk at 2. change (c :: replicate k EmptyString)
    with ([c] ++ replicate k EmptyString). rewrite app_assoc.
  apply leads_to_empties. split; [| apply node_at_insert_eq].
  rewrite walk_app, (walk_grows _ _ _ _ _ Hg W). simpl.
  rewrite (grows_node _ _ _ _ Hg Np).
  unfold step. apply orb_false_elim in Ec as [E1 E2].
  destruct (String.eqb_spec c EmptyString); [done |]. simpl.
  rewrite E1, E2. reflexivity.
Qed.

Lemma mkdir_grows files cs files' :
  mkdir here files cs = inl files' -> grows here files files'.
Proof.
  intros H. apply mkdir_inl in H as (Hn & -> & _). apply grows_insert, Hn.
Qed.

(** When [mkdir] finds something there that is no directory, it is a
    regular file, where the name leads. *)
Lemma mkdir_EEXIST files cs :
  mkdir here files cs = inr EEXIST -> name_isdir here files cs = false ->
  node_at here files (lexical here cs) = Some File.
Proof.
  unfold mkdir. case_bool_decide as Hcs; [discriminate |].
  intros H Hnd.
  assert (Hno : forall p, ~ leads_to here files (start here cs) cs p).
  { intros p Hp. rewrite (proj2 (name_isdir_spec files cs)) in Hnd; [done |].
    split; [exact Hcs | eauto]. }
  destruct (strip_spec cs) as [k Hk].
  destruct (last (strip cs)) as [c|] eqn:El.
  - apply last_Some in El as [front Ef].
    assert (Hc : c <> EmptyString).
    { intros ->. apply (strip_last cs). rewrite Ef. apply last_snoc. }
    rewrite Ef, removelast_last in H. rewrite Ef, <- app_assoc in Hk. simpl in Hk.
    destruct (walk here files (start here cs) front) as [p|e] eqn:W;
      [| injection H as ->; exfalso; eapply walk_not_EEXIST, W].
    destruct (node_at here files p) as [[|]|] eqn:Np; [| discriminate..].
    assert (Hstep : forall q, node_at here files (step p c) = Some Dir ->
                              q = step p c -> False).
    { intros q Hd ->. apply (Hno (step p c)). rewrite Hk at 2.
      change (c :: replicate k EmptyString)
        with ([c] ++ replicate k EmptyString). rewrite app_assoc.
      apply leads_to_empties. split; [| exact Hd].
      rewrite walk_app, W. simpl. rewrite Np. reflexivity. }
    rewrite (lexical_named cs front c k Hk), <- (walk_lexical _ _ _ _ W).
    assert (Ha : dirs_above here files p).
    { eapply dirs_above_walk; [apply dirs_above_start | exact W]. }
    destruct (String.eqb_spec c ".") as [-> | Hdot].
    { exfalso. apply (Hstep p); [exact Np | reflexivity]. }
    destruct (String.eqb_spec c "..") as [-> | Hdd].
    { exfalso. apply (Hstep (removelast p)); [| reflexivity].
      change (step p "..") with (removelast p).
      rewrite removelast_firstn_len.
      apply dirs_above_all; assumption. }
    simpl in H.
    assert (Es : step p c = p ++ [c]).
    { unfold step. destruct (String.eqb_spec c EmptyString); [done |].
      destruct (String.eqb_spec c "."); [done |].
      destruct (String.eqb_spec c ".."); [done |]. reflexivity. }
    rewrite Es in *.
    destruct (node_at here files (p ++ [c])) as [[|]|] eqn:Nt;
      [| reflexivity | discriminate].
    exfalso. apply (Hstep (p ++ [c])); reflexivity.
  - apply last_None in El. rewrite El in Hk. simpl in Hk.
    exfalso. destruct k as [|[|k]].
    + subst cs. apply (Hno here). split; [reflexivity | apply node_at_here].
    + done.
    + apply (Hno []). rewrite Hk at 2. split; [| apply node_at_root].
      replace (start here cs) with (@nil string) by (rewrite Hk; reflexivity).
      apply walk_empties, node_at_root.
Qed.

(** With the directory above in place and no regular file at the name,
    [mkdir] makes the directory or finds it. *)
Lemma mkdir_onto files cs front c k p :
  cs = front ++ c :: replicate k EmptyString -> c <> EmptyString ->
  leads_to here files (start here cs) front p ->
  node_at here files (lexical here cs) <> Some File ->
  (exists files', mkdir here files cs = inl files') \/
  name_isdir here files cs = true.
Proof.
  intros Hk Hc [W Np] Hfree.
  assert (Hcs : cs <> [EmptyString]).
  { rewrite Hk. destruct front as [|x [|y front]]; simpl; [congruence | |];
      destruct k; discriminate. }
  assert (Hstrip : strip cs = front ++ [c]).
  { rewrite Hk. apply strip_app_name, Hc. }
  rewrite (lexical_named cs front c k Hk), <- (walk_lexical _ _ _ _ W) in Hfree.
  assert (Ha : dirs_above here files p).
  { eapply dirs_above_walk; [apply dirs_above_start | exact W]. }
  assert (Hdir : node_at here files (step p c) = Some Dir ->
                 name_isdir here files cs = true).
  { intros Hd. apply name_isdir_spec. split; [exact Hcs |]. exists (step p c).
    rewrite Hk at 2. change (c :: replicate k EmptyString)
      with ([c] ++ replicate k EmptyString). rewrite app_assoc.
    apply leads_to_empties. split; [| exact Hd].
    rewrite walk_app, W. simpl. rewrite Np. reflexivity. }
  destruct (node_at here files (step p c)) as [[|]|] eqn:Nt;
    [right; apply Hdir; reflexivity | done |].
  left. unfold mkdir. rewrite bool_decide_eq_false_2 by exact Hcs.
  rewrite Hstrip, last_snoc, removelast_last, W, Np.
  destruct (String.eqb_spec c ".") as [-> | Hdot].
  { change (step p ".") with p in Nt. congruence. }
  destruct (String.eqb_spec c "..") as [-> | Hdd].
  { change (step p "..") with (removelast p) in Nt.
    rewrite removelast_firstn_len, dirs_above_all in Nt by assumption.
    discriminate. }
  simpl.
  assert (Es : step p c = p ++ [c]).
  { unfold step. destruct (String.eqb_spec c EmptyString); [done |].
    destruct (String.eqb_spec c "."); [done |].
    destruct (String.eqb_spec c ".."); [done |]. reflexivity. }
  rewrite <- Es, Nt. eauto.
Qed.

(** *** Head and tail *)

Lemma path_split_spec cs head tail :
  path_split cs = (head, tail) ->
  (cs = [] /\ head = [EmptyString] /\ tail = EmptyString) \/
  exists front,
    cs = front ++ [tail] /\
    ((front = [] /\ head = [EmptyString]) \/
     (front <> [] /\ separators front = true /\
      head = front ++ [EmptyString]) \/
     (separators front = false /\ head = strip front)).
Proof.
  unfold path_split. intros H.
  destruct (last cs) as [c|] eqn:El.
  - right. apply last_Some in El as [front ->]. exists front.
    rewrite removelast_last in H. simpl in H.
    case_bool_decide as Hf.
    + injection H as <- <-. split; [reflexivity |]. left. done.
    + destruct (separators front) eqn:Ea;
        injection H as <- <-; (split; [reflexivity |]); right; [left | right];
        done.
  - left. apply last_None in El. subst cs. simpl in H. injection H as <- <-. done.
Qed.

Lemma strip_not_all cs :
  separators cs = false -> strip cs <> [].
Proof. intros H E. apply strip_nil_all in E. congruence. Qed.

(** When [makedirs] has a head and a tail, the name is [front], the tail
    and separators; the head is [front] without the separators at its end,
    or all of it when it is separators only. *)
Lemma head_tail_spec cs :
  (head_tail cs).1 <> [EmptyString] -> (head_tail cs).2 <> EmptyString ->
  exists front k,
    cs = front ++ (head_tail cs).2 :: replicate k EmptyString /\
    front <> [] /\
    ((separators front = true /\
      (head_tail cs).1 = front ++ [EmptyString]) \/
     (separators front = false /\
      (head_tail cs).1 = strip front)).
Proof.
  unfold head_tail. destruct (path_split cs) as [h1 t1] eqn:E1. simpl.
  destruct (String.eqb_spec t1 EmptyString) as [-> | Ht1].
  - destruct (path_split h1) as [head tail] eqn:E2. simpl. intros Hh Ht.
    apply path_split_spec in E1
      as [(_ & -> & _) | (front1 & -> & [(_ & ->) | [(_ & _ & ->) | (Ha & ->)]])].
    + vm_compute in E2. congruence.
    + vm_compute in E2. congruence.
    + apply path_split_spec in E2 as [(E & _) | (front & E & _)].
      * destruct front1; discriminate.
      * apply (f_equal last) in E. rewrite !last_snoc in E. congruence.
    + destruct (strip_spec front1) as [j Hj].
      apply path_split_spec in E2
        as [(E & _) | (front & E & [(_ & ->) | [(Hne & Hall & ->) | (Hnot & ->)]])].
      * exfalso. eapply strip_not_all; eassumption.
      * done.
      * exists front, (S j). split; [| split; [exact Hne | left; done]].
        rewrite Hj, E, <- !app_assoc. simpl. f_equal. f_equal.
        symmetry. apply replicate_cons_app.
      * exists front, (S j). split; [| split; [| right; done]].
        -- rewrite Hj, E, <- !app_assoc. simpl. f_equal. f_equal.
           symmetry. apply replicate_cons_app.
        -- intros ->. discriminate Hnot.
  - intros Hh Ht.
    apply path_split_spec in E1
      as [(_ & _ & ->) | (front & -> & [(_ & ->) | [(Hne & Hall & ->) | (Hnot & ->)]])].
    + done.
    + done.
    + exists front, 0%nat. split; [reflexivity |]. split; [exact Hne | left; done].
    + exists front, 0%nat. split; [reflexivity |]. split; [| right; done].
      intros ->. discriminate Hnot.
Qed.

Lemma all_empties_exist files front :
  front <> [] -> separators front = true ->
  name_exists here files (front ++ [EmptyString]) = true.
Proof.
  intros Hne Hall. apply name_exists_spec. split.
  - destruct front as [|x [|y front]]; [done | discriminate..].
  - exists []. split; [| rewrite node_at_root; eauto].
    apply all_empty_replicate in Hall. rewrite Hall.
    replace (start here (replicate (length front) EmptyString ++ [EmptyString]))
      with (@nil string).
    + rewrite <- replicate_cons_app. apply (walk_empties _ _ (S _)), node_at_root.
    + destruct front as [|x front]; [done |]. unfold start. simpl.
      destruct (replicate (length front) EmptyString ++ [EmptyString]) eqn:E;
        [| reflexivity].
      destruct (replicate (length front) EmptyString); discriminate.
Qed.

Lemma separators_cons c cs :
  separators (c :: cs) = String.eqb EmptyString c && separators cs.
Proof. reflexivity. Qed.

Lemma separators_replicate k : separators (replicate k EmptyString) = true.
Proof. induction k as [|k IH]; [reflexivity | exact IH]. Qed.

Lemma start_strip front rest :
  separators front = false -> rest <> [] ->
  start here (strip front) = start here (front ++ rest).
Proof.
  intros Hnot Hrest. unfold start.
  replace (absolute (strip front)) with (absolute (front ++ rest));
    [reflexivity |].
  destruct front as [|f0 frest]; [discriminate |].
  rewrite separators_cons in Hnot. cbn [strip app].
  destruct (strip frest) as [|x rest'] eqn:Es.
  - apply strip_nil_all in Es. rewrite Es, andb_true_r in Hnot.
    destruct f0; [discriminate |]. unfold absolute.
    destruct (frest ++ rest); reflexivity.
  - unfold absolute. destruct (frest ++ rest) eqn:E; [| reflexivity].
    destruct frest; [done | discriminate].
Qed.

Lemma leads_to_strip files cur front p :
  leads_to here files cur (strip front) p <-> leads_to here files cur front p.
Proof.
  destruct (strip_spec front) as [j Hj]. rewrite Hj at 2.
  symmetry. apply leads_to_empties.
Qed.

Lemma foldl_step_strip cur front :
  foldl step cur (strip front) = foldl step cur front.
Proof.
  destruct (strip_spec front) as [j Hj]. rewrite Hj at 2.
  rewrite foldl_app, foldl_step_empties. reflexivity.
Qed.

(** *** The last step of [makedirs] *)

Lemma mkdir_unless_there_grows files cs ok :
  grows here files (mkdir_unless_there here cs ok files).2.
Proof.
  unfold mkdir_unless_there. destruct (mkdir here files cs) as [files'|e] eqn:E.
  - eapply mkdir_grows, E.
  - destruct (ok && name_isdir here files cs)%bool; apply grows_refl.
Qed.

Lemma mkdir_unless_there_Ok files cs ok :
  (mkdir_unless_there here cs ok files).1 = Ok tt ->
  name_isdir here (mkdir_unless_there here cs ok files).2 cs = true.
Proof.
  unfold mkdir_unless_there. destruct (mkdir here files cs) as [files'|e] eqn:E.
  - intros _. apply mkdir_inl in E as (_ & _ & H). exact H.
  - destruct (ok && name_isdir here files cs)%bool eqn:Eo; [| discriminate].
    intros _. apply andb_prop in Eo as [_ H]. exact H.
Qed.

Lemma mkdir_unless_there_FileExistsError files cs x :
  (mkdir_unless_there here cs true files).1 = Raise (FileExistsError x) ->
  node_at here files (lexical here cs) = Some File /\
  (mkdir_unless_there here cs true files).2 = files /\ x = join_sep cs.
Proof.
  unfold mkdir_unless_there. destruct (mkdir here files cs) as [files'|e] eqn:E;
    [discriminate |].
  simpl. destruct (name_isdir here files cs) eqn:Ed; [discriminate |].
  destruct e; simpl; intros H; try discriminate H. injection H as <-.
  split; [apply mkdir_EEXIST; assumption | done].
Qed.

Lemma mkdir_unless_there_isdir files cs :
  name_isdir here files cs = true ->
  mkdir_unless_there here cs true files = (Ok tt, files).
Proof.
  intros Hd. unfold mkdir_unless_there.
  destruct (mkdir here files cs) as [files'|e] eqn:E.
  - apply mkdir_inl in E as (Hn & _). apply name_isdir_target in Hd. congruence.
  - rewrite Hd. reflexivity.
Qed.

Lemma mkdir_unless_there_onto files cs front c k p :
  cs = front ++ c :: replicate k EmptyString -> c <> EmptyString ->
  leads_to here files (start here cs) front p ->
  node_at here files (lexical here cs) <> Some File ->
  (mkdir_unless_there here cs true files).1 = Ok tt.
Proof.
  intros Hk Hc Hp Hfree. unfold mkdir_unless_there.
  destruct (mkdir_onto files cs front c k p Hk Hc Hp Hfree) as [[files' E] | Hd].
  - rewrite E. reflexivity.
  - destruct (mkdir here files cs); [reflexivity |]. rewrite Hd. reflexivity.
Qed.

Lemma mkdir_unless_there_fuel files cs ok :
  (mkdir_unless_there here cs ok files).1 <> Raise RecursionError.
Proof.
  unfold mkdir_unless_there. destruct (mkdir here files cs) as [files'|e];
    [discriminate |].
  destruct (ok && name_isdir here files cs)%bool; [discriminate |].
  destruct e; discriminate.
Qed.

(** *** [makedirs] *)

Lemma makedirs_from_S fuel cs ok files :
  makedirs_from (S fuel) here cs ok files
  = if (negb (bool_decide ((head_tail cs).1 = [EmptyString]))
        && negb (String.eqb (head_tail cs).2 EmptyString)
        && negb (name_exists here files (head_tail cs).1))%bool
    then
      let r := makedirs_from fuel here (head_tail cs).1 ok files in
      if goes_on r.1
      then if String.eqb (head_tail cs).2 "." then (Ok tt, r.2)
           else mkdir_unless_there here cs ok r.2
      else r
    else mkdir_unless_there here cs ok files.
Proof.
  simpl. destruct (_ && _ && _)%bool; [| reflexivity].
  destruct (makedirs_from fuel here (head_tail cs).1 ok files) as [[[]|e] f];
    [reflexivity |]. destruct e; reflexivity.
Qed.

(** The inner call is made for a head that is a shorter name. *)
Lemma makedirs_inner files cs :
  (negb (bool_decide ((head_tail cs).1 = [EmptyString]))
   && negb (String.eqb (head_tail cs).2 EmptyString)
   && negb (name_exists here files (head_tail cs).1))%bool = true ->
  exists front k,
    cs = front ++ (head_tail cs).2 :: replicate k EmptyString /\
    (head_tail cs).2 <> EmptyString /\
    separators front = false /\ (head_tail cs).1 = strip front /\
    name_exists here files (strip front) = false.
Proof.
  intros H. apply andb_prop in H as [H He]. apply andb_prop in H as [Hh Ht].
  apply negb_true_iff in Hh, Ht, He.
  apply bool_decide_eq_false in Hh. apply String.eqb_neq in Ht.
  destruct (head_tail_spec cs Hh Ht)
    as (front & k & Hcs & Hne & [[Hall Hhead] | [Hnot Hhead]]).
  - rewrite Hhead, all_empties_exist in He by assumption. discriminate.
  - exists front, k. rewrite <- Hhead. done.
Qed.

Lemma lexical_inner cs front tail k :
  cs = front ++ tail :: replicate k EmptyString -> separators front = false ->
  lexical here cs = step (lexical here (strip front)) tail.
Proof.
  intros Hcs Hnot. rewrite (lexical_named cs front tail k Hcs).
  unfold lexical. rewrite foldl_step_strip, Hcs.
  rewrite (start_strip front (tail :: replicate k EmptyString)); done.
Qed.

Lemma leads_to_inner files cs front tail k p :
  cs = front ++ tail :: replicate k EmptyString -> separators front = false ->
  leads_to here files (start here (strip front)) (strip front) p <->
  leads_to here files (start here cs) front p.
Proof.
  intros Hcs Hnot. rewrite leads_to_strip, Hcs.
  rewrite (start_strip front (tail :: replicate k EmptyString)); done.
Qed.

Lemma name_not_empty cs front tail k :
  cs = front ++ tail :: replicate k EmptyString -> tail <> EmptyString ->
  cs <> [EmptyString].
Proof.
  intros -> Ht E. destruct front as [|x [|y front]]; simpl in E.
  - congruence.
  - destruct k; discriminate.
  - discriminate.
Qed.

(** ['xxx/newdir/.'] is a directory when ['xxx/newdir'] is. *)
Lemma name_isdir_dot files cs front k :
  cs = front ++ "." :: replicate k EmptyString -> separators front = false ->
  name_isdir here files (strip front) = true ->
  name_isdir here files cs = true.
Proof.
  intros Hcs Hnot. rewrite !name_isdir_spec. intros (_ & p & Hp).
  split; [eapply name_not_empty; [exact Hcs | done] |].
  exists p. apply (leads_to_inner _ cs front "." k p Hcs Hnot) in Hp.
  rewrite Hcs at 2. change ("." :: replicate k EmptyString)
    with (["."] ++ replicate k EmptyString). rewrite app_assoc.
  apply leads_to_empties. destruct Hp as [W Hd]. split; [| exact Hd].
  rewrite walk_app, W. simpl. rewrite Hd. reflexivity.
Qed.

(** What [makedirs(name, exist_ok=True)] does to the disk and how it can
    end: it only adds directories; when it returns, the name is a
    directory, unless it leads to what was a regular file; and it raises
    [FileExistsError] only where the name leads to a regular file. *)
Lemma makedirs_from_spec fuel : forall cs files,
  grows here files (makedirs_from fuel here cs true files).2 /\
  ((makedirs_from fuel here cs true files).1 = Ok tt ->
   name_isdir here (makedirs_from fuel here cs true files).2 cs = true \/
   node_at here files (lexical here cs) = Some File) /\
  (forall x,
     (makedirs_from fuel here cs true files).1 = Raise (FileExistsError x) ->
     node_at here files (lexical here cs) = Some File).
Proof.
  induction fuel as [|fuel IH]; intros cs files.
  { simpl. split; [apply grows_refl |]. split; [discriminate |].
    intros x H. discriminate H. }
  rewrite makedirs_from_S. destruct (_ && _ && _)%bool eqn:Ec.
  - destruct (makedirs_inner _ _ Ec) as (front & k & Hcs & Ht & Hnot & Hh & _).
    rewrite Hh. destruct (IH (strip front) files) as (G1 & O1 & F1).
    pose proof (lexical_inner cs front _ k Hcs Hnot) as Elex.
    destruct (makedirs_from fuel here (strip front) true files) as [r1 files1].
    simpl in *. destruct (goes_on r1) eqn:Eg.
    + destruct (String.eqb_spec (head_tail cs).2 ".") as [Edot | Hdot].
      * simpl. split; [exact G1 |]. split; [| intros x H; discriminate H].
        intros _. rewrite Edot in *. change (step ?p ".") with p in Elex.
        rewrite Elex. destruct r1 as [[]|e].
        -- destruct (O1 eq_refl) as [Hd | Hf]; [left | right; exact Hf].
           eapply name_isdir_dot; eassumption.
        -- destruct e; try discriminate Eg. right. eapply F1. reflexivity.
      * split; [eapply grows_trans; [exact G1 | apply mkdir_unless_there_grows] |].
        split; [intros H; left; apply mkdir_unless_there_Ok, H |].
        intros x H. apply mkdir_unless_there_FileExistsError in H as (H & _).
        eapply grows_File; eassumption.
    + simpl. split; [exact G1 |]. split.
      * intros ->. discriminate Eg.
      * intros x ->. discriminate Eg.
  - split; [apply mkdir_unless_there_grows |].
    split; [intros H; left; apply mkdir_unless_there_Ok, H |].
    intros x H. apply mkdir_unless_there_FileExistsError in H as (H & _). exact H.
Qed.



(** A name without a head to make first is one name in the current
    directory, or the root. *)
Lemma head_tail_flat cs :
  cs <> [] -> cs <> [EmptyString] ->
  (head_tail cs).1 = [EmptyString] \/ (head_tail cs).2 = EmptyString ->
  (exists c k, c <> EmptyString /\ cs = c :: replicate k EmptyString) \/
  (separators cs = true /\ absolute cs = true).
Proof.
  intros Hnil Hcs. unfold head_tail.
  destruct (path_split cs) as [h1 t1] eqn:E1. simpl.
  destruct (String.eqb_spec t1 EmptyString) as [-> | Ht1].
  - destruct (path_split h1) as [head tail] eqn:E2. simpl. intros H.
    apply path_split_spec in E1
      as [(-> & _) | (front1 & -> & [(-> & _) | [(Hne & Hall & ->) | (Ha & ->)]])];
      [done | done | |].
    + right. split.
      * apply all_empty_replicate in Hall. rewrite Hall, <- replicate_cons_app.
        apply (separators_replicate (S _)).
      * destruct front1 as [|x front1]; [done |].
        rewrite separators_cons in Hall. apply andb_prop in Hall as [Hx _].
        destruct x; [| discriminate]. destruct front1; reflexivity.
    + destruct (strip_spec front1) as [j Hj].
      apply path_split_spec in E2
        as [(E & _) | (front & E & [(-> & _) | [(Hne' & _ & ->) | (_ & ->)]])].
      * exfalso. eapply strip_not_all; eassumption.
      * left. exists tail, (S j). split.
        -- intros ->. apply (strip_last front1). rewrite E. reflexivity.
        -- rewrite Hj, E. simpl. f_equal. symmetry. apply replicate_cons_app.
      * exfalso. destruct H as [H | ->].
        -- destruct front as [|x [|y front]]; [done | discriminate..].
        -- apply (strip_last front1). rewrite E. apply last_snoc.
      * exfalso. destruct H as [H | ->].
        -- assert (Hl : last (strip front) = Some EmptyString) by (rewrite H; done).
           exact (strip_last _ Hl).
        -- apply (strip_last front1). rewrite E. apply last_snoc.
  - intros [H | H]; [| done].
    apply path_split_spec in E1
      as [(-> & _) | (front & -> & [(-> & _) | [(Hne & _ & ->) | (_ & ->)]])].
    + done.
    + left. exists t1, 0%nat. done.
    + destruct front as [|x [|y front]]; [done | discriminate..].
    + exfalso. simpl in H.
      assert (Hl : last (strip front) = Some EmptyString) by (rewrite H; done).
      exact (strip_last _ Hl).
Qed.

Lemma passes_all cs : passes here cs (length cs) = lexical here cs.
Proof. unfold passes, lexical. rewrite take_ge by lia. reflexivity. Qed.

Lemma passes_front cs front rest n :
  cs = front ++ rest ->
  passes here cs (n `min` length front) = foldl step (start here cs) (take n front).
Proof.
  intros ->. unfold passes. f_equal.
  rewrite take_app_le by lia.
  destruct (Nat.min_spec n (length front)) as [[? ->] | [? ->]];
    [reflexivity | rewrite !take_ge by lia; reflexivity].
Qed.

(** With no regular file where the name leads or on the way there,
    [makedirs(name, exist_ok=True)] returns and the name is a directory. *)
Lemma makedirs_from_free fuel : forall cs files,
  (length cs <= fuel)%nat -> cs <> [] -> cs <> [EmptyString] ->
  (forall n, node_at here files (passes here cs n) <> Some File) ->
  (makedirs_from fuel here cs true files).1 = Ok tt /\
  name_isdir here (makedirs_from fuel here cs true files).2 cs = true.
Proof.
  induction fuel as [|fuel IH]; intros cs files Hlen Hnil Hcs Hfree.
  { destruct cs; [done | simpl in Hlen; lia]. }
  assert (Hend : forall files', (mkdir_unless_there here cs true files').1 = Ok tt ->
            (mkdir_unless_there here cs true files').1 = Ok tt /\
            name_isdir here (mkdir_unless_there here cs true files').2 cs = true).
  { intros files' H. split; [exact H | apply mkdir_unless_there_Ok, H]. }
  assert (Htarget : forall files', grows here files files' ->
            node_at here files' (lexical here cs) <> Some File).
  { intros files' Hg Hf. apply (Hfree (length cs)). rewrite passes_all.
    eapply grows_File; eassumption. }
  rewrite makedirs_from_S. destruct (_ && _ && _)%bool eqn:Ec.
  - destruct (makedirs_inner _ _ Ec) as (front & k & Hk & Ht & Hnot & Hh & _).
    rewrite Hh.
    assert (Hlf : (length (strip front) <= length front)%nat).
    { destruct (strip_spec front) as [j Hj]. rewrite Hj at 2.
      rewrite length_app. lia. }
    destruct (IH (strip front) files) as [O1 D1].
    + rewrite Hk, length_app in Hlen. simpl in Hlen. lia.
    + apply strip_not_all, Hnot.
    + rewrite <- Hh. intros E. rewrite E in Ec. discriminate Ec.
    + intros n. unfold passes.
      rewrite (start_strip front ((head_tail cs).2 :: replicate k EmptyString)) by done.
      rewrite <- Hk. destruct (strip_spec front) as [j Hj].
      assert (Hpre : cs = strip front
                          ++ (replicate j EmptyString
                              ++ (head_tail cs).2 :: replicate k EmptyString)).
      { rewrite app_assoc, <- Hj. exact Hk. }
      rewrite <- (passes_front cs (strip front) _ n Hpre). apply Hfree.
    + pose proof (makedirs_from_spec fuel (strip front) files) as (G1 & _).
      destruct (makedirs_from fuel here (strip front) true files) as [r1 files1].
      simpl in *. subst r1. simpl.
      destruct (String.eqb_spec (head_tail cs).2 ".") as [Edot | Hdot].
      * simpl. split; [reflexivity |]. rewrite Edot in Hk.
        eapply name_isdir_dot; eassumption.
      * apply Hend. apply name_isdir_spec in D1 as (_ & p & Hp).
        apply (leads_to_inner _ cs front _ k p Hk Hnot) in Hp.
        eapply mkdir_unless_there_onto; eauto.
  - apply Hend.
    destruct (decide ((head_tail cs).1 = [EmptyString]
                      \/ (head_tail cs).2 = EmptyString)) as [Hflat | Hdeep].
    + destruct (head_tail_flat cs Hnil Hcs Hflat)
        as [(c & k & Hc & Hk) | [Hall Habs]].
      * apply (mkdir_unless_there_onto files cs [] c k here);
          [exact Hk | exact Hc | | apply Htarget, grows_refl].
        replace (start here cs) with here.
        -- split; [reflexivity | apply node_at_here].
        -- rewrite Hk. unfold start. simpl. destruct c; [done |].
           destruct (replicate k EmptyString); reflexivity.
      * rewrite mkdir_unless_there_isdir; [reflexivity |].
        apply name_isdir_spec. split; [exact Hcs |]. exists [].
        unfold start. rewrite Habs. apply all_empty_replicate in Hall.
        rewrite Hall. split; [apply walk_empties |]; apply node_at_root.
    + assert (Hh : (head_tail cs).1 <> [EmptyString]) by tauto.
      assert (Ht : (head_tail cs).2 <> EmptyString) by tauto.
      rewrite (proj2 (bool_decide_eq_false _) Hh) in Ec.
      rewrite (proj2 (String.eqb_neq _ _) Ht) in Ec. simpl in Ec.
      apply negb_false_iff in Ec.
      destruct (head_tail_spec cs Hh Ht)
        as (front & k & Hk & Hne & [[Hall Hhead] | [Hnot Hhead]]).
      * apply (mkdir_unless_there_onto files cs front (head_tail cs).2 k []);
          [exact Hk | exact Ht | | apply Htarget, grows_refl].
        replace (start here cs) with (@nil string).
        -- apply all_empty_replicate in Hall. rewrite Hall.
           split; [apply walk_empties |]; apply node_at_root.
        -- rewrite Hk. unfold start. destruct front as [|x front]; [done |].
           rewrite separators_cons in Hall. apply andb_prop in Hall as [Hx _].
           destruct x; [| discriminate]. simpl.
           destruct (front ++ (head_tail cs).2 :: replicate k EmptyString)
             eqn:E; [| reflexivity].
           destruct front; discriminate.
      * rewrite Hhead in Ec.
        apply name_exists_spec in Ec as (_ & q & Wq & [kq Nq]).
        assert (Hq : node_at here files q = Some Dir).
        { destruct kq; [exact Nq | exfalso].
          pose proof (walk_lexical _ _ _ _ Wq) as E.
          pose proof (start_strip front
                        ((head_tail cs).2 :: replicate k EmptyString) Hnot
                        ltac:(discriminate)) as Es.
          rewrite <- Hk in Es. destruct (strip_spec front) as [j Hj].
          assert (Hpre : cs = strip front
                              ++ (replicate j EmptyString
                                  ++ (head_tail cs).2 :: replicate k EmptyString)).
          { rewrite app_assoc, <- Hj. exact Hk. }
          apply (Hfree (length (strip front) `min` length (strip front))%nat).
          rewrite (passes_front cs (strip front) _ _ Hpre).
          rewrite take_ge, <- Es, <- E by lia. exact Nq. }
        assert (Hp : leads_to here files (start here (strip front))
                              (strip front) q) by done.
        apply (leads_to_inner _ cs front _ k q Hk Hnot) in Hp.
        eapply mkdir_unless_there_onto; eauto using grows_refl.
Qed.

(** The fuel never runs out. *)
Lemma makedirs_from_fuel fuel : forall cs ok files,
  (length cs <= fuel)%nat -> cs <> [] ->
  (makedirs_from fuel here cs ok files).1 <> Raise RecursionError.
Proof.
  induction fuel as [|fuel IH]; intros cs ok files Hlen Hnil.
  { destruct cs; [done | simpl in Hlen; lia]. }
  rewrite makedirs_from_S. destruct (_ && _ && _)%bool eqn:Ec;
    [| apply mkdir_unless_there_fuel].
  destruct (makedirs_inner _ _ Ec) as (front & k & Hk & Ht & Hnot & Hh & _).
  rewrite Hh. specialize (IH (strip front) ok files).
  destruct (makedirs_from fuel here (strip front) ok files) as [r1 files1].
  simpl in *. destruct (goes_on r1) eqn:Eg.
  - destruct (String.eqb (head_tail cs).2 "."); [discriminate |].
    apply mkdir_unless_there_fuel.
  - simpl. apply IH; [| apply strip_not_all, Hnot].
    destruct (strip_spec front) as [j Hj].
    rewrite Hk, length_app in Hlen. rewrite Hj, length_app in Hlen.
    simpl in Hlen. lia.
Qed.



End Disk.

(** *** [os.makedirs] on a name *)

Lemma makedirs_grows here name ok files :
  ok = true -> grows here files (makedirs here name ok files).2.
Proof. intros ->. apply makedirs_from_spec. Qed.

Lemma makedirs_Ok here name files :
  (makedirs here name true files).1 = Ok tt ->
  isdir here (makedirs here name true files).2 name = true \/
  node_at here files (parts here name) = Some File.
Proof. apply makedirs_from_spec. Qed.


Lemma makedirs_free here name files :
  name <> EmptyString -> unobstructed here files name ->
  (makedirs here name true files).1 = Ok tt /\
  isdir here (makedirs here name true files).2 name = true.
Proof.
  intros Hname Hfree. apply makedirs_from_free.
  - reflexivity.
  - apply split_sep_not_nil.
  - rewrite split_sep_empty. exact Hname.
  - exact Hfree.
Qed.



(** The recursion of [makedirs] ends: the fuel it is given is enough. *)
Lemma makedirs_ends here name ok files :
  (makedirs here name ok files).1 <> Raise RecursionError.
Proof. apply makedirs_from_fuel; [reflexivity | apply split_sep_not_nil]. Qed.

Lemma isdir_above here files name :
  isdir here files name = true ->
  forall n, node_at here files (take n (parts here name)) = Some Dir.
Proof. apply name_isdir_lexical. Qed.

(** *** [__init__] *)

Lemma init_run env i n l s :
  __init__ env i n l s
  = os_makedirs env l true
      (set_log_dir l (set_num_classes n (set_input_shape i (set_model None s)))).
Proof. reflexivity. Qed.

Lemma os_makedirs_Ok env name s s' :
  os_makedirs env name true s = (Ok tt, s') ->
  (makedirs (cwd env) name true (fs s)).1 = Ok tt /\
  s' = log (E_makedirs name true) None
         (set_fs (makedirs (cwd env) name true (fs s)).2 s).
Proof.
  unfold os_makedirs, call.
  destruct (raises env (trace s) (E_makedirs name true)); [discriminate |].
  destruct (makedirs (cwd env) name true (fs s)) as [[[]|e] files];
    [| discriminate].
  intros H. injection H as <-. done.
Qed.

Lemma os_makedirs_runs env name s files :
  raises env (trace s) (E_makedirs name true) = None ->
  makedirs (cwd env) name true (fs s) = (Ok tt, files) ->
  os_makedirs env name true s
  = (Ok tt, log (E_makedirs name true) None (set_fs files s)).
Proof. intros Hq Hm. unfold os_makedirs, call. rewrite Hq, Hm. reflexivity. Qed.





(** ** Runs that return *)

Lemma bind_Ok_intro {A B : Type} (m : M A) (k : A -> M B) s a s1 r :
  m s = (Ok a, s1) -> k a s1 = r -> (m ≫= k) s = r.
Proof. intros H1 H2. rewrite bind_run, H1. exact H2. Qed.

Lemma gets_Ok {A : Type} (f : State -> A) s a s' :
  gets f s = (Ok a, s') -> a = f s /\ s' = s.
Proof. unfold gets. intros H. injection H as <- <-. split; reflexivity. Qed.

Lemma modify_Ok (f : State -> State) s a s' :
  modify f s = (Ok a, s') -> s' = f s.
Proof. unfold modify. intros H. injection H as _ <-. reflexivity. Qed.

Lemma ret_Ok {A : Type} (x : A) s a s' :
  (mret x : M A) s = (Ok a, s') -> a = x /\ s' = s.
Proof. intros H. injection H as <- <-. split; reflexivity. Qed.

Section Returns.
Context (env : Env).

Lemma call_Ok {A : Type} ev (behaviour : State -> Result A * State) s a s' :
  call env ev behaviour s = (Ok a, s') ->
  raises env (trace s) ev = None /\
  exists s1, behaviour s = (Ok a, s1) /\ s' = log ev None s1.
Proof.
  unfold call. destruct (raises env (trace s) ev); [discriminate |].
  destruct (behaviour s) as [[a1|e] s1]; [| discriminate].
  intros H. injection H as <- <-. split; [reflexivity |].
  exists s1. split; reflexivity.
Qed.

Lemma pure_call_Ok {A : Type} ev (r : Result A) s a s' :
  pure_call env ev r s = (Ok a, s') -> r = Ok a /\ s' = log ev None s.
Proof.
  intros H. apply call_Ok in H as (_ & s1 & Hb & ->).
  injection Hb as -> <-. split; reflexivity.
Qed.

Lemma call_runs {A : Type} ev (behaviour : State -> Result A * State) s a s1 :
  raises env (trace s) ev = None -> behaviour s = (Ok a, s1) ->
  call env ev behaviour s = (Ok a, log ev None s1).
Proof. intros Hq Hb. unfold call. rewrite Hq, Hb. reflexivity. Qed.

Lemma pure_call_runs {A : Type} ev (a : A) s :
  raises env (trace s) ev = None ->
  pure_call env ev (Ok a) s = (Ok a, log ev None s).
Proof. intros Hq. apply call_runs; [exact Hq | reflexivity]. Qed.

Lemma dataset_getitem_Ok d key s split s' :
  dataset_getitem env d key s = (Ok split, s') ->
  (exists ds, objects s !! d = Some ds /\ ds !! key = Some split) /\
  s' = log (E_getitem "dataset" key) None s.
Proof.
  intros H. apply call_Ok in H as (_ & s1 & Hb & ->).
  destruct (objects s !! d) as [ds|]; [| discriminate Hb].
  destruct (ds !! key) as [x|] eqn:E; [| discriminate Hb].
  injection Hb as -> <-. split; [| reflexivity].
  exists ds. split; [reflexivity | exact E].
Qed.

Lemma dataset_getitem_runs d key s ds split :
  raises env (trace s) (E_getitem "dataset" key) = None ->
  objects s !! d = Some ds -> ds !! key = Some split ->
  dataset_getitem env d key s
  = (Ok split, log (E_getitem "dataset" key) None s).
Proof.
  intros Hq Ho Hk. apply call_runs; [exact Hq |]. rewrite Ho, Hk. reflexivity.
Qed.

Lemma column_getitem_Ok {A : Type} container key (column : option A) s v s' :
  column_getitem env container key column s = (Ok v, s') ->
  column = Some v /\ s' = log (E_getitem container key) None s.
Proof.
  intros H. apply pure_call_Ok in H as [Hr ->]. split; [| reflexivity].
  destruct column; [injection Hr as -> | discriminate Hr]. reflexivity.
Qed.

Lemma np_array_float_Ok rows s a s' :
  np_array_float env rows s = (Ok a, s') ->
  rectangular rows = true /\ a = rows /\
  s' = log (E_np_array_float rows) None s.
Proof.
  intros H. apply pure_call_Ok in H as [Hr ->].
  destruct (rectangular rows); [| discriminate Hr].
  injection Hr as <-. repeat split.
Qed.

End Returns.

(** ** Integers of 64 bits *)

Ltac powers :=
  change (2 ^ 63) with 9223372036854775808 in *;
  change (2 ^ 64) with 18446744073709551616 in *.

Lemma fits_int64_spec v : fits_int64 v = true <-> - 2 ^ 63 <= v < 2 ^ 63.
Proof. unfold fits_int64. rewrite andb_true_iff, Z.leb_le, Z.ltb_lt. reflexivity. Qed.

Lemma fits_uint64_spec v : fits_uint64 v = true <-> 0 <= v < 2 ^ 64.
Proof. unfold fits_uint64. rewrite andb_true_iff, Z.leb_le, Z.ltb_lt. reflexivity. Qed.

Lemma wrap_int64_fits v : fits_int64 v = true -> wrap_int64 v = v.
Proof.
  rewrite fits_int64_spec. intros H. unfold wrap_int64. powers.
  rewrite Z.mod_small; lia.
Qed.

Lemma wrap_int64_all values :
  forallb fits_int64 values = true -> wrap_int64 <$> values = values.
Proof.
  induction values as [|v values IH]; [reflexivity |]. intros H. simpl in H.
  apply andb_true_iff in H as [H1 H2].
  rewrite fmap_cons, (wrap_int64_fits v H1), (IH H2). reflexivity.
Qed.

Lemma forallb_false {A : Type} (f : A -> bool) (l : list A) :
  forallb f l = false -> exists i x, l !! i = Some x /\ f x = false.
Proof.
  induction l as [|a l IH]; [discriminate |]. simpl.
  destruct (f a) eqn:E.
  - intros H. destruct (IH H) as (i & x & Hi & Hx). exists (S i), x.
    split; assumption.
  - intros _. exists 0%nat, a. split; [reflexivity | exact E].
Qed.

Lemma forallb_lookup {A : Type} (f : A -> bool) (l : list A) i x :
  forallb f l = true -> l !! i = Some x -> f x = true.
Proof.
  intros H Hi. rewrite forallb_forall in H. apply H.
  apply list_elem_of_In. eapply list_elem_of_lookup_2. exact Hi.
Qed.

(** A double from [2^63] on is a double from [2^63] on. *)
Lemma round53_large v : 2 ^ 63 <= v < 2 ^ 64 -> 2 ^ 63 <= round53 v.
Proof.
  intros Hv. unfold round53.
  assert (Ha : Z.abs v = v) by (apply Z.abs_eq; powers; lia).
  assert (Hl : Z.log2 v = 63) by (apply Z.log2_unique; [lia | exact Hv]).
  cbv zeta. rewrite Ha, Hl. change (63 - 52) with 11.
  change (11 <=? 0) with false. cbv iota.
  rewrite Z.sgn_pos by (powers; lia).
  assert (Hq : 2 ^ 52 <= v / 2 ^ 11).
  { apply Z.div_le_lower_bound; [reflexivity |].
    change (2 ^ 11 * 2 ^ 52) with (2 ^ 63). apply Hv. }
  change (2 ^ 63) with (2 ^ 52 * 2 ^ 11).
  destruct ((2 ^ 11 <? 2 * (v mod 2 ^ 11))
            || (2 ^ 11 =? 2 * (v mod 2 ^ 11)) && Z.odd (v / 2 ^ 11));
    change (2 ^ 11) with 2048 in *; change (2 ^ 52) with 4503599627370496 in *;
    lia.
Qed.

(** A Python list that [np.array] takes for doubles, unless it is empty,
    holds an int from [2^63] on. *)
Lemma result_type_float64 values :
  result_type values = float64 -> values <> [] ->
  exists i v, values !! i = Some v /\ 2 ^ 63 <= v < 2 ^ 64.
Proof.
  unfold result_type. intros H Hne.
  destruct (forallb fits_int64 values) eqn:E1.
  { destruct values; [contradiction | discriminate H]. }
  apply forallb_false in E1 as (i & v & Hi & Hv).
  assert (Hu : fits_uint64 v = true).
  { destruct (forallb fits_uint64 values) eqn:E2.
    - exact (forallb_lookup _ _ _ _ E2 Hi).
    - destruct (forallb (fun v => fits_int64 v || fits_uint64 v) values) eqn:E3;
        [| discriminate H].
      pose proof (forallb_lookup _ _ _ _ E3 Hi) as Hor. cbv beta in Hor.
      rewrite Hv in Hor. exact Hor. }
  exists i, v. split; [exact Hi |].
  apply fits_uint64_spec in Hu.
  assert (Hn : ~ (- 2 ^ 63 <= v < 2 ^ 63)).
  { rewrite <- fits_int64_spec, Hv. discriminate. }
  powers. lia.
Qed.

Lemma result_type_int64 values :
  result_type values = int64 -> forallb fits_int64 values = true.
Proof.
  unfold result_type. destruct (forallb fits_int64 values); [reflexivity |].
  destruct (forallb fits_uint64 values).
  - destruct (forallb _ values); discriminate.
  - destruct (forallb _ values); discriminate.
Qed.

(** Integers that are all [int64] reach [to_categorical] as they are. *)
Lemma as_int64_fitting format values :
  forallb fits_int64 values = true ->
  as_int64 (np_array format values) = Ok values.
Proof.
  intros H. destruct format; unfold np_array.
  - unfold result_type. rewrite H. destruct values; reflexivity.
  - rewrite H. reflexivity.
Qed.

(** ** One-hot encoding *)

Lemma normalize_index_in_range n l :
  0 <= l < n -> normalize_index n l = Some l.
Proof.
  intros [H1 H2]. unfold normalize_index.
  destruct (Z.leb_spec 0 l); [| lia]. destruct (Z.ltb_spec l n); [| lia].
  reflexivity.
Qed.

Lemma normalize_index_wraps n l :
  - n <= l < 0 -> normalize_index n l = Some (l + n).
Proof.
  intros [H1 H2]. unfold normalize_index.
  destruct (Z.leb_spec 0 l); [lia |]. simpl.
  destruct (Z.leb_spec (- n) l); [| lia]. destruct (Z.ltb_spec l 0); [| lia].
  reflexivity.
Qed.

Lemma normalize_index_Some n l c :
  normalize_index n l = Some c -> - n <= l < n /\ 0 <= c < n.
Proof.
  unfold normalize_index.
  destruct (Z.leb_spec 0 l); destruct (Z.ltb_spec l n); simpl;
    try (intros E; injection E as <-; lia);
    destruct (Z.leb_spec (- n) l); destruct (Z.ltb_spec l 0); simpl;
    try discriminate; intros E; injection E as <-; lia.
Qed.

Lemma one_hot_row n l :
  0 <= l < n ->
  one_hot_at n l (<[Z.to_nat l := 1%float]> (replicate (Z.to_nat n) 0%float)).
Proof.
  intros Hl. unfold one_hot_at.
  assert (Hlt : (Z.to_nat l < Z.to_nat n)%nat) by lia.
  repeat split.
  - rewrite length_insert, length_replicate. reflexivity.
  - apply list_lookup_insert_eq. rewrite length_replicate. exact Hlt.
  - intros j Hj Hlen. rewrite length_insert, length_replicate in Hlen.
    rewrite list_lookup_insert_ne by congruence.
    apply lookup_replicate_2. exact Hlen.
Qed.

Lemma array_fits_width rows cols :
  array_fits rows cols = true -> 0 <= cols < 2 ^ 63.
Proof.
  unfold array_fits. rewrite andb_true_iff, Z.leb_le, Z.ltb_lt.
  intros [H1 H2]. split; [exact H1 |].
  assert (Ha : 1 <= Z.max 1 (Z.of_nat rows)) by lia.
  assert (Hb : cols <= Z.max 1 cols) by lia.
  powers. nia.
Qed.

Lemma Result_bind_Ok {A B : Type} (r : Result A) (k : A -> Result B) b :
  r ≫= k = Ok b -> exists a, r = Ok a /\ k a = Ok b.
Proof.
  destruct r as [a|e]; [| discriminate]. intros H. exists a.
  split; [reflexivity | exact H].
Qed.

(** What [to_categorical] has done when it returns. *)
Lemma to_categorical_Ok y n rows :
  to_categorical y n = Ok rows ->
  exists labels classes columns,
    as_int64 y = Ok labels /\
    (n <> 0 -> classes = n) /\
    (n = 0 -> exists l rest,
                labels = l :: rest /\
                classes = wrap_int64 (max_label l rest + 1)) /\
    array_fits (length labels) classes = true /\
    mapM (normalize_index classes) labels = Some columns /\
    rows = zip_with (fun row column => <[Z.to_nat column := 1%float]> row)
             (replicate (length labels) (replicate (Z.to_nat classes) 0%float))
             columns.
Proof.
  unfold to_categorical. intros H.
  apply Result_bind_Ok in H as (labels & Hl & H).
  apply Result_bind_Ok in H as (classes & Hc & H).
  apply Result_bind_Ok in H as (zeros & Hz & H).
  unfold np_zeros in Hz.
  destruct (array_fits (length labels) classes) eqn:Hfit; [| discriminate Hz].
  injection Hz as <-. unfold set_ones in H.
  destruct (mapM (normalize_index classes) labels) as [columns|] eqn:Hm;
    [| discriminate H].
  injection H as <-. exists labels, classes, columns.
  split; [exact Hl |].
  destruct (Z.eqb_spec n 0) as [-> | Hn].
  - split; [intros Hn; contradiction |].
    split; [| repeat split; assumption].
    intros _. destruct labels as [|l rest]; [discriminate Hc |].
    injection Hc as <-. exists l, rest. split; reflexivity.
  - injection Hc as <-. split; [reflexivity |].
    split; [| repeat split; assumption].
    intros Hz. contradiction.
Qed.

(** The array [np.array] makes of the label column reaches the encoding,
    when [to_categorical] returns, as the [int64] of each label's 64 bits:
    the label itself where it is an [int64]. *)
Lemma as_int64_np_array format values labels classes columns :
  as_int64 (np_array format values) = Ok labels ->
  classes < 2 ^ 63 ->
  mapM (normalize_index classes) labels = Some columns ->
  labels = wrap_int64 <$> values.
Proof.
  intros Hl Hc Hm. destruct format; unfold np_array in Hl.
  - destruct (result_type values) eqn:T; unfold as_int64 in Hl; simpl in Hl.
    + injection Hl as <-. symmetry.
      apply wrap_int64_all, result_type_int64, T.
    + injection Hl as <-. reflexivity.
    + destruct values as [|v0 vs]; [injection Hl as <-; reflexivity |].
      exfalso.
      destruct (result_type_float64 _ T) as (i & v & Hi & Hv); [discriminate |].
      injection Hl as <-. apply mapM_Some in Hm.
      assert (Hi' : (double_to_int64 <$> (round53 <$> v0 :: vs)) !! i
                    = Some (- 2 ^ 63)).
      { rewrite !list_lookup_fmap, Hi. simpl. unfold double_to_int64.
        pose proof (round53_large v Hv) as Hr.
        destruct (fits_int64 (round53 v)) eqn:F; [| reflexivity].
        apply fits_int64_spec in F. lia. }
      destruct (Forall2_lookup_l _ _ _ _ _ Hm Hi') as (c & _ & Hn).
      apply normalize_index_Some in Hn. lia.
    + destruct (forallb fits_int64 values) eqn:F; [| discriminate Hl].
      injection Hl as <-. symmetry. apply wrap_int64_all, F.
  - destruct (forallb fits_int64 values) eqn:F; unfold as_int64 in Hl;
      simpl in Hl; injection Hl as <-.
    + symmetry. apply wrap_int64_all, F.
    + reflexivity.
Qed.

(** What the encoding of a label column is, when there is one. *)
Lemma to_categorical_np_array format values n rows :
  to_categorical (np_array format values) n = Ok rows ->
  exists classes columns,
    (n <> 0 -> classes = n) /\
    (n = 0 -> exists l rest,
                values = l :: rest /\
                classes = wrap_int64
                            (max_label (wrap_int64 l) (wrap_int64 <$> rest) + 1)) /\
    array_fits (length values) classes = true /\
    mapM (normalize_index classes) (wrap_int64 <$> values) = Some columns /\
    rows = zip_with (fun row column => <[Z.to_nat column := 1%float]> row)
             (replicate (length values) (replicate (Z.to_nat classes) 0%float))
             columns.
Proof.
  intros H.
  apply to_categorical_Ok in H
    as (labels & classes & columns & Hl & Hn & Hz & Hfit & Hm & ->).
  pose proof (array_fits_width _ _ Hfit) as Hw.
  pose proof (as_int64_np_array _ _ _ _ _ Hl (proj2 Hw) Hm) as ->.
  rewrite length_fmap in *.
  exists classes, columns. split; [exact Hn |]. split; [| repeat split; assumption].
  intros H0. destruct (Hz H0) as (l & rest & Hv & ->).
  destruct values as [|v vs]; [discriminate Hv |].
  rewrite fmap_cons in Hv. injection Hv as <- <-.
  exists v, vs. split; reflexivity.
Qed.

(** Each row of the result encodes the label at its position. *)
Lemma to_categorical_rows format y n rows :
  to_categorical (np_array format y) n = Ok rows ->
  forall i l, y !! i = Some l -> 0 <= l < n ->
  exists row, rows !! i = Some row /\ one_hot_at n l row.
Proof.
  intros H i l Hi Hl.
  apply to_categorical_np_array in H
    as (classes & columns & Hn & _ & Hfit & Hm & ->).
  rewrite Hn in * by lia. clear Hn.
  apply array_fits_width in Hfit.
  apply mapM_Some in Hm.
  assert (Hi' : (wrap_int64 <$> y) !! i = Some l).
  { rewrite list_lookup_fmap, Hi. simpl. f_equal. apply wrap_int64_fits.
    apply fits_int64_spec. powers. lia. }
  destruct (Forall2_lookup_l _ _ _ _ _ Hm Hi') as (c & Hc & Hnorm).
  rewrite (normalize_index_in_range n l Hl) in Hnorm. injection Hnorm as <-.
  exists (<[Z.to_nat l := 1%float]> (replicate (Z.to_nat n) 0%float)).
  split; [| apply one_hot_row; exact Hl].
  rewrite lookup_zip_with.
  rewrite lookup_replicate_2 by (apply lookup_lt_Some in Hi; exact Hi).
  simpl. rewrite Hc. reflexivity.
Qed.

Lemma to_categorical_length format y n rows :
  to_categorical (np_array format y) n = Ok rows -> length rows = length y.
Proof.
  intros H.
  apply to_categorical_np_array in H as (classes & columns & _ & _ & _ & Hm & ->).
  apply mapM_Some, Forall2_length in Hm. rewrite length_fmap in Hm.
  rewrite length_zip_with, length_replicate. lia.
Qed.

(** Labels that index an axis of length [n], from the front or from the
    end, are all encoded, when NumPy makes an array of that size. *)
Lemma to_categorical_indices format y n :
  0 < n -> array_fits (length y) n = true ->
  Forall (fun l => - n <= l < n) y ->
  exists rows, to_categorical (np_array format y) n = Ok rows.
Proof.
  intros Hn Hfit Hy. pose proof (array_fits_width _ _ Hfit) as Hw.
  assert (Hf : forallb fits_int64 y = true).
  { apply forallb_forall. intros l Hin. apply list_elem_of_In in Hin.
    rewrite Forall_forall in Hy. apply Hy in Hin.
    apply fits_int64_spec. powers. lia. }
  unfold to_categorical. rewrite (as_int64_fitting format y Hf). simpl.
  destruct (Z.eqb_spec n 0) as [|_]; [lia |]. simpl.
  unfold np_zeros. rewrite Hfit. simpl. unfold set_ones.
  assert (Hm : is_Some (mapM (normalize_index n) y)).
  { apply mapM_is_Some. eapply Forall_impl; [exact Hy |].
    intros l Hl. cbv beta in Hl. unfold compose.
    destruct (Z.lt_ge_cases l 0).
    - rewrite normalize_index_wraps by lia. eauto.
    - rewrite normalize_index_in_range by lia. eauto. }
  destruct Hm as [columns ->]. eexists. reflexivity.
Qed.

(** Labels that are class indices are all encoded. *)
Lemma to_categorical_total format y n :
  0 < n -> array_fits (length y) n = true ->
  Forall (fun l => 0 <= l < n) y ->
  exists rows, to_categorical (np_array format y) n = Ok rows.
Proof.
  intros Hn Hfit Hy. apply to_categorical_indices; [exact Hn | exact Hfit |].
  eapply Forall_impl; [exact Hy |]. intros l Hl. cbv beta in Hl. lia.
Qed.

(** ** [prepare_dataset] *)

(** The facts about a dataset that let [prepare_dataset] return. *)
Lemma prepare_dataset_Ok env d s X_train y_train X_test y_test s' :
  prepare_dataset env d s = (Ok (X_train, y_train, X_test, y_test), s') ->
  exists ds train test labels_train labels_test,
    objects s !! d = Some ds /\
    ds !! "train" = Some train /\ ds !! "test" = Some test /\
    embedding train = Some X_train /\ label train = Some labels_train /\
    embedding test = Some X_test /\ label test = Some labels_test /\
    to_categorical (np_array (label_format train) labels_train)
                   (num_classes s) = Ok y_train /\
    to_categorical (np_array (label_format test) labels_test)
                   (num_classes s) = Ok y_test /\
    same_but_trace s s' /\
    trace s' = trace s ++
               returned (conversion_calls
                           X_train (label_format train) labels_train
                           X_test (label_format test) labels_test
                           (num_classes s)).
Proof.
  unfold prepare_dataset. intros H.
  apply bind_Ok in H as (train & s1 & H1 & H).
  apply dataset_getitem_Ok in H1 as ((ds & Hds & Htrain) & ->).
  apply bind_Ok in H as (c1 & s2 & H1 & H).
  apply column_getitem_Ok in H1 as (Hc1 & ->).
  apply bind_Ok in H as (a1 & s3 & H1 & H).
  apply np_array_float_Ok in H1 as (_ & -> & ->).
  apply bind_Ok in H as (train' & s4 & H1 & H).
  apply dataset_getitem_Ok in H1 as ((ds' & Hds' & Htrain') & ->).
  apply bind_Ok in H as (c2 & s5 & H1 & H).
  apply column_getitem_Ok in H1 as (Hc2 & ->).
  apply bind_Ok in H as (a2 & s6 & H1 & H).
  apply pure_call_Ok in H1 as (Ha2 & ->). injection Ha2 as <-.
  apply bind_Ok in H as (test & s7 & H1 & H).
  apply dataset_getitem_Ok in H1 as ((ds2 & Hds2 & Htest) & ->).
  apply bind_Ok in H as (c3 & s8 & H1 & H).
  apply column_getitem_Ok in H1 as (Hc3 & ->).
  apply bind_Ok in H as (a3 & s9 & H1 & H).
  apply np_array_float_Ok in H1 as (_ & -> & ->).
  apply bind_Ok in H as (test' & s10 & H1 & H).
  apply dataset_getitem_Ok in H1 as ((ds3 & Hds3 & Htest') & ->).
  apply bind_Ok in H as (c4 & s11 & H1 & H).
  apply column_getitem_Ok in H1 as (Hc4 & ->).
  apply bind_Ok in H as (a4 & s12 & H1 & H).
  apply pure_call_Ok in H1 as (Ha4 & ->). injection Ha4 as <-.
  apply bind_Ok in H as (n1 & s13 & H1 & H).
  apply gets_Ok in H1 as (-> & ->).
  apply bind_Ok in H as (y1 & s14 & H1 & H).
  apply pure_call_Ok in H1 as (Hy1 & ->).
  apply bind_Ok in H as (n2 & s15 & H1 & H).
  apply gets_Ok in H1 as (-> & ->).
  apply bind_Ok in H as (y2 & s16 & H1 & H).
  apply pure_call_Ok in H1 as (Hy2 & ->).
  apply ret_Ok in H as (Hres & ->). injection Hres as <- <- <- <-.
  simpl in Hds, Hds', Hds2, Hds3.
  assert (ds' = ds) as -> by congruence.
  assert (ds2 = ds) as -> by congruence.
  assert (ds3 = ds) as -> by congruence.
  assert (train' = train) as -> by congruence.
  assert (test' = test) as -> by congruence.
  exists ds, train, test, c2, c4.
  do 9 (split; [assumption |]).
  split; [repeat split |].
  simpl. rewrite <- !app_assoc. reflexivity.
Qed.

Section PrepareRuns.
Context (env : Env) (Hq : quiet env).

Lemma column_getitem_runs {A : Type} container key (column : option A) v s :
  column = Some v ->
  column_getitem env container key column s
  = (Ok v, log (E_getitem container key) None s).
Proof. intros ->. apply pure_call_runs, Hq. Qed.

Lemma np_array_float_runs rows s :
  rectangular rows = true ->
  np_array_float env rows s = (Ok rows, log (E_np_array_float rows) None s).
Proof. intros H. unfold np_array_float. rewrite H. apply pure_call_runs, Hq. Qed.

Lemma utils_to_categorical_runs y n rows s :
  to_categorical y n = Ok rows ->
  utils_to_categorical env y n s = (Ok rows, log (E_to_categorical y n) None s).
Proof.
  intros H. unfold utils_to_categorical. rewrite H. apply pure_call_runs, Hq.
Qed.

Lemma prepare_dataset_runs d s ds train test
  X_train labels_train X_test labels_test y_train y_test :
  objects s !! d = Some ds ->
  ds !! "train" = Some train -> ds !! "test" = Some test ->
  embedding train = Some X_train -> label train = Some labels_train ->
  embedding test = Some X_test -> label test = Some labels_test ->
  rectangular X_train = true -> rectangular X_test = true ->
  to_categorical (np_array (label_format train) labels_train)
                 (num_classes s) = Ok y_train ->
  to_categorical (np_array (label_format test) labels_test)
                 (num_classes s) = Ok y_test ->
  exists s',
    prepare_dataset env d s = (Ok (X_train, y_train, X_test, y_test), s').
Proof.
  intros Hds Htrain Htest He1 Hl1 He2 Hl2 Hr1 Hr2 Hy1 Hy2.
  eexists. unfold prepare_dataset.
  eapply bind_Ok_intro;
    [apply (dataset_getitem_runs env d "train" _ ds train);
     [apply Hq | exact Hds | exact Htrain] |].
  eapply bind_Ok_intro; [apply column_getitem_runs; exact He1 |].
  eapply bind_Ok_intro; [apply np_array_float_runs; exact Hr1 |].
  eapply bind_Ok_intro;
    [apply (dataset_getitem_runs env d "train" _ ds train);
     [apply Hq | exact Hds | exact Htrain] |].
  eapply bind_Ok_intro; [apply column_getitem_runs; exact Hl1 |].
  eapply bind_Ok_intro; [apply pure_call_runs, Hq |].
  eapply bind_Ok_intro;
    [apply (dataset_getitem_runs env d "test" _ ds test);
     [apply Hq | exact Hds | exact Htest] |].
  eapply bind_Ok_intro; [apply column_getitem_runs; exact He2 |].
  eapply bind_Ok_intro; [apply np_array_float_runs; exact Hr2 |].
  eapply bind_Ok_intro;
    [apply (dataset_getitem_runs env d "test" _ ds test);
     [apply Hq | exact Hds | exact Htest] |].
  eapply bind_Ok_intro; [apply column_getitem_runs; exact Hl2 |].
  eapply bind_Ok_intro; [apply pure_call_runs, Hq |].
  eapply bind_Ok_intro; [reflexivity |].
  eapply bind_Ok_intro; [apply utils_to_categorical_runs; exact Hy1 |].
  eapply bind_Ok_intro; [reflexivity |].
  eapply bind_Ok_intro; [apply utils_to_categorical_runs; exact Hy2 |].
  reflexivity.
Qed.

End PrepareRuns.

(** C1. [prepare_dataset] one-hot encodes the labels. In every run that
    returns, each train and each test label [l] with
    [0 <= l < num_classes] has become, at its position, a row of length
    [num_classes] that is 1 at index [l] and 0 at every other index. And
    when the dataset has both splits with both columns, the embeddings are
    not ragged, the class count is positive, every label is a class index
    and an array of one row per label and one column per class is of a
    size NumPy makes, the run does return (no library call failing for a
    reason of its own), with one row per label. *)
Theorem prepare_dataset_one_hot (env : Env) (d : nat) (s : State) :
  (forall X_train y_train X_test y_test s',
     prepare_dataset env d s = (Ok (X_train, y_train, X_test, y_test), s') ->
     exists ds train test labels_train labels_test,
       objects s !! d = Some ds /\
       ds !! "train" = Some train /\ ds !! "test" = Some test /\
       label train = Some labels_train /\ label test = Some labels_test /\
       (forall i l, labels_train !! i = Some l -> 0 <= l < num_classes s ->
          exists row, y_train !! i = Some row /\
                      one_hot_at (num_classes s) l row) /\
       (forall i l, labels_test !! i = Some l -> 0 <= l < num_classes s ->
          exists row, y_test !! i = Some row /\
                      one_hot_at (num_classes s) l row)) /\
  (quiet env ->
   forall ds train test X_train labels_train X_test labels_test,
     objects s !! d = Some ds ->
     ds !! "train" = Some train -> ds !! "test" = Some test ->
     embedding train = Some X_train -> label train = Some labels_train ->
     embedding test = Some X_test -> label test = Some labels_test ->
     rectangular X_train = true -> rectangular X_test = true ->
     0 < num_classes s ->
     Forall (fun l => 0 <= l < num_classes s) labels_train ->
     Forall (fun l => 0 <= l < num_classes s) labels_test ->
     array_fits (length labels_train) (num_classes s) = true ->
     array_fits (length labels_test) (num_classes s) = true ->
     exists y_train y_test s',
       prepare_dataset env d s = (Ok (X_train, y_train, X_test, y_test), s') /\
       length y_train = length labels_train /\
       length y_test = length labels_test).
Proof.
  split.
  - intros X_train y_train X_test y_test s' H.
    apply prepare_dataset_Ok in H
      as (ds & train & test & l1 & l2 & Hds & Htr & Hte & _ & Hl1 & _ & Hl2
          & Hy1 & Hy2 & _).
    exists ds, train, test, l1, l2.
    do 5 (split; [assumption |]).
    split; intros i l Hi Hl.
    + eapply to_categorical_rows; eassumption.
    + eapply to_categorical_rows; eassumption.
  - intros Hq ds train test X_train l1 X_test l2
      Hds Htr Hte He1 Hl1 He2 Hl2 Hr1 Hr2 Hn Hin1 Hin2 Hfit1 Hfit2.
    destruct (to_categorical_total (label_format train) l1 _ Hn Hfit1 Hin1)
      as [y1 Hy1].
    destruct (to_categorical_total (label_format test) l2 _ Hn Hfit2 Hin2)
      as [y2 Hy2].
    destruct (prepare_dataset_runs env Hq d s ds train test
                X_train l1 X_test l2 y1 y2) as [s' Hrun]; try assumption.
    exists y1, y2, s'. split; [exact Hrun |].
    split; eapply to_categorical_length; eassumption.
Qed.

Lemma calm_quiet : quiet calm.
Proof. intros tr ev. reflexivity. Qed.

Lemma prepare_dataset_one_hot_witness :
  (exists row,
     [[1; 0; 0]; [0; 0; 1]; [0; 1; 0]]%float !! 1%nat = Some row /\
     one_hot_at 3 2 row) /\
  exists y_train y_test s',
    prepare_dataset calm 0 world1
    = (Ok ([[0.5; 0.25]; [0.75; 1]; [0; 0.125]]%float, y_train,
           [[1; 0.5]]%float, y_test), s') /\
    length y_train = length [0; 2; 1] /\ length y_test = length [1].
Proof.
  destruct (prepare_dataset_one_hot calm 0 world1) as [Hrows Hruns].
  assert (Hrun : exists s',
             prepare_dataset calm 0 world1
             = (Ok ([[0.5; 0.25]; [0.75; 1]; [0; 0.125]]%float,
                    [[1; 0; 0]; [0; 0; 1]; [0; 1; 0]]%float,
                    [[1; 0.5]]%float, [[0; 1; 0]]%float), s')).
  { eexists. vm_compute. reflexivity. }
  destruct Hrun as [s' Hrun]. split.
  - destruct (Hrows _ _ _ _ _ Hrun)
      as (ds & train & test & l1 & l2 & Hds & Htr & Hte & Hl1 & Hl2 & H1 & _).
    apply (H1 1%nat 2); [| vm_compute; split; [discriminate | reflexivity]].
    vm_compute in Hds. injection Hds as <-.
    vm_compute in Htr. injection Htr as <-.
    vm_compute in Hl1. injection Hl1 as <-. reflexivity.
  - apply (Hruns calm_quiet sample_dataset
             (mkDataset (Some [[0.5; 0.25]; [0.75; 1]; [0; 0.125]]%float)
                        (Some [0; 2; 1]) python_list)
             (mkDataset (Some [[1; 0.5]]%float) (Some [1]) python_list));
      try (vm_compute; reflexivity).
    + repeat (constructor;
              [split; [vm_compute; discriminate | vm_compute; reflexivity] |]).
      constructor.
    + repeat (constructor;
              [split; [vm_compute; discriminate | vm_compute; reflexivity] |]).
      constructor.
Defined.


(** ** [build_model] *)

Section ModelCalls.
Context (env : Env).

Lemma self_model_Ok name s k s' :
  self_model name s = (Ok k, s') -> model s = Some k /\ s' = s.
Proof.
  unfold self_model. intros H. apply bind_Ok in H as (m & s1 & H1 & H).
  apply gets_Ok in H1 as (-> & ->).
  destruct (model s) as [k'|]; [| discriminate H].
  apply ret_Ok in H as (-> & ->). split; reflexivity.
Qed.

Lemma models_Sequential_Ok ls s k s' :
  models_Sequential env ls s = (Ok k, s') ->
  k = mkKerasModel (next_id s) ls None 0 /\
  s' = log (E_Sequential ls) None (set_next_id (S (next_id s)) s).
Proof.
  intros H. apply call_Ok in H as (_ & s1 & Hb & ->).
  injection Hb as <- <-. split; reflexivity.
Qed.

Lemma model_compile_Ok c s u s' :
  model_compile env c s = (Ok u, s') ->
  exists k,
    model s = Some k /\
    s' = log (E_compile (model_id k) c) None
           (set_model
              (Some (mkKerasModel (model_id k) (model_layers k) (Some c)
                                  (fits k))) s).
Proof.
  unfold model_compile. intros H. apply bind_Ok in H as (k & s1 & H1 & H).
  apply self_model_Ok in H1 as (Hk & ->).
  apply call_Ok in H as (_ & s2 & Hb & ->). injection Hb as _ <-.
  exists k. split; [exact Hk | reflexivity].
Qed.

Lemma model_summary_Ok s u s' :
  model_summary env s = (Ok u, s') ->
  exists k, model s = Some k /\ s' = log (E_summary (model_id k)) None s.
Proof.
  unfold model_summary. intros H. apply bind_Ok in H as (k & s1 & H1 & H).
  apply self_model_Ok in H1 as (Hk & ->).
  apply pure_call_Ok in H as (_ & ->).
  exists k. split; [exact Hk | reflexivity].
Qed.

Lemma model_fit_Ok x y v epochs batch_size cbs verbose s h s' :
  model_fit env x y v epochs batch_size cbs verbose s = (Ok h, s') ->
  exists k,
    model s = Some k /\
    h = mkHistory (training env (trace s)) /\
    s' = log (E_fit (model_id k) x y v.1 v.2 epochs batch_size cbs verbose)
           None
           (set_fs (write_files (cbs ≫= callback_files env (trace s)) (fs s))
              (set_model
                 (Some (mkKerasModel (model_id k) (model_layers k)
                                     (compiled k) (S (fits k)))) s)).
Proof.
  unfold model_fit. intros H. apply bind_Ok in H as (k & s1 & H1 & H).
  apply self_model_Ok in H1 as (Hk & ->).
  apply call_Ok in H as (_ & s2 & Hb & ->). injection Hb as <- <-.
  exists k. repeat split. exact Hk.
Qed.

End ModelCalls.

(** One step of a run that returned: the first call of [H] is resolved. *)
Ltac returned_step H :=
  let H1 := fresh "Hstep" in
  apply bind_Ok in H as (? & ? & H1 & H);
  first
    [ apply gets_Ok in H1 as (-> & ->)
    | apply modify_Ok in H1 as ->
    | apply models_Sequential_Ok in H1 as (-> & ->)
    | apply pure_call_Ok in H1 as (H1 & ->); injection H1 as <- ].

Lemma build_model_Ok env lr s u s' :
  build_model env lr s = (Ok u, s') ->
  model s'
  = Some (mkKerasModel (next_id s)
            (dense_stack (input_shape s) (num_classes s))
            (Some (compile_config lr)) 0) /\
  input_shape s' = input_shape s /\ num_classes s' = num_classes s /\
  log_dir s' = log_dir s /\ objects s' = objects s /\ fs s' = fs s /\
  children s' = children s /\ next_id s' = S (next_id s) /\
  trace s' = trace s ++
             returned (assembly_calls (input_shape s) (num_classes s) ++
                       compilation_calls lr (next_id s)).
Proof.
  unfold build_model, layers_new, regularizers_l2, optimizers_Adam,
    metrics_new, print.
  intros H. do 19 returned_step H.
  apply bind_Ok in H as (u1 & s1 & H1 & H).
  apply model_compile_Ok in H1 as (k & Hk & ->).
  simpl in Hk. injection Hk as <-.
  apply bind_Ok in H as (u2 & s2 & H2 & H).
  apply model_summary_Ok in H2 as (k & Hk & ->).
  simpl in Hk. injection Hk as <-.
  apply pure_call_Ok in H as (_ & ->).
  repeat (split; [reflexivity |]).
  simpl. rewrite <- !app_assoc. reflexivity.
Qed.

Section BuildRuns.
Context (env : Env) (Hq : quiet env).

(** One step of a run in which no call fails. *)
Ltac quiet_step :=
  eapply bind_Ok_intro;
  [ first
      [ apply pure_call_runs, Hq
      | apply call_runs; [apply Hq | reflexivity]
      | reflexivity ]
  | cbv beta ].

Lemma build_model_runs lr s :
  exists s', build_model env lr s = (Ok tt, s').
Proof.
  eexists.
  unfold build_model, layers_new, regularizers_l2, optimizers_Adam,
    metrics_new, print, models_Sequential.
  do 19 quiet_step.
  eapply bind_Ok_intro.
  { unfold model_compile. eapply bind_Ok_intro; [reflexivity |].
    apply call_runs; [apply Hq | reflexivity]. }
  eapply bind_Ok_intro.
  { unfold model_summary. eapply bind_Ok_intro; [reflexivity |].
    apply pure_call_runs, Hq. }
  apply pure_call_runs, Hq.
Qed.

End BuildRuns.

(** C2. The width of the output layer of the model [build_model] builds is
    the class count: whenever [build_model] returns, [self.model] is a model
    whose last layer is a dense layer of [num_classes] units, whatever
    [num_classes] the instance holds; and it does return when the framework
    accepts every call. *)
Theorem build_model_output_width (env : Env) (lr : float) (s : State) :
  (forall s', build_model env lr s = (Ok tt, s') ->
              exists k, model s' = Some k /\
                        output_width k = Some (num_classes s) /\
                        last (model_layers k)
                        = Some (Dense (num_classes s) softmax None)) /\
  (quiet env -> exists s', build_model env lr s = (Ok tt, s')).
Proof.
  split.
  - intros s' H. apply build_model_Ok in H as (Hm & _).
    eexists. split; [exact Hm |]. split; reflexivity.
  - intros Hq. apply build_model_runs. exact Hq.
Qed.

Lemma build_model_output_width_witness :
  exists s' k,
    build_model calm default_learning_rate world1 = (Ok tt, s') /\
    model s' = Some k /\ output_width k = Some 3.
Proof.
  destruct (build_model_output_width calm default_learning_rate world1)
    as [Hwidth Hruns].
  destruct (Hruns calm_quiet) as [s' Hs'].
  destruct (Hwidth s' Hs') as (k & Hk & Hw & _).
  exists s', k. repeat split; assumption.
Defined.

(** ** Calls of a kind *)

#[export] Instance only_preorder allowed : PreOrder (only allowed).
Proof.
  split.
  - intros s. exists []. split; [symmetry; apply app_nil_r | constructor].
  - intros s1 s2 s3 (n1 & H1 & F1) (n2 & H2 & F2). exists (n1 ++ n2). split.
    + rewrite H2, H1, app_assoc. reflexivity.
    + apply Forall_app. split; assumption.
Qed.

Lemma only_log allowed ev r s : allowed ev = true -> only allowed s (log ev r s).
Proof.
  intros H. exists [mkEntry ev r]. split; [reflexivity |].
  constructor; [exact H | constructor].
Qed.

Lemma only_same_trace allowed s s' : trace s' = trace s -> only allowed s s'.
Proof. intros H. exists []. split; [rewrite H, app_nil_r; reflexivity | constructor]. Qed.

Lemma only_new_calls allowed s s' :
  only allowed s s' -> forallb allowed (new_calls s s') = true.
Proof.
  intros (new & Ht & Hf). unfold new_calls. rewrite (new_entries_app _ _ _ Ht).
  apply forallb_forall. intros ev Hin. apply in_map_iff in Hin as (en & <- & Hen).
  rewrite Forall_forall in Hf. apply Hf. apply list_elem_of_In. exact Hen.
Qed.

#[export] Instance settled_preorder : PreOrder settled.
Proof.
  split.
  - intros s. repeat split.
  - intros s1 s2 s3 (A1 & A2 & A3) (B1 & B2 & B3). repeat split; congruence.
Qed.

#[export] Instance alone_preorder : PreOrder alone.
Proof.
  split.
  - intros s. split; reflexivity.
  - intros s1 s2 s3 (A1 & A2) (B1 & B2). split; [congruence |].
    transitivity s2; assumption.
Qed.

(** A program built from the library calls keeps a relation that every one
    of its calls keeps; [tac] shows it for one state change. *)
Ltac keeps_program tac :=
  repeat first
    [ apply keeps_ret; apply _
    | apply keeps_gets; apply _
    | apply keeps_raise; apply _
    | apply keeps_self_model; apply _
    | apply keeps_modify; intros; tac
    | apply keeps_pure_call; [apply _ | intros; tac]
    | apply keeps_call;
      [apply _ | intros ?s; repeat case_match; tac | intros; tac]
    | apply keeps_bind; [apply _ | | intros ?]
    | match goal with
      | |- keeps _ (match ?x with _ => _ end) => destruct x
      end ].

(** [train]: the dataset is prepared, the model is built when there is
    none, and the rest is a sequence of calls. *)
Ltac keeps_train Hprepare Hbuild tac :=
  unfold train; apply keeps_bind; [apply _ | apply Hprepare |];
  intros [[[? ?] ?] ?];
  apply keeps_bind; [apply _ | apply keeps_gets; apply _ |]; intros current;
  apply keeps_bind;
  [ apply _
  | destruct current; [apply keeps_ret; apply _ | apply Hbuild]
  | intros _ ].

Ltac unfold_calls :=
  unfold __init__, prepare_dataset, build_model, plot_training_history,
    run_tensorboard, subscript, dataset_getitem, column_getitem,
    np_array_float, np_array_int, utils_to_categorical, os_makedirs,
    os_path_join, regularizers_l2, layers_new, models_Sequential,
    optimizers_Adam, metrics_new, callbacks_new, print, model_compile,
    model_summary, model_fit, plt, subprocess_Popen.

Ltac settled_tac := solve [repeat split].

Ltac alone_tac :=
  solve [ split;
          [ reflexivity
          | first [ apply only_log; reflexivity
                  | apply only_same_trace; reflexivity ] ] ].

Section Settled.
Context (env : Env).

Lemma prepare_dataset_settled d : keeps settled (prepare_dataset env d).
Proof. unfold_calls. keeps_program settled_tac. Qed.

Lemma build_model_settled lr : keeps settled (build_model env lr).
Proof. unfold_calls. keeps_program settled_tac. Qed.

Lemma train_settled d e b : keeps settled (train env d e b).
Proof.
  keeps_train prepare_dataset_settled build_model_settled settled_tac.
  unfold_calls. keeps_program settled_tac.
Qed.

Lemma plot_training_history_settled h :
  keeps settled (plot_training_history env h).
Proof. unfold_calls. keeps_program settled_tac. Qed.

Lemma run_tensorboard_settled : keeps settled (run_tensorboard env).
Proof. unfold_calls. keeps_program settled_tac. Qed.

Lemma init_alone i n l : keeps alone (__init__ env i n l).
Proof. unfold_calls. keeps_program alone_tac. Qed.

Lemma prepare_dataset_alone d : keeps alone (prepare_dataset env d).
Proof. unfold_calls. keeps_program alone_tac. Qed.

Lemma build_model_alone lr : keeps alone (build_model env lr).
Proof. unfold_calls. keeps_program alone_tac. Qed.

Lemma train_alone d e b : keeps alone (train env d e b).
Proof.
  keeps_train prepare_dataset_alone build_model_alone alone_tac.
  unfold_calls. keeps_program alone_tac.
Qed.

Lemma plot_training_history_alone h :
  keeps alone (plot_training_history env h).
Proof. unfold_calls. keeps_program alone_tac. Qed.

End Settled.

(** ** Processes *)

Lemma run_tensorboard_model env s :
  model (run_tensorboard env s).2 = model s.
Proof.
  assert (H : keeps (fun s s' => model s' = model s) (run_tensorboard env)).
  { assert (PreOrder (fun s s' : State => model s' = model s)).
    { split; [intros x; reflexivity | intros x y z; congruence]. }
    unfold_calls. keeps_program ltac:(reflexivity). }
  apply H.
Qed.

Lemma run_tensorboard_Ok env s handle s' :
  run_tensorboard env s = (Ok handle, s') ->
  handle = ["tensorboard"; "--logdir"; log_dir s] /\
  children s' = children s ++ [["tensorboard"; "--logdir"; log_dir s]].
Proof.
  unfold run_tensorboard, print. intros H.
  apply bind_Ok in H as (dir & s1 & H1 & H). apply gets_Ok in H1 as (-> & ->).
  apply bind_Ok in H as (p & s2 & H1 & H).
  apply call_Ok in H1 as (_ & s3 & Hb & ->). injection Hb as <- <-.
  apply bind_Ok in H as (u & s4 & H1 & H).
  apply pure_call_Ok in H1 as (_ & ->).
  apply ret_Ok in H as (-> & ->). split; reflexivity.
Qed.

(** X17. Processes and attributes. Every operation other than
    [run_tensorboard] starts no process: none of its library calls is
    [subprocess.Popen], and the child processes are those there were.
    Every operation other than [__init__] leaves the attributes
    [input_shape], [num_classes] and [log_dir] as they are.
    [run_tensorboard] leaves [model] as it is, and when it returns it has
    started one TensorBoard process on the log directory, which it has
    not waited for. All of this holds whether the operation returns or
    raises. *)
Theorem processes_and_attributes (env : Env) (op : Operation) (s : State) :
  (op <> op_run_tensorboard -> alone s (perform env op s).2) /\
  ((forall i n l, op <> op_init i n l) -> settled s (perform env op s).2) /\
  (op = op_run_tensorboard ->
   model (perform env op s).2 = model s /\
   ((perform env op s).1 = None ->
    children (perform env op s).2
    = children s ++ [["tensorboard"; "--logdir"; log_dir s]])).
Proof.
  split; [| split].
  - intros Hop. destruct op; simpl.
    + apply init_alone.
    + apply prepare_dataset_alone.
    + apply build_model_alone.
    + apply train_alone.
    + apply plot_training_history_alone.
    + congruence.
  - intros Hop. destruct op; simpl.
    + exfalso. eapply Hop. reflexivity.
    + apply prepare_dataset_settled.
    + apply build_model_settled.
    + apply train_settled.
    + apply plot_training_history_settled.
    + apply run_tensorboard_settled.
  - intros ->. simpl. split; [apply run_tensorboard_model |].
    destruct (run_tensorboard env s) as [[handle|e] s'] eqn:E; simpl;
      [| discriminate].
    intros _. apply run_tensorboard_Ok in E as (_ & H). exact H.
Qed.

Lemma processes_and_attributes_witness :
  alone world1 (perform calm (op_train 0 100 8) world1).2 /\
  settled world1 (perform calm (op_train 0 100 8) world1).2 /\
  children (perform calm op_run_tensorboard world1).2
  = children world1 ++ [["tensorboard"; "--logdir"; log_dir world1]].
Proof.
  destruct (processes_and_attributes calm (op_train 0 100 8) world1)
    as (Ha & Hs & _).
  destruct (processes_and_attributes calm op_run_tensorboard world1)
    as (_ & _ & Hr).
  split; [apply Ha; discriminate |].
  split; [apply Hs; discriminate |].
  apply (Hr eq_refl). reflexivity.
Defined.

(** ** [train] *)

Lemma train_Ok env d e b s h s' :
  train env d e b s = (Ok h, s') ->
  exists X_train format_train labels_train X_test format_test labels_test
         y_train y_test,
    to_categorical (np_array format_train labels_train) (num_classes s)
    = Ok y_train /\
    to_categorical (np_array format_test labels_test) (num_classes s)
    = Ok y_test /\
    trace s' = trace s ++
               returned (train_calls s X_train format_train labels_train
                                     X_test format_test labels_test
                                     y_train y_test e b) /\
    h = mkHistory (training env (removelast (trace s'))) /\
    exists k, model s' = Some k /\
              match model s with
              | Some k0 =>
                  k = mkKerasModel (model_id k0) (model_layers k0)
                                   (compiled k0) (S (fits k0))
              | None =>
                  k = mkKerasModel (next_id s)
                        (dense_stack (input_shape s) (num_classes s))
                        (Some (compile_config default_learning_rate)) 1
              end.
Proof.
  unfold train. intros H.
  apply bind_Ok in H as ([[[X_train y_train] X_test] y_test] & s1 & H1 & H).
  apply prepare_dataset_Ok in H1
    as (ds & tr & te & l1 & l2 & _ & _ & _ & _ & _ & _ & _ & Hy1 & Hy2
        & Hsame & Ht1).
  destruct Hsame as (Em & Ei & En & El & _ & _ & _ & Eid).
  exists X_train, (label_format tr), l1, X_test, (label_format te), l2,
         y_train, y_test.
  split; [exact Hy1 |]. split; [exact Hy2 |].
  apply bind_Ok in H as (current & s1' & H1 & H).
  apply gets_Ok in H1 as (-> & ->).
  apply bind_Ok in H as (u & s2 & H1 & H).
  unfold callbacks_new, os_path_join in H.
  unfold train_calls, fitted_model_id.
  destruct (model s) as [k0|] eqn:Ek0; rewrite Em in H1.
  - apply ret_Ok in H1 as (_ & ->).
    do 7 returned_step H.
    apply bind_Ok in H as (h' & s3 & H1 & H).
    apply model_fit_Ok in H1 as (k & Hk & -> & ->).
    apply ret_Ok in H as (-> & ->).
    simpl in Hk. rewrite Em in Hk. injection Hk as <-.
    simpl. rewrite Ht1, El.
    split; [rewrite <- !app_assoc; reflexivity |].
    split; [rewrite removelast_last; reflexivity |].
    eexists. split; reflexivity.
  - apply build_model_Ok in H1
      as (Hm2 & _ & _ & El2 & _ & _ & _ & _ & Ht2).
    do 7 returned_step H.
    apply bind_Ok in H as (h' & s3 & H1 & H).
    apply model_fit_Ok in H1 as (k & Hk & -> & ->).
    apply ret_Ok in H as (-> & ->).
    simpl in Hk. rewrite Hm2 in Hk. injection Hk as <-.
    simpl. rewrite Ht2, Ht1, El2, El, Ei, En, Eid.
    split; [unfold returned; rewrite !fmap_app, <- !app_assoc; reflexivity |].
    split; [rewrite removelast_last; reflexivity |].
    eexists. split; reflexivity.
Qed.

(** One step of a run in which no call fails. *)
Ltac calm_step Hq :=
  eapply bind_Ok_intro;
  [ first
      [ apply pure_call_runs, Hq
      | apply call_runs; [apply Hq | reflexivity]
      | reflexivity ]
  | cbv beta ].

Lemma self_model_runs name s k :
  model s = Some k -> self_model name s = (Ok k, s).
Proof. intros H. unfold self_model, gets. rewrite bind_run, H. reflexivity. Qed.

Lemma fit_runs env (Hq : quiet env) X_train y_train X_test y_test e b s k :
  model s = Some k ->
  exists h s',
    (early_stopping ← callbacks_new env (EarlyStopping "val_loss" 10 true);
     reduce_lr ← callbacks_new env (ReduceLROnPlateau "val_loss" 0.5 5 1e-5);
     dir ← gets log_dir;
     tensorboard ← callbacks_new env (TensorBoard dir 1 0);
     dir ← gets log_dir;
     filepath ← os_path_join env dir "best_model.keras";
     checkpoint ←
       callbacks_new env (ModelCheckpoint filepath "val_accuracy" true);
     history ← model_fit env X_train y_train (X_test, y_test) e b
       [early_stopping; reduce_lr; tensorboard; checkpoint] 1;
     mret history) s
    = (Ok h, s').
Proof.
  intros Hk. do 2 eexists.
  unfold callbacks_new, os_path_join.
  do 7 calm_step Hq.
  eapply bind_Ok_intro; [| reflexivity].
  unfold model_fit. eapply bind_Ok_intro.
  - apply self_model_runs. simpl. exact Hk.
  - apply call_runs; [apply Hq | reflexivity].
Qed.

Lemma train_runs env (Hq : quiet env) d e b s ds train_split test_split
  X_train labels_train X_test labels_test :
  objects s !! d = Some ds ->
  ds !! "train" = Some train_split -> ds !! "test" = Some test_split ->
  embedding train_split = Some X_train ->
  label train_split = Some labels_train ->
  embedding test_split = Some X_test ->
  label test_split = Some labels_test ->
  rectangular X_train = true -> rectangular X_test = true ->
  0 < num_classes s ->
  Forall (fun l => 0 <= l < num_classes s) labels_train ->
  Forall (fun l => 0 <= l < num_classes s) labels_test ->
  array_fits (length labels_train) (num_classes s) = true ->
  array_fits (length labels_test) (num_classes s) = true ->
  exists h s', train env d e b s = (Ok h, s').
Proof.
  intros Hds Htr Hte He1 Hl1 He2 Hl2 Hr1 Hr2 Hn Hin1 Hin2 Hfit1 Hfit2.
  destruct (to_categorical_total (label_format train_split) labels_train
              _ Hn Hfit1 Hin1) as [y1 Hy1].
  destruct (to_categorical_total (label_format test_split) labels_test
              _ Hn Hfit2 Hin2) as [y2 Hy2].
  destruct (prepare_dataset_runs env Hq d s ds train_split test_split
              X_train labels_train X_test labels_test y1 y2)
    as [s1 Hrun]; try assumption.
  unfold train. rewrite bind_run, Hrun. rewrite bind_run. unfold gets at 1.
  rewrite bind_run.
  destruct (model s1) as [k|] eqn:Ek.
  - eapply (fit_runs env Hq). exact Ek.
  - destruct (build_model_runs env Hq default_learning_rate s1) as [s2 Hb].
    rewrite Hb. apply build_model_Ok in Hb as (Hm & _).
    eapply (fit_runs env Hq). exact Hm.
Qed.

(** C3, as the code has it. Every call to [train] that returns has
    performed, in sequence: (a) array conversion and one-hot label encoding;
    then, only when the instance had no model yet, (b) the assembly of the
    sequential dense-layer model and (c) its compilation with optimizer,
    loss and metrics; then (d) one call into the framework training loop
    with exactly four callbacks (early stopping, learning-rate decay,
    TensorBoard logging, model checkpointing). Each of these calls returned,
    and what [train] returns is the history the training loop returned. On
    a dataset with both splits, rectangular embeddings and labels that are
    class indices, of which NumPy makes arrays of one row per label and one
    column per class, [train] does return unless a library call fails for
    a reason of its own. *)
Theorem train_steps (env : Env) (d : nat) (e b : Z) (s : State) :
  (forall h s',
     train env d e b s = (Ok h, s') ->
     exists X_train format_train labels_train X_test format_test labels_test
            y_train y_test,
       to_categorical (np_array format_train labels_train) (num_classes s)
       = Ok y_train /\
       to_categorical (np_array format_test labels_test) (num_classes s)
       = Ok y_test /\
       new_entries s s'
       = returned (train_calls s X_train format_train labels_train
                               X_test format_test labels_test
                               y_train y_test e b) /\
       h = mkHistory (training env (removelast (trace s')))) /\
  (quiet env ->
   forall ds train_split test_split X_train labels_train X_test labels_test,
     objects s !! d = Some ds ->
     ds !! "train" = Some train_split -> ds !! "test" = Some test_split ->
     embedding train_split = Some X_train ->
     label train_split = Some labels_train ->
     embedding test_split = Some X_test ->
     label test_split = Some labels_test ->
     rectangular X_train = true -> rectangular X_test = true ->
     0 < num_classes s ->
     Forall (fun l => 0 <= l < num_classes s) labels_train ->
     Forall (fun l => 0 <= l < num_classes s) labels_test ->
     array_fits (length labels_train) (num_classes s) = true ->
     array_fits (length labels_test) (num_classes s) = true ->
     exists h s', train env d e b s = (Ok h, s')).
Proof.
  split.
  - intros h s' H.
    apply train_Ok in H
      as (X1 & f1 & l1 & X2 & f2 & l2 & y1 & y2 & Hy1 & Hy2 & Ht & Hh & _).
    exists X1, f1, l1, X2, f2, l2, y1, y2.
    repeat (split; [assumption |]).
    split; [apply new_entries_app; exact Ht | exact Hh].
  - intros Hq ds tr te X1 l1 X2 l2 Hds Htr Hte He1 Hl1 He2 Hl2 Hr1 Hr2 Hn
      H1 H2 Hfit1 Hfit2.
    eapply (train_runs env Hq); eassumption.
Qed.

Lemma train_steps_witness :
  (exists X_train format_train labels_train X_test format_test labels_test
          y_train y_test,
     to_categorical (np_array format_train labels_train) (num_classes world1)
     = Ok y_train /\
     to_categorical (np_array format_test labels_test) (num_classes world1)
     = Ok y_test /\
     new_entries world1 world2
     = returned (train_calls world1 X_train format_train labels_train
                             X_test format_test labels_test
                             y_train y_test 100 8) /\
     mkHistory sample_curves
     = mkHistory (training calm (removelast (trace world2)))) /\
  exists h s', train calm 0 100 8 world1 = (Ok h, s').
Proof.
  destruct (train_steps calm 0 100 8 world1) as [Hsteps Hruns]. split.
  - apply Hsteps. vm_compute. reflexivity.
  - eapply (Hruns calm_quiet sample_dataset
             (mkDataset (Some [[0.5; 0.25]; [0.75; 1]; [0; 0.125]]%float)
                        (Some [0; 2; 1]) python_list)
             (mkDataset (Some [[1; 0.5]]%float) (Some [1]) python_list));
      try (vm_compute; reflexivity); try reflexivity.
    + repeat (constructor;
              [split; [vm_compute; discriminate | vm_compute; reflexivity] |]).
      constructor.
    + repeat (constructor;
              [split; [vm_compute; discriminate | vm_compute; reflexivity] |]).
      constructor.
Defined.

(** C3 as stated fails on an instance that has a model: a second call of
    [train] on the notebook's instance returns the history without any call
    that assembles or compiles a model; its 20 calls are those of steps (a)
    and (d). *)
Lemma retrain_skips_assembly :
  model_id <$> model world2 = Some 0%nat /\
  (train calm 0 100 8 world2).1 = Ok (mkHistory sample_curves) /\
  List.filter is_build (new_calls world2 (train calm 0 100 8 world2).2) = [] /\
  length (new_calls world2 (train calm 0 100 8 world2).2) = 20%nat.
Proof. vm_compute. repeat split. Qed.

(** ** Building once *)

#[export] Instance same_model_preorder : PreOrder same_model.
Proof.
  split.
  - intros s k Hk. exists k. repeat split. exact Hk.
  - intros s1 s2 s3 H1 H2 k Hk.
    destruct (H1 k Hk) as (k2 & Hk2 & A1 & A2 & A3).
    destruct (H2 k2 Hk2) as (k3 & Hk3 & B1 & B2 & B3).
    exists k3. repeat split; congruence.
Qed.

#[export] Instance reuses_preorder : PreOrder reuses.
Proof.
  split.
  - intros s. split; reflexivity.
  - intros s1 s2 s3 (A1 & A2) (B1 & B2).
    split; [transitivity s2 | transitivity s2]; assumption.
Qed.

Ltac reuses_tac :=
  solve [ split;
          [ first [ apply only_log; reflexivity
                  | apply only_same_trace; reflexivity ]
          | intros ?k ?Hk; eexists;
            repeat split; first [eassumption | reflexivity] ] ].

Lemma prepare_dataset_reuses env d : keeps reuses (prepare_dataset env d).
Proof. unfold_calls. keeps_program reuses_tac. Qed.

Lemma model_fit_reuses env x y v e b cbs verbose :
  keeps reuses (model_fit env x y v e b cbs verbose).
Proof.
  intros s. unfold model_fit. rewrite bind_run.
  destruct (self_model "fit" s) as [[k|err] s1] eqn:E.
  - apply self_model_Ok in E as (Hk & ->).
    unfold call.
    destruct (raises env (trace s) _) as [err|]; simpl.
    + reuses_tac.
    + split.
      * eexists [_]. split; [reflexivity |]. repeat constructor.
      * intros k0 Hk0. rewrite Hk in Hk0. injection Hk0 as <-.
        eexists. repeat split.
  - unfold self_model, gets in E. rewrite bind_run in E.
    destruct (model s); injection E as _ <-; reflexivity.
Qed.

Lemma train_reuses env d e b s k :
  model s = Some k -> reuses s (train env d e b s).2.
Proof.
  intros Hk. unfold train. rewrite bind_run.
  pose proof (prepare_dataset_reuses env d s) as Hprep.
  pose proof (prepare_dataset_same_but_trace env d s) as (Em & _).
  destruct (prepare_dataset env d s)
    as [[[[[X_train y_train] X_test] y_test]|err] s1]; simpl in *;
    [| exact Hprep].
  rewrite bind_run. unfold gets at 1. rewrite bind_run, Em, Hk.
  change ((mret tt : M unit) s1) with (Ok tt, s1). cbv beta iota.
  transitivity s1; [exact Hprep |].
  match goal with
  | |- reuses s1 (?m s1).2 => assert (Hm : keeps reuses m); [| apply Hm]
  end.
  unfold callbacks_new, os_path_join.
  do 7 (apply keeps_bind; [apply _ | keeps_program reuses_tac | intros ?]).
  apply keeps_bind;
    [apply _ | apply model_fit_reuses | intros ?; apply keeps_ret; apply _].
Qed.

Lemma called_returned evs : called <$> returned evs = evs.
Proof.
  unfold returned. induction evs as [|ev evs IH]; [reflexivity |].
  simpl. f_equal. exact IH.
Qed.

(** C9. [train] builds and compiles a model only when [self.model] is
    [None]. On an instance that has a model, no call of [train], returning
    or raising, assembles or compiles anything, and the model object stays
    the one it was. On an instance without a model, a call that returns has
    assembled the model and compiled it with [Adam] at the default learning
    rate 1e-3 of [build_model] ([train] takes no learning rate), and the
    instance holds that model afterwards; so every later call of [train] on
    the instance reuses it. *)
Theorem train_builds_once (env : Env) (d : nat) (e b : Z) (s : State) :
  (forall k, model s = Some k -> reuses s (train env d e b s).2) /\
  (forall h s',
     train env d e b s = (Ok h, s') ->
     (model s = None ->
      (exists before after,
         new_calls s s'
         = before ++
           assembly_calls (input_shape s) (num_classes s) ++
           compilation_calls 1e-3 (next_id s) ++ after) /\
      exists k, model s' = Some k /\ model_id k = next_id s /\
                compiled k = Some (compile_config 1e-3)) /\
     forall d' e' b', reuses s' (train env d' e' b' s').2).
Proof.
  split; [intros k Hk; eapply train_reuses; exact Hk |].
  intros h s' H.
  destruct (train_Ok _ _ _ _ _ _ _ H)
    as (X1 & f1 & l1 & X2 & f2 & l2 & y1 & y2 & _ & _ & Ht & _
        & k & Hk & Hshape).
  split.
  - intros Hnone. rewrite Hnone in Hshape. split.
    + unfold new_calls. rewrite (new_entries_app _ _ _ Ht), called_returned.
      unfold train_calls. rewrite Hnone.
      exists (conversion_calls X1 f1 l1 X2 f2 l2 (num_classes s)),
             (training_calls (log_dir s) (fitted_model_id s) X1 y1 X2 y2 e b).
      rewrite <- app_assoc. reflexivity.
    + exists k. split; [exact Hk |]. rewrite Hshape. split; reflexivity.
  - intros d' e' b'. eapply train_reuses. exact Hk.
Qed.

Lemma train_builds_once_witness :
  reuses world2 (train calm 0 100 8 world2).2 /\
  (exists k, model world2 = Some k /\ model_id k = next_id world1 /\
             compiled k = Some (compile_config 1e-3)) /\
  reuses world2 (train calm 0 50 16 world2).2.
Proof.
  destruct (train_builds_once calm 0 100 8 world1) as [_ Hfirst].
  destruct (train_builds_once calm 0 100 8 world2) as [Hagain _].
  assert (Hrun : train calm 0 100 8 world1 = (Ok (mkHistory sample_curves), world2)).
  { vm_compute. reflexivity. }
  destruct (Hfirst _ _ Hrun) as [Hbuilt Hlater].
  destruct (Hbuilt eq_refl) as [_ Hk].
  split; [| split; [exact Hk | apply Hlater]].
  destruct Hk as (k & Hk & _). eapply Hagain. exact Hk.
Defined.


(** ** [plot_training_history] *)

Lemma bind_Raise_intro {A B : Type} (m : M A) (k : A -> M B) s e s1 :
  m s = (Raise e, s1) -> (m ≫= k) s = (Raise e, s1).
Proof. intros H. rewrite bind_run, H. reflexivity. Qed.

Lemma subscript_Ok env {A : Type} container key (d : gmap string A) s v s' :
  subscript env container key d s = (Ok v, s') ->
  d !! key = Some v /\ s' = log (E_getitem container key) None s.
Proof.
  intros H. apply pure_call_Ok in H as [Hr ->]. split; [| reflexivity].
  destruct (d !! key); [injection Hr as -> | discriminate Hr]. reflexivity.
Qed.

Lemma subscript_runs env (Hq : quiet env) {A : Type} container key
  (d : gmap string A) s v :
  d !! key = Some v ->
  subscript env container key d s
  = (Ok v, log (E_getitem container key) None s).
Proof. intros H. unfold subscript. rewrite H. apply pure_call_runs, Hq. Qed.

Lemma subscript_missing env (Hq : quiet env) {A : Type} container key
  (d : gmap string A) s :
  d !! key = None ->
  subscript env container key d s
  = (Raise (KeyError key), log (E_getitem container key) (Some (KeyError key)) s).
Proof.
  intros H. unfold subscript, pure_call, call. rewrite H, Hq. reflexivity.
Qed.

Lemma plt_Ok env p s u s' :
  plt env p s = (Ok u, s') ->
  s' = log (E_plt p) None
         match p with
         | plt_savefig fname => set_fs (write_files [parts (cwd env) fname] (fs s)) s
         | _ => s
         end.
Proof.
  intros H. apply call_Ok in H as (_ & s1 & Hb & ->).
  destruct p; injection Hb as _ <-; reflexivity.
Qed.

Lemma plt_runs env (Hq : quiet env) p s :
  plt env p s
  = (Ok tt, log (E_plt p) None
              match p with
              | plt_savefig fname => set_fs (write_files [parts (cwd env) fname] (fs s)) s
              | _ => s
              end).
Proof. unfold plt, call. rewrite Hq. destruct p; reflexivity. Qed.

Lemma plot_training_history_Ok env h s u s' :
  plot_training_history env h s = (Ok u, s') ->
  exists accuracy val_accuracy loss val_loss,
    history h !! "accuracy" = Some accuracy /\
    history h !! "val_accuracy" = Some val_accuracy /\
    history h !! "loss" = Some loss /\
    history h !! "val_loss" = Some val_loss /\
    fs s' = <[cwd env ++ ["training_history.png"] := File]> (fs s) /\
    trace s' = trace s ++
               returned (plot_calls accuracy val_accuracy loss val_loss).
Proof.
  unfold plot_training_history. intros H.
  repeat
    (let H1 := fresh "Hstep" in
     apply bind_Ok in H as (? & ? & H1 & H);
     first [ apply plt_Ok in H1 as ->
           | apply subscript_Ok in H1 as (H1 & ->) ]).
  apply plt_Ok in H as ->.
  do 4 eexists. do 4 (split; [eassumption |]).
  split; [reflexivity |].
  simpl. rewrite <- !app_assoc. reflexivity.
Qed.

Section PlotRuns.
Context (env : Env) (Hq : quiet env).

Ltac plot_step :=
  first
    [ eapply bind_Ok_intro; [apply plt_runs, Hq |]
    | eapply bind_Ok_intro; [apply (subscript_runs env Hq); eassumption |] ];
  cbv beta.

Lemma plot_training_history_runs h s accuracy val_accuracy loss val_loss :
  history h !! "accuracy" = Some accuracy ->
  history h !! "val_accuracy" = Some val_accuracy ->
  history h !! "loss" = Some loss ->
  history h !! "val_loss" = Some val_loss ->
  exists s', plot_training_history env h s = (Ok tt, s').
Proof.
  intros H1 H2 H3 H4. eexists. unfold plot_training_history.
  do 21 plot_step. apply plt_runs, Hq.
Qed.

Lemma plot_training_history_missing h s k :
  first_missing (history h) = Some k ->
  exists s',
    plot_training_history env h s = (Raise (KeyError k), s') /\
    fs s' = fs s.
Proof.
  unfold first_missing, required_keys, plot_training_history. intros Hk.
  cbn [head List.filter] in Hk.
  destruct (history h !! "accuracy") as [a|] eqn:E1;
    [destruct (history h !! "val_accuracy") as [va|] eqn:E2;
     [destruct (history h !! "loss") as [l|] eqn:E3;
      [destruct (history h !! "val_loss") as [vl|] eqn:E4;
       [discriminate Hk |] |] |] |];
    cbn [head] in Hk; injection Hk as <-;
    (eexists; split;
     [ repeat plot_step; eapply bind_Raise_intro;
       apply (subscript_missing env Hq); eassumption
     | reflexivity ]).
Qed.

End PlotRuns.

Lemma first_missing_None d :
  first_missing d = None ->
  exists accuracy val_accuracy loss val_loss,
    d !! "accuracy" = Some accuracy /\ d !! "val_accuracy" = Some val_accuracy /\
    d !! "loss" = Some loss /\ d !! "val_loss" = Some val_loss.
Proof.
  unfold first_missing, required_keys. cbn [head List.filter].
  destruct (d !! "accuracy") as [a|]; [| discriminate].
  destruct (d !! "val_accuracy") as [va|]; [| discriminate].
  destruct (d !! "loss") as [l|]; [| discriminate].
  destruct (d !! "val_loss") as [vl|]; [| discriminate].
  intros _. exists a, va, l, vl. repeat split.
Qed.

Lemma first_missing_Some d k :
  first_missing d = Some k -> k ∈ required_keys /\ d !! k = None.
Proof.
  unfold first_missing, required_keys. cbn [head List.filter].
  destruct (d !! "accuracy") as [a|] eqn:E1;
    [| intros H; injection H as <-; split; [set_solver | exact E1]].
  destruct (d !! "val_accuracy") as [va|] eqn:E2;
    [| intros H; injection H as <-; split; [set_solver | exact E2]].
  destruct (d !! "loss") as [l|] eqn:E3;
    [| intros H; injection H as <-; split; [set_solver | exact E3]].
  destruct (d !! "val_loss") as [vl|] eqn:E4;
    [| intros H; injection H as <-; split; [set_solver | exact E4]].
  discriminate.
Qed.

(** C10. When the history lacks one of the keys 'accuracy', 'val_accuracy',
    'loss', 'val_loss', [plot_training_history] cannot return: in every
    environment it raises, and when the plotting library itself raises
    nothing it raises the [KeyError] of the first key that is missing,
    unhandled, having written no file. When all four keys are present and
    the plotting library raises nothing, it returns, and the one file it has
    written is 'training_history.png' in the current directory; a run that
    returns has always written that file and found all four keys. *)
Theorem plot_needs_four_keys (env : Env) (h : History) (s : State) :
  (forall k, first_missing (history h) = Some k ->
     k ∈ required_keys /\ history h !! k = None /\
     (exists e s', plot_training_history env h s = (Raise e, s')) /\
     (quiet env ->
      exists s', plot_training_history env h s = (Raise (KeyError k), s') /\
                 fs s' = fs s)) /\
  (quiet env -> first_missing (history h) = None ->
   exists s', plot_training_history env h s = (Ok tt, s')) /\
  (forall u s', plot_training_history env h s = (Ok u, s') ->
     first_missing (history h) = None /\
     fs s' = <[cwd env ++ ["training_history.png"] := File]> (fs s) /\
     new_calls s s' ≫= targets = [file_at "training_history.png"]).
Proof.
  split; [| split].
  - intros k Hk. destruct (first_missing_Some _ _ Hk) as [Hin Hnone].
    split; [exact Hin |]. split; [exact Hnone |]. split.
    + destruct (plot_training_history env h s) as [[u|e] s'] eqn:E.
      * apply plot_training_history_Ok in E
          as (a & va & l & vl & H1 & H2 & H3 & H4 & _).
        unfold first_missing, required_keys in Hk.
        cbn [head List.filter] in Hk.
        rewrite H1, H2, H3, H4 in Hk. discriminate Hk.
      * exists e, s'. reflexivity.
    + intros Hq. apply plot_training_history_missing; assumption.
  - intros Hq Hnone.
    destruct (first_missing_None _ Hnone) as (a & va & l & vl & H1 & H2 & H3 & H4).
    eapply plot_training_history_runs; eassumption.
  - intros u s' H.
    apply plot_training_history_Ok in H
      as (a & va & l & vl & H1 & H2 & H3 & H4 & Hfs & Ht).
    split; [| split; [exact Hfs |]].
    + unfold first_missing, required_keys. cbn [head List.filter].
      rewrite H1, H2, H3, H4. reflexivity.
    + unfold new_calls. rewrite (new_entries_app _ _ _ Ht), called_returned.
      reflexivity.
Qed.

Lemma plot_needs_four_keys_witness :
  (exists s',
     plot_training_history calm (mkHistory (delete "loss" sample_curves)) world2
     = (Raise (KeyError "loss"), s') /\ fs s' = fs world2) /\
  (exists s', plot_training_history calm (mkHistory sample_curves) world2
              = (Ok tt, s')).
Proof.
  destruct (plot_needs_four_keys calm (mkHistory (delete "loss" sample_curves))
              world2) as (Hmissing & _).
  destruct (plot_needs_four_keys calm (mkHistory sample_curves) world2)
    as (_ & Hpresent & _).
  split.
  - destruct (Hmissing "loss") as (_ & _ & _ & H); [vm_compute; reflexivity |].
    apply H, calm_quiet.
  - apply Hpresent; [apply calm_quiet | vm_compute; reflexivity].
Defined.

(** ** What is written where *)

#[export] Instance files_within_preorder here dir :
  PreOrder (files_within here dir).
Proof.
  split.
  - intros s p Hp. left. exact Hp.
  - intros s1 s2 s3 H1 H2 p Hp.
    destruct (H2 p Hp) as [Hold | Hnew]; [apply H1; exact Hold | right; exact Hnew].
Qed.

#[export] Instance artifacts_preorder here dir :
  PreOrder (artifacts here dir).
Proof.
  split.
  - intros s. split; reflexivity.
  - intros s1 s2 s3 (A1 & A2) (B1 & B2).
    split; [transitivity s2 | transitivity s2]; assumption.
Qed.

Lemma files_within_same here dir s s' :
  fs s' = fs s -> files_within here dir s s'.
Proof. intros H p Hp. left. rewrite <- H. exact Hp. Qed.

Lemma within_allowed dir ev :
  Forall (fun t => t ∈ allowed_targets dir) (targets ev) ->
  within dir ev = true.
Proof.
  intros H. unfold within. apply forallb_forall. intros t Hin.
  apply bool_decide_eq_true. rewrite Forall_forall in H. apply H.
  apply list_elem_of_In. exact Hin.
Qed.

(** A step that writes nothing and is told to write nothing. *)
Ltac artifacts_tac :=
  solve [ split;
          [ first [ apply only_log; reflexivity
                  | apply only_same_trace; reflexivity ]
          | apply files_within_same; reflexivity ] ].

(** [os.makedirs] makes directories: the regular files stay the ones
    there were. *)
Lemma makedirs_files here name files p :
  (makedirs here name true files).2 !! p = Some File -> files !! p = Some File.
Proof.
  apply (grows_files here files (makedirs here name true files).2 p).
  apply makedirs_grows. reflexivity.
Qed.

Lemma write_files_lookup ps files p :
  write_files ps files !! p = Some File -> p ∈ ps \/ files !! p = Some File.
Proof.
  induction ps as [|q ps IH]; simpl; [auto |].
  destruct (decide (q = p)) as [->|Hne].
  - intros _. left. set_solver.
  - rewrite lookup_insert_ne by exact Hne. intros H.
    apply IH in H as [Hin | Hold]; [left; set_solver | right; exact Hold].
Qed.

Section Artifacts.
Context (env : Env) (dir : string).

Lemma os_makedirs_artifacts name :
  keeps (artifacts (cwd env) dir) (os_makedirs env name true).
Proof.
  apply keeps_call; [apply _ | | intros; artifacts_tac].
  intros s. split; [apply only_same_trace; reflexivity |].
  intros p Hp. left. eapply makedirs_files. exact Hp.
Qed.

Lemma plt_artifacts p :
  (forall fname, p = plt_savefig fname -> fname = "training_history.png") ->
  keeps (artifacts (cwd env) dir) (plt env p).
Proof.
  intros Hp. apply keeps_call; [apply _ | |].
  - intros s. split; [apply only_same_trace; destruct p; reflexivity |].
    destruct p; try (apply files_within_same; reflexivity).
    rewrite (Hp fname eq_refl). intros q Hq.
    change (write_files [cwd env ++ ["training_history.png"]] (fs s) !! q
            = Some File) in Hq.
    apply write_files_lookup in Hq as [Hin | Hold]; [| left; exact Hold].
    right. right. apply list_elem_of_singleton in Hin. exact Hin.
  - intros s r. split; [| apply files_within_same; reflexivity].
    apply only_log. apply within_allowed.
    destruct p; try constructor.
    + rewrite (Hp fname eq_refl). unfold allowed_targets. set_solver.
    + constructor.
Qed.

Lemma init_artifacts i n l : keeps (artifacts (cwd env) dir) (__init__ env i n l).
Proof.
  unfold __init__.
  repeat first
    [ apply os_makedirs_artifacts
    | apply keeps_modify; intros; artifacts_tac
    | apply keeps_bind; [apply _ | | intros ?] ].
Qed.

Lemma prepare_dataset_artifacts d :
  keeps (artifacts (cwd env) dir) (prepare_dataset env d).
Proof. unfold_calls. keeps_program artifacts_tac. Qed.

Lemma build_model_artifacts lr : keeps (artifacts (cwd env) dir) (build_model env lr).
Proof. unfold_calls. keeps_program artifacts_tac. Qed.

Lemma run_tensorboard_artifacts : keeps (artifacts (cwd env) dir) (run_tensorboard env).
Proof. unfold_calls. keeps_program artifacts_tac. Qed.

Lemma plot_training_history_artifacts h :
  keeps (artifacts (cwd env) dir) (plot_training_history env h).
Proof.
  unfold plot_training_history, subscript.
  repeat first
    [ apply plt_artifacts; intros fname Hf; first [discriminate Hf | injection Hf as <-; reflexivity]
    | apply keeps_pure_call; [apply _ | intros; artifacts_tac]
    | apply keeps_bind; [apply _ | | intros ?] ].
Qed.

End Artifacts.

Lemma pure_call_cases env {A : Type} ev (a : A) s :
  pure_call env ev (Ok a) s = (Ok a, log ev None s) \/
  exists e, pure_call env ev (Ok a) s = (Raise e, log ev (Some e) s).
Proof.
  unfold pure_call, call. destruct (raises env (trace s) ev) as [e|].
  - right. exists e. reflexivity.
  - left. reflexivity.
Qed.

Lemma artifacts_log here dir s s1 ev r :
  artifacts here dir s s1 -> within dir ev = true ->
  artifacts here dir s (log ev r s1).
Proof.
  intros H Hw. transitivity s1; [exact H |].
  split; [apply only_log; exact Hw | apply files_within_same; reflexivity].
Qed.

Lemma model_fit_artifacts env dir x y v e b :
  keeps (artifacts (cwd env) dir) (model_fit env x y v e b (four_callbacks dir) 1).
Proof.
  unfold model_fit.
  apply keeps_bind; [apply _ | apply keeps_self_model; apply _ | intros k].
  apply keeps_call; [apply _ | |].
  - intros s. split; [apply only_same_trace; reflexivity |].
    intros p Hp.
    change (write_files (four_callbacks dir ≫= callback_files env (trace s))
                        (fs s) !! p = Some File) in Hp.
    apply write_files_lookup in Hp as [Hin | Hold]; [| left; exact Hold].
    right. left.
    change (four_callbacks dir ≫= callback_files env (trace s))
      with (((fun rel => parts (cwd env) dir ++ rel)
               <$> List.filter (fun rel => negb (Nat.eqb (length rel) 0))
                               (event_files env (trace s))) ++
            (if improved env (trace s)
             then [parts (cwd env) (path_join dir "best_model.keras")]
             else []) ++ [])
      in Hin.
    apply elem_of_app in Hin as [Hin | Hin].
    + apply list_elem_of_fmap in Hin as (rel & -> & Hrel).
      exists rel. split; [| reflexivity].
      apply list_elem_of_In, filter_In in Hrel as [_ Hlen].
      destruct rel; [discriminate Hlen | discriminate].
    + rewrite app_nil_r in Hin. destruct (improved env (trace s)).
      * apply list_elem_of_singleton in Hin as ->.
        exists ["best_model.keras"]. split; [discriminate |].
        apply parts_path_join.
      * apply elem_of_nil in Hin. contradiction.
  - intros s r. split; [| apply files_within_same; reflexivity].
    apply only_log, within_allowed. unfold allowed_targets.
    repeat constructor; set_solver.
Qed.

(** One call of a run, with both of its outcomes; [fin] closes the run that
    ends with the call raising. *)
Ltac sym_call fin :=
  rewrite bind_run;
  match goal with
  | |- context [pure_call ?env ?ev (Ok ?a) ?s] =>
      let Hc := fresh in
      destruct (pure_call_cases env ev a s) as [Hc | [? Hc]];
      rewrite Hc; clear Hc; cbv beta iota; [| fin]
  end.

Ltac sym_gets := rewrite bind_run; unfold gets at 1; cbv beta iota.

Ltac artifacts_fin :=
  cbn [snd]; repeat (apply artifacts_log; [| reflexivity]); reflexivity.

(** [train] after the dataset is prepared and the model is there. *)
Lemma fit_artifacts env X_train y_train X_test y_test e b s :
  artifacts (cwd env) (log_dir s) s
    ((early_stopping ← callbacks_new env (EarlyStopping "val_loss" 10 true);
      reduce_lr ← callbacks_new env (ReduceLROnPlateau "val_loss" 0.5 5 1e-5);
      dir ← gets log_dir;
      tensorboard ← callbacks_new env (TensorBoard dir 1 0);
      dir ← gets log_dir;
      filepath ← os_path_join env dir "best_model.keras";
      checkpoint ←
        callbacks_new env (ModelCheckpoint filepath "val_accuracy" true);
      history ← model_fit env X_train y_train (X_test, y_test) e b
        [early_stopping; reduce_lr; tensorboard; checkpoint] 1;
      mret history) s).2.
Proof.
  assert (K : keeps (artifacts (cwd env) (log_dir s))
                (model_fit env X_train y_train (X_test, y_test) e b
                   (four_callbacks (log_dir s)) 1 ≫= fun h => mret h)).
  { apply keeps_bind;
      [apply _ | apply model_fit_artifacts | intros; apply keeps_ret; apply _]. }
  unfold callbacks_new, os_path_join.
  sym_call artifacts_fin. sym_call artifacts_fin. sym_gets.
  sym_call artifacts_fin. sym_gets.
  sym_call artifacts_fin. sym_call artifacts_fin.
  match goal with
  | |- artifacts _ _ _ (_ ?s1).2 => transitivity s1; [artifacts_fin | apply K]
  end.
Qed.

Lemma train_artifacts env d e b s :
  artifacts (cwd env) (log_dir s) s (train env d e b s).2.
Proof.
  unfold train. rewrite bind_run.
  pose proof (prepare_dataset_artifacts env (log_dir s) d s) as Hprep.
  pose proof (prepare_dataset_same_but_trace env d s) as (_ & _ & _ & El & _).
  destruct (prepare_dataset env d s)
    as [[[[[X_train y_train] X_test] y_test]|err] s1]; cbn [snd] in *;
    [| exact Hprep].
  rewrite bind_run. unfold gets at 1. cbv beta iota. rewrite bind_run.
  destruct (model s1) as [k|].
  - change ((mret tt : M unit) s1) with (Ok tt, s1). cbv beta iota.
    transitivity s1; [exact Hprep |]. rewrite <- El. apply fit_artifacts.
  - pose proof (build_model_artifacts env (log_dir s) default_learning_rate s1)
      as Hbuild.
    pose proof (build_model_settled env default_learning_rate s1)
      as (_ & _ & El2).
    destruct (build_model env default_learning_rate s1) as [[u|err] s2];
      cbn [snd] in *.
    + transitivity s1; [exact Hprep |]. transitivity s2; [exact Hbuild |].
      rewrite <- El, <- El2. apply fit_artifacts.
    + transitivity s1; assumption.
Qed.

(** C6. Whatever operation of the class runs, in whatever environment and
    whether it returns or raises: the only places a library call is told to
    write are the log directory (TensorBoard's event files), the file
    'best_model.keras' of the log directory (the checkpoint) and the file
    'training_history.png'; and every regular file on disk afterwards was
    there before, or lies below the log directory, or is
    'training_history.png' in the current directory. The class passes
    these paths and names; the writing is the libraries'. *)
Theorem artifacts_are_logs_and_plot (env : Env) (op : Operation) (s : State) :
  artifacts (cwd env) (log_dir (perform env op s).2) s (perform env op s).2 /\
  parts (cwd env) (path_join (log_dir (perform env op s).2) "best_model.keras")
  = parts (cwd env) (log_dir (perform env op s).2) ++ ["best_model.keras"].
Proof.
  split; [| apply parts_path_join].
  destruct op; cbn [perform outcome snd].
  - apply init_artifacts.
  - destruct (prepare_dataset_settled env dataset s) as (_ & _ & ->).
    apply prepare_dataset_artifacts.
  - destruct (build_model_settled env learning_rate s) as (_ & _ & ->).
    apply build_model_artifacts.
  - destruct (train_settled env dataset epochs batch_size s) as (_ & _ & ->).
    apply train_artifacts.
  - destruct (plot_training_history_settled env h s) as (_ & _ & ->).
    apply plot_training_history_artifacts.
  - destruct (run_tensorboard_settled env s) as (_ & _ & ->).
    apply run_tensorboard_artifacts.
Qed.
(** * Further properties *)


(** ** Labels at the edges *)

Lemma normalize_index_None n l :
  ~ (- n <= l < n) -> normalize_index n l = None.
Proof.
  intros H. destruct (normalize_index n l) as [c|] eqn:E; [| reflexivity].
  apply normalize_index_Some in E as [E _]. contradiction.
Qed.

Lemma wrap_int64_range v : - 2 ^ 63 <= wrap_int64 v < 2 ^ 63.
Proof.
  unfold wrap_int64. powers.
  pose proof (Z.mod_pos_bound (v + 9223372036854775808) 18446744073709551616).
  lia.
Qed.

Lemma max_label_range (l : Z) (rest : list Z) (lo hi : Z) :
  lo <= l < hi -> Forall (fun v => lo <= v < hi) rest ->
  lo <= max_label l rest < hi.
Proof.
  intros Hl Hrest. unfold max_label.
  induction Hrest as [|v rest Hv _ IH]; simpl; [exact Hl | lia].
Qed.

(** The row of a label that counts from the end. *)
Lemma to_categorical_rows_negative format y n rows :
  to_categorical (np_array format y) n = Ok rows ->
  forall i l, y !! i = Some l -> - n <= l < 0 ->
  exists row, rows !! i = Some row /\ one_hot_at n (l + n) row.
Proof.
  intros H i l Hi Hl.
  apply to_categorical_np_array in H
    as (classes & columns & Hn & _ & Hfit & Hm & ->).
  rewrite Hn in * by lia. clear Hn.
  apply array_fits_width in Hfit.
  apply mapM_Some in Hm.
  assert (Hi' : (wrap_int64 <$> y) !! i = Some l).
  { rewrite list_lookup_fmap, Hi. simpl. f_equal. apply wrap_int64_fits.
    apply fits_int64_spec. powers. lia. }
  destruct (Forall2_lookup_l _ _ _ _ _ Hm Hi') as (c & Hc & Hnorm).
  rewrite (normalize_index_wraps n l Hl) in Hnorm. injection Hnorm as <-.
  exists (<[Z.to_nat (l + n) := 1%float]> (replicate (Z.to_nat n) 0%float)).
  split; [| apply one_hot_row; lia].
  rewrite lookup_zip_with.
  rewrite lookup_replicate_2 by (apply lookup_lt_Some in Hi; exact Hi).
  simpl. rewrite Hc. reflexivity.
Qed.

(** One [int64] label outside [-n, n) and nothing is encoded. *)
Lemma to_categorical_IndexError format y n :
  0 < n -> forallb fits_int64 y = true -> array_fits (length y) n = true ->
  Exists (fun l => ~ (- n <= l < n)) y ->
  to_categorical (np_array format y) n = Raise IndexError.
Proof.
  intros Hn Hf Hfit Hy. unfold to_categorical.
  rewrite (as_int64_fitting format y Hf). simpl.
  destruct (Z.eqb_spec n 0) as [|_]; [lia |]. simpl.
  unfold np_zeros. rewrite Hfit. simpl. unfold set_ones.
  destruct (mapM (normalize_index n) y) as [columns|] eqn:Hm; [| reflexivity].
  exfalso. apply mapM_Some in Hm.
  apply Exists_exists in Hy as (l & Hin & Hbad).
  apply list_elem_of_lookup in Hin as [i Hi].
  destruct (Forall2_lookup_l _ _ _ _ _ Hm Hi) as (c & _ & Hnorm).
  rewrite (normalize_index_None n l Hbad) in Hnorm. discriminate Hnorm.
Qed.

(** The labels of an encoding that is there, read as [int64], index an
    axis of length [n]. *)
Lemma to_categorical_Ok_range format y n rows :
  0 < n -> to_categorical (np_array format y) n = Ok rows ->
  Forall (fun l => - n <= wrap_int64 l < n) y.
Proof.
  intros Hn H.
  apply to_categorical_np_array in H
    as (classes & columns & Hc & _ & _ & Hm & _).
  rewrite Hc in * by lia. clear Hc.
  apply mapM_Some in Hm. apply Forall_forall. intros l Hin.
  apply list_elem_of_lookup in Hin as [i Hi].
  assert (Hi' : (wrap_int64 <$> y) !! i = Some (wrap_int64 l))
    by (rewrite list_lookup_fmap, Hi; reflexivity).
  destruct (Forall2_lookup_l _ _ _ _ _ Hm Hi') as (c & _ & Hnorm).
  apply normalize_index_Some in Hnorm as [Hr _]. exact Hr.
Qed.

Lemma one_hot_rows_shape (m : nat) (n : Z) (columns : list Z) :
  length columns = m ->
  length (zip_with (fun row column => <[Z.to_nat column := 1%float]> row)
                   (replicate m (replicate (Z.to_nat n) 0%float)) columns)
  = m /\
  Forall (fun row => length row = Z.to_nat n)
         (zip_with (fun row column => <[Z.to_nat column := 1%float]> row)
                   (replicate m (replicate (Z.to_nat n) 0%float)) columns).
Proof.
  intros Hlen. split.
  - rewrite length_zip_with, length_replicate. lia.
  - apply Forall_forall. intros row Hrow.
    apply list_elem_of_lookup in Hrow as [i Hi].
    rewrite lookup_zip_with in Hi.
    destruct (replicate m (replicate (Z.to_nat n) 0%float) !! i)
      as [zeros|] eqn:Hz; [| discriminate Hi].
    apply lookup_replicate_1 in Hz as [-> _]. simpl in Hi.
    destruct (columns !! i); [| discriminate Hi]. injection Hi as <-.
    rewrite length_insert, length_replicate. reflexivity.
Qed.

(** With a class count of zero the width is read off the labels, as the
    [int64] they have become. *)
Lemma to_categorical_inferred format y rows :
  to_categorical (np_array format y) 0 = Ok rows ->
  exists l rest,
    y = l :: rest /\
    0 < max_label (wrap_int64 l) (wrap_int64 <$> rest) + 1 /\
    length rows = length y /\
    Forall (fun row =>
              length row
              = Z.to_nat (max_label (wrap_int64 l) (wrap_int64 <$> rest) + 1))
           rows.
Proof.
  intros H.
  apply to_categorical_np_array in H
    as (classes & columns & _ & Hc & Hfit & Hm & ->).
  destruct (Hc eq_refl) as (l & rest & -> & Hclasses). clear Hc.
  exists l, rest. split; [reflexivity |].
  set (m := max_label (wrap_int64 l) (wrap_int64 <$> rest)) in *.
  assert (Hm' : - 2 ^ 63 <= m < 2 ^ 63).
  { apply max_label_range; [apply wrap_int64_range |].
    apply Forall_fmap, Forall_forall. intros v _. apply wrap_int64_range. }
  apply array_fits_width in Hfit.
  assert (Hw : classes = m + 1).
  { destruct (Z.eq_dec m (2 ^ 63 - 1)) as [E | E].
    - rewrite E in Hclasses. vm_compute in Hclasses. powers. lia.
    - rewrite Hclasses. apply wrap_int64_fits, fits_int64_spec. powers. lia. }
  rewrite Hw in *. clear Hclasses Hw.
  apply mapM_Some in Hm. pose proof (Forall2_length _ _ _ Hm) as Hlen.
  rewrite length_fmap in Hlen. split; [| apply one_hot_rows_shape; congruence].
  destruct columns as [|c columns]; [discriminate Hlen |].
  rewrite fmap_cons in Hm. apply Forall2_cons_1 in Hm as [Hcol _].
  apply normalize_index_Some in Hcol. lia.
Qed.

Lemma pure_call_raises env (Hq : quiet env) {A : Type} ev e s :
  pure_call env ev (@Raise A e) s = (Raise e, log ev (Some e) s).
Proof. unfold pure_call, call. rewrite Hq. reflexivity. Qed.

(** X1. A label that counts from the end is encoded like an index of a
    Python list: in every run of [prepare_dataset] that returns, a train or
    test label [l] with [-num_classes <= l < 0] has become the row that is
    1 at index [l + num_classes] and 0 elsewhere. *)
Theorem negative_labels_count_from_the_end (env : Env) (d : nat) (s : State)
  X_train y_train X_test y_test s' :
  prepare_dataset env d s = (Ok (X_train, y_train, X_test, y_test), s') ->
  exists ds train test labels_train labels_test,
    objects s !! d = Some ds /\
    ds !! "train" = Some train /\ ds !! "test" = Some test /\
    label train = Some labels_train /\ label test = Some labels_test /\
    (forall i l, labels_train !! i = Some l -> - num_classes s <= l < 0 ->
       exists row, y_train !! i = Some row /\
                   one_hot_at (num_classes s) (l + num_classes s) row) /\
    (forall i l, labels_test !! i = Some l -> - num_classes s <= l < 0 ->
       exists row, y_test !! i = Some row /\
                   one_hot_at (num_classes s) (l + num_classes s) row).
Proof.
  intros H. apply prepare_dataset_Ok in H
    as (ds & train & test & l1 & l2 & Hds & Htr & Hte & _ & Hl1 & _ & Hl2
        & Hy1 & Hy2 & _).
  exists ds, train, test, l1, l2.
  do 5 (split; [assumption |]).
  split; intros i l Hi Hl;
    (eapply to_categorical_rows_negative; eassumption).
Qed.

Lemma negative_labels_count_from_the_end_witness :
  exists row,
    [[1; 0; 0]; [0; 0; 1]]%float !! 1%nat = Some row /\ one_hot_at 3 (-1 + 3) row.
Proof.
  assert (Hrun : exists s',
             prepare_dataset calm 0 (set_num_classes 3 (world_with wrapping_dataset))
             = (Ok ([[0.5; 0.25]; [0.75; 1]]%float,
                    [[1; 0; 0]; [0; 0; 1]]%float,
                    [[1; 0.5]]%float, [[1; 0; 0]]%float), s')).
  { eexists. vm_compute. reflexivity. }
  destruct Hrun as [s' Hrun].
  destruct (negative_labels_count_from_the_end _ _ _ _ _ _ _ _ Hrun)
    as (ds & train & test & l1 & l2 & Hds & Htr & Hte & Hl1 & Hl2 & H1 & _).
  apply (H1 1%nat (-1)); [| vm_compute; split; [discriminate | reflexivity]].
  vm_compute in Hds. injection Hds as <-.
  vm_compute in Htr. injection Htr as <-.
  vm_compute in Hl1. injection Hl1 as <-. reflexivity.
Defined.

(** On a complete dataset one label outside [-num_classes, num_classes)
    makes [prepare_dataset] raise [IndexError]. *)
Lemma prepare_dataset_IndexError env (Hq : quiet env) d s ds train test
  X_train l1 X_test l2 :
  objects s !! d = Some ds ->
  ds !! "train" = Some train -> ds !! "test" = Some test ->
  embedding train = Some X_train -> label train = Some l1 ->
  embedding test = Some X_test -> label test = Some l2 ->
  rectangular X_train = true -> rectangular X_test = true ->
  0 < num_classes s ->
  forallb fits_int64 (l1 ++ l2) = true ->
  array_fits (length l1) (num_classes s) = true ->
  array_fits (length l2) (num_classes s) = true ->
  Exists (fun l => ~ (- num_classes s <= l < num_classes s)) (l1 ++ l2) ->
  exists s', prepare_dataset env d s = (Raise IndexError, s') /\
             same_but_trace s s'.
Proof.
  intros Hds Htr Hte He1 Hl1 He2 Hl2 Hr1 Hr2 Hn Hint Hfit1 Hfit2 Hbad.
  rewrite forallb_app in Hint. apply andb_true_iff in Hint as [Hint1 Hint2].
  assert (Hrun : exists s',
             prepare_dataset env d s = (Raise IndexError, s')).
  { assert (Hsteps : forall r,
               (classes ← gets num_classes;
                y_train ← utils_to_categorical env
                            (np_array (label_format train) l1) classes;
                classes ← gets num_classes;
                y_test ← utils_to_categorical env
                           (np_array (label_format test) l2) classes;
                mret (X_train, y_train, X_test, y_test))
                 (log (E_np_array_int l2) None
                 (log (E_getitem "dataset['test']" "label") None
                 (log (E_getitem "dataset" "test") None
                 (log (E_np_array_float X_test) None
                 (log (E_getitem "dataset['test']" "embedding") None
                 (log (E_getitem "dataset" "test") None
                 (log (E_np_array_int l1) None
                 (log (E_getitem "dataset['train']" "label") None
                 (log (E_getitem "dataset" "train") None
                 (log (E_np_array_float X_train) None
                 (log (E_getitem "dataset['train']" "embedding") None
                 (log (E_getitem "dataset" "train") None s))))))))))))
               = r ->
               prepare_dataset env d s = r).
    { intros r Hr. unfold prepare_dataset.
      eapply bind_Ok_intro;
        [apply (dataset_getitem_runs env d "train" _ ds train);
         [apply Hq | exact Hds | exact Htr] |].
      eapply bind_Ok_intro;
        [apply column_getitem_runs; [exact Hq | exact He1] |].
      eapply bind_Ok_intro;
        [apply np_array_float_runs; [exact Hq | exact Hr1] |].
      eapply bind_Ok_intro;
        [apply (dataset_getitem_runs env d "train" _ ds train);
         [apply Hq | exact Hds | exact Htr] |].
      eapply bind_Ok_intro;
        [apply column_getitem_runs; [exact Hq | exact Hl1] |].
      eapply bind_Ok_intro; [apply pure_call_runs, Hq |].
      eapply bind_Ok_intro;
        [apply (dataset_getitem_runs env d "test" _ ds test);
         [apply Hq | exact Hds | exact Hte] |].
      eapply bind_Ok_intro;
        [apply column_getitem_runs; [exact Hq | exact He2] |].
      eapply bind_Ok_intro;
        [apply np_array_float_runs; [exact Hq | exact Hr2] |].
      eapply bind_Ok_intro;
        [apply (dataset_getitem_runs env d "test" _ ds test);
         [apply Hq | exact Hds | exact Hte] |].
      eapply bind_Ok_intro;
        [apply column_getitem_runs; [exact Hq | exact Hl2] |].
      eapply bind_Ok_intro; [apply pure_call_runs, Hq |].
      exact Hr. }
    destruct (Forall_Exists_dec
                (fun l => - num_classes s <= l < num_classes s)
                (fun l => ~ (- num_classes s <= l < num_classes s))
                (fun l => decide (- num_classes s <= l < num_classes s))
                l1) as [Hgood | Hbad1].
    - destruct (to_categorical_indices (label_format train) l1 _ Hn Hfit1
                  Hgood) as [y1 Hy1].
      eexists. apply Hsteps.
      eapply bind_Ok_intro; [reflexivity |]. cbv beta.
      eapply bind_Ok_intro;
        [apply utils_to_categorical_runs; [exact Hq | exact Hy1] |].
      eapply bind_Ok_intro; [reflexivity |]. cbv beta.
      eapply bind_Raise_intro. unfold utils_to_categorical.
      change (num_classes (log _ _ _)) with (num_classes s).
      rewrite (to_categorical_IndexError (label_format test) l2 _ Hn Hint2
                 Hfit2).
      + apply pure_call_raises, Hq.
      + apply Exists_app in Hbad as [Hbad | Hbad]; [| exact Hbad].
        exfalso. apply Exists_exists in Hbad as (l & Hin & Hl).
        rewrite Forall_forall in Hgood. apply Hl, Hgood, Hin.
    - eexists. apply Hsteps.
      eapply bind_Ok_intro; [reflexivity |]. cbv beta.
      eapply bind_Raise_intro. unfold utils_to_categorical.
      change (num_classes (log _ _ _)) with (num_classes s).
      rewrite (to_categorical_IndexError (label_format train) l1 _ Hn Hint1
                 Hfit1 Hbad1).
      apply pure_call_raises, Hq. }
  destruct Hrun as [s' Hrun]. exists s'. split; [exact Hrun |].
  pose proof (prepare_dataset_same_but_trace env d s) as Hsame.
  rewrite Hrun in Hsame. exact Hsame.
Qed.

(** X2. A label outside [-num_classes, num_classes) stops
    [prepare_dataset]. With a positive class count, a run that returns has
    found every train and test label, read as the [int64] of its 64 bits
    (which is the label itself where it is an [int64]), within that range.
    And on a dataset with both splits, both columns and rectangular
    embeddings, whose labels are all [int64] and make arrays of a size
    NumPy makes, one label outside the range makes the run raise
    [IndexError] (no library call failing for a reason of its own),
    leaving all but the log as it was. *)
Theorem label_out_of_range_raises (env : Env) (d : nat) (s : State) :
  (forall X_train y_train X_test y_test s',
     prepare_dataset env d s = (Ok (X_train, y_train, X_test, y_test), s') ->
     0 < num_classes s ->
     exists ds train test labels_train labels_test,
       objects s !! d = Some ds /\
       ds !! "train" = Some train /\ ds !! "test" = Some test /\
       label train = Some labels_train /\ label test = Some labels_test /\
       Forall (fun l => - num_classes s <= wrap_int64 l < num_classes s)
              (labels_train ++ labels_test)) /\
  (quiet env ->
   forall ds train test X_train labels_train X_test labels_test,
     objects s !! d = Some ds ->
     ds !! "train" = Some train -> ds !! "test" = Some test ->
     embedding train = Some X_train -> label train = Some labels_train ->
     embedding test = Some X_test -> label test = Some labels_test ->
     rectangular X_train = true -> rectangular X_test = true ->
     0 < num_classes s ->
     forallb fits_int64 (labels_train ++ labels_test) = true ->
     array_fits (length labels_train) (num_classes s) = true ->
     array_fits (length labels_test) (num_classes s) = true ->
     Exists (fun l => ~ (- num_classes s <= l < num_classes s))
            (labels_train ++ labels_test) ->
     exists s', prepare_dataset env d s = (Raise IndexError, s') /\
                same_but_trace s s').
Proof.
  split.
  - intros X_train y_train X_test y_test s' H Hn.
    apply prepare_dataset_Ok in H
      as (ds & train & test & l1 & l2 & Hds & Htr & Hte & _ & Hl1 & _ & Hl2
          & Hy1 & Hy2 & _).
    exists ds, train, test, l1, l2. do 5 (split; [assumption |]).
    apply Forall_app. split; eapply to_categorical_Ok_range; eassumption.
  - intros Hq ds train test X_train l1 X_test l2
      Hds Htr Hte He1 Hl1 He2 Hl2 Hr1 Hr2 Hn Hint Hfit1 Hfit2 Hbad.
    eapply (prepare_dataset_IndexError env Hq); eassumption.
Qed.

Lemma label_out_of_range_raises_witness :
  exists s',
    prepare_dataset calm 0 (set_num_classes 2 (world_with gapped_dataset))
    = (Raise IndexError, s') /\
    same_but_trace (set_num_classes 2 (world_with gapped_dataset)) s'.
Proof.
  destruct (label_out_of_range_raises calm 0
              (set_num_classes 2 (world_with gapped_dataset))) as [_ H].
  eapply (H calm_quiet gapped_dataset
            (mkDataset (Some [[0.5; 0.25]; [0.75; 1]]%float) (Some [0; 5])
                       python_list)
            (mkDataset (Some [[1; 0.5]]%float) (Some [0]) python_list));
    try (vm_compute; reflexivity); try reflexivity.
  apply Exists_cons_tl, Exists_cons_hd. vm_compute. intros [_ Hlt].
  discriminate Hlt.
Defined.

(** X3. An instance created with [num_classes=0] does not encode to width
    zero: [to_categorical] then reads the width off the labels of the array
    it is given, as the [int64] they have become there. In every run of
    [prepare_dataset] that returns from such a state, both label columns
    are non-empty, every train row has the length of the largest train
    label plus one and every test row the length of the largest test label
    plus one, which need not agree; a label counts as the [int64] of its 64
    bits, which is the label itself where it is an [int64]. *)
Theorem zero_class_count_infers_width (env : Env) (d : nat) (s : State)
  X_train y_train X_test y_test s' :
  num_classes s = 0 ->
  prepare_dataset env d s = (Ok (X_train, y_train, X_test, y_test), s') ->
  exists ds train test l1 rest1 l2 rest2,
    objects s !! d = Some ds /\
    ds !! "train" = Some train /\ ds !! "test" = Some test /\
    label train = Some (l1 :: rest1) /\ label test = Some (l2 :: rest2) /\
    Forall (fun row =>
              length row
              = Z.to_nat (max_label (wrap_int64 l1) (wrap_int64 <$> rest1) + 1))
           y_train /\
    Forall (fun row =>
              length row
              = Z.to_nat (max_label (wrap_int64 l2) (wrap_int64 <$> rest2) + 1))
           y_test.
Proof.
  intros Hzero H. apply prepare_dataset_Ok in H
    as (ds & train & test & y1 & y2 & Hds & Htr & Hte & _ & Hl1 & _ & Hl2
        & Hy1 & Hy2 & _).
  rewrite Hzero in Hy1, Hy2.
  apply to_categorical_inferred in Hy1 as (l1 & rest1 & -> & _ & _ & Hw1).
  apply to_categorical_inferred in Hy2 as (l2 & rest2 & -> & _ & _ & Hw2).
  exists ds, train, test, l1, rest1, l2, rest2.
  repeat (split; [assumption |]). exact Hw2.
Qed.

Lemma zero_class_count_infers_width_witness :
  Forall (fun row : list float => length row = 3%nat)
         [[1; 0; 0]; [0; 0; 1]; [0; 1; 0]]%float /\
  Forall (fun row : list float => length row = 2%nat) [[0; 1]]%float /\
  Forall (fun row : list float => length row = 6%nat)
         [[0; 0; 0; 0; 0; 1]; [0; 0; 0; 0; 0; 1]]%float.
Proof.
  assert (Hrun : exists s',
             prepare_dataset calm 0 (world_with sample_dataset)
             = (Ok ([[0.5; 0.25]; [0.75; 1]; [0; 0.125]]%float,
                    [[1; 0; 0]; [0; 0; 1]; [0; 1; 0]]%float,
                    [[1; 0.5]]%float, [[0; 1]]%float), s')).
  { eexists. vm_compute. reflexivity. }
  assert (Hrun' : exists s',
             prepare_dataset calm 0 (world_with unsigned_dataset)
             = (Ok ([[0.5; 0.25]; [0.75; 1]]%float,
                    [[0; 0; 0; 0; 0; 1]; [0; 0; 0; 0; 0; 1]]%float,
                    [[1; 0.5]]%float, [[1]]%float), s')).
  { eexists. vm_compute. reflexivity. }
  destruct Hrun as [s' Hrun]. destruct Hrun' as [s'' Hrun'].
  destruct (zero_class_count_infers_width calm 0 (world_with sample_dataset)
              _ _ _ _ _ eq_refl Hrun)
    as (ds & train & test & l1 & r1 & l2 & r2 & Hds & Htr & Hte & Hl1 & Hl2
        & H1 & H2).
  destruct (zero_class_count_infers_width calm 0 (world_with unsigned_dataset)
              _ _ _ _ _ eq_refl Hrun')
    as (ds' & train' & test' & l1' & r1' & l2' & r2' & Hds' & Htr' & Hte'
        & Hl1' & Hl2' & H1' & _).
  vm_compute in Hds. injection Hds as <-.
  vm_compute in Htr. injection Htr as <-.
  vm_compute in Hte. injection Hte as <-.
  vm_compute in Hl1. injection Hl1 as <- <-.
  vm_compute in Hl2. injection Hl2 as <- <-.
  vm_compute in Hds'. injection Hds' as <-.
  vm_compute in Htr'. injection Htr' as <-.
  vm_compute in Hl1'. injection Hl1' as <- <-.
  split; [exact H1 | split; [exact H2 | exact H1']].
Defined.

(** ** The life of the model *)

Lemma filter_is_build_nil s s' :
  only no_build s s' -> List.filter is_build (new_calls s s') = [].
Proof.
  intros H. apply only_new_calls in H.
  induction (new_calls s s') as [|ev evs IH]; [reflexivity |].
  simpl in H. apply andb_true_iff in H as [Hev Hevs].
  simpl. unfold no_build in Hev. destruct (is_build ev); [discriminate |].
  apply IH. exact Hevs.
Qed.

(** X4. A model built with a learning rate of one's own is kept by
    [train]: when [build_model(lr)] has returned and a following [train]
    returns, [train] has made no call that assembles or compiles a model,
    and [self.model] is the model [build_model] made, compiled with
    [Adam(lr, clipnorm=1.0)] and fitted once. *)
Theorem build_then_train_keeps_learning_rate (env : Env) (lr : float)
  (d : nat) (e b : Z) (s s1 s2 : State) (h : History) :
  build_model env lr s = (Ok tt, s1) ->
  train env d e b s1 = (Ok h, s2) ->
  model s2
  = Some (mkKerasModel (next_id s)
            (dense_stack (input_shape s) (num_classes s))
            (Some (compile_config lr)) 1) /\
  List.filter is_build (new_calls s1 s2) = [].
Proof.
  intros Hb Ht. apply build_model_Ok in Hb as (Hm & _).
  split.
  - apply train_Ok in Ht
      as (X1 & f1 & l1 & X2 & f2 & l2 & y1 & y2 & _ & _ & _ & _
          & k & Hk & Hshape).
    rewrite Hm in Hshape. rewrite Hk, Hshape. reflexivity.
  - apply filter_is_build_nil.
    pose proof (train_reuses env d e b s1 _ Hm) as [Honly _].
    rewrite Ht in Honly. exact Honly.
Qed.

Lemma build_then_train_keeps_learning_rate_witness :
  exists s1 s2,
    model s2
    = Some (mkKerasModel (next_id world1)
              (dense_stack (input_shape world1) (num_classes world1))
              (Some (compile_config 0.01)) 1) /\
    List.filter is_build (new_calls s1 s2) = [].
Proof.
  assert (H1 : exists s1, build_model calm 0.01 world1 = (Ok tt, s1)).
  { eexists. vm_compute. reflexivity. }
  destruct H1 as [s1 H1].
  assert (H2 : exists h s2, train calm 0 100 8 s1 = (Ok h, s2)).
  { assert (E : s1 = (build_model calm 0.01 world1).2) by (rewrite H1; reflexivity).
    rewrite E. do 2 eexists. vm_compute. reflexivity. }
  destruct H2 as (h & s2 & H2).
  exists s1, s2.
  apply (build_then_train_keeps_learning_rate calm 0.01 0 100 8 world1 s1 s2 h);
    assumption.
Defined.

(** X5. [build_model] starts afresh: when it returns on an instance that
    had a model (whose identity the framework had handed out), the
    instance holds another model object, compiled with the learning rate
    given and not fitted yet, whatever training the old one had seen. *)
Theorem build_model_starts_afresh (env : Env) (lr : float) (s s' : State)
  (k : KerasModel) :
  build_model env lr s = (Ok tt, s') ->
  model s = Some k -> (model_id k < next_id s)%nat ->
  exists k',
    model s' = Some k' /\ model_id k' <> model_id k /\ fits k' = 0%nat /\
    compiled k' = Some (compile_config lr).
Proof.
  intros H Hk Hid. apply build_model_Ok in H as (Hm & _).
  eexists. split; [exact Hm |]. simpl. repeat split. lia.
Qed.

Lemma build_model_starts_afresh_witness :
  fits <$> model world2 = Some 1%nat /\
  exists s' k',
    build_model calm 0.01 world2 = (Ok tt, s') /\
    model s' = Some k' /\ model_id k' <> 0%nat /\ fits k' = 0%nat.
Proof.
  split; [vm_compute; reflexivity |].
  assert (H1 : exists s', build_model calm 0.01 world2 = (Ok tt, s')).
  { eexists. vm_compute. reflexivity. }
  destruct H1 as [s' H1].
  assert (Hk : exists k, model world2 = Some k /\ model_id k = 0%nat).
  { eexists. split; vm_compute; reflexivity. }
  destruct Hk as (k & Hk & Hid).
  destruct (build_model_starts_afresh calm 0.01 world2 s' k H1 Hk)
    as (k' & Hk' & Hne & Hf & _).
  - rewrite Hid. vm_compute. lia.
  - exists s', k'. split; [exact H1 |]. split; [exact Hk' |].
    split; [rewrite <- Hid; exact Hne | exact Hf].
Defined.

Lemma train_times_keeps env d e b n : forall s u s' k,
  train_times env d e b n s = (Ok u, s') ->
  model s = Some k ->
  model s' = Some (mkKerasModel (model_id k) (model_layers k) (compiled k)
                                (n + fits k)).
Proof.
  induction n as [|n IH]; intros s u s' k H Hk.
  - apply ret_Ok in H as (_ & ->). rewrite Hk. destruct k; reflexivity.
  - simpl in H. apply bind_Ok in H as (h & s1 & H1 & H).
    apply train_Ok in H1
      as (X1 & f1 & l1 & X2 & f2 & l2 & y1 & y2 & _ & _ & _ & _
          & k1 & Hk1 & Hshape).
    rewrite Hk in Hshape. rewrite (IH _ _ _ _ H Hk1), Hshape. simpl.
    f_equal. f_equal. lia.
Qed.

(** X6. Calls of [train] add up on one model: after [n] calls in a row
    that all returned, an instance that had a model still has that model
    object, fitted [n] more times; an instance that had none has, for
    [n >= 1], the model the first call built with the default learning
    rate, fitted [n] times. *)
Theorem train_times_fits (env : Env) (d : nat) (e b : Z) (n : nat)
  (s s' : State) :
  train_times env d e b n s = (Ok tt, s') ->
  (forall k, model s = Some k ->
     model s' = Some (mkKerasModel (model_id k) (model_layers k) (compiled k)
                                   (n + fits k))) /\
  (model s = None -> (0 < n)%nat ->
   model s' = Some (mkKerasModel (next_id s)
                      (dense_stack (input_shape s) (num_classes s))
                      (Some (compile_config default_learning_rate)) n)).
Proof.
  intros H. split.
  - intros k Hk. eapply train_times_keeps; eassumption.
  - intros Hnone Hn. destruct n as [|n]; [lia |].
    simpl in H. apply bind_Ok in H as (h & s1 & H1 & H).
    apply train_Ok in H1
      as (X1 & f1 & l1 & X2 & f2 & l2 & y1 & y2 & _ & _ & _ & _
          & k1 & Hk1 & Hshape).
    rewrite Hnone in Hshape.
    rewrite (train_times_keeps _ _ _ _ _ _ _ _ _ H Hk1), Hshape. simpl.
    f_equal. f_equal. lia.
Qed.

Lemma train_times_fits_witness :
  exists s',
    model s'
    = Some (mkKerasModel (next_id world1)
              (dense_stack (input_shape world1) (num_classes world1))
              (Some (compile_config default_learning_rate)) 3).
Proof.
  assert (H : exists s', train_times calm 0 100 8 3 world1 = (Ok tt, s')).
  { eexists. vm_compute. reflexivity. }
  destruct H as [s' H]. exists s'.
  destruct (train_times_fits calm 0 100 8 3 world1 s' H) as [_ Hnone].
  apply Hnone; [vm_compute; reflexivity | lia].
Defined.

Lemma models_Sequential_cases env ls s :
  models_Sequential env ls s
  = (Ok (mkKerasModel (next_id s) ls None 0),
     log (E_Sequential ls) None (set_next_id (S (next_id s)) s)) \/
  exists e, models_Sequential env ls s
            = (Raise e, log (E_Sequential ls) (Some e) s).
Proof.
  unfold models_Sequential, call.
  destruct (raises env (trace s) (E_Sequential ls)) as [e|].
  - right. exists e. reflexivity.
  - left. reflexivity.
Qed.

Lemma model_compile_cases env c s k :
  model s = Some k ->
  model_compile env c s
  = (Ok tt,
     log (E_compile (model_id k) c) None
       (set_model
          (Some (mkKerasModel (model_id k) (model_layers k) (Some c) (fits k)))
          s)) \/
  exists e, model_compile env c s
            = (Raise e, log (E_compile (model_id k) c) (Some e) s).
Proof.
  intros Hk. unfold model_compile.
  rewrite bind_run, (self_model_runs _ _ _ Hk). unfold call.
  destruct (raises env (trace s) (E_compile (model_id k) c)) as [e|].
  - right. exists e. reflexivity.
  - left. reflexivity.
Qed.

Lemma model_summary_cases env s k :
  model s = Some k ->
  model_summary env s = (Ok tt, log (E_summary (model_id k)) None s) \/
  exists e, model_summary env s
            = (Raise e, log (E_summary (model_id k)) (Some e) s).
Proof.
  intros Hk. unfold model_summary.
  rewrite bind_run, (self_model_runs _ _ _ Hk).
  apply pure_call_cases.
Qed.

Ltac other_call :=
  let Ht := fresh in
  intros ? ? ? ? Ht; cbn [snd trace log set_model set_next_id] in Ht;
  apply app_inj_tail in Ht as [_ Ht]; discriminate Ht.

Ltac compile_call :=
  let Ht := fresh in
  intros ? ? ? ? Ht; cbn [snd trace log set_model set_next_id] in Ht;
  apply app_inj_tail in Ht as [_ Ht]; injection Ht as _ _ <-;
  split; reflexivity.

Ltac build_fin :=
  split;
  [ first [ left; reflexivity | right; left; reflexivity
          | right; right; reflexivity ]
  | first [ other_call | compile_call ] ].

Ltac sym_modify := rewrite bind_run; unfold modify at 1; cbv beta iota.

(** X7. [build_model] is not atomic. Whatever its outcome, [self.model] is
    afterwards either what it was, or the newly assembled dense stack not
    yet compiled, or that stack compiled; and when it is the call of
    [compile] that raises, [build_model] raises that exception and leaves
    the assembled but uncompiled model in [self.model]. *)
Theorem build_model_is_not_atomic (env : Env) (lr : float) (s : State) :
  (model (build_model env lr s).2 = model s \/
   model (build_model env lr s).2
   = Some (mkKerasModel (next_id s)
             (dense_stack (input_shape s) (num_classes s)) None 0) \/
   model (build_model env lr s).2
   = Some (mkKerasModel (next_id s)
             (dense_stack (input_shape s) (num_classes s))
             (Some (compile_config lr)) 0)) /\
  (forall tr e id c,
     trace (build_model env lr s).2
     = tr ++ [mkEntry (E_compile id c) (Some e)] ->
     (build_model env lr s).1 = Raise e /\
     model (build_model env lr s).2
     = Some (mkKerasModel (next_id s)
               (dense_stack (input_shape s) (num_classes s)) None 0)).
Proof.
  change (build_outcome lr s (build_model env lr s)).
  unfold build_model, layers_new, regularizers_l2, optimizers_Adam,
    metrics_new, print.
  sym_gets. do 10 sym_call build_fin. sym_gets. sym_call build_fin.
  rewrite bind_run.
  match goal with
  | |- context [models_Sequential ?env ?ls ?s1] =>
      let Hc := fresh in
      destruct (models_Sequential_cases env ls s1) as [Hc | [? Hc]];
      rewrite Hc; clear Hc; cbv beta iota; [| build_fin]
  end.
  sym_modify. do 4 sym_call build_fin.
  rewrite bind_run.
  match goal with
  | |- context [model_compile ?env ?c ?s1] =>
      let Hc := fresh in
      destruct (model_compile_cases env c s1 _ eq_refl) as [Hc | [? Hc]];
      rewrite Hc; clear Hc; cbv beta iota; [| build_fin]
  end.
  rewrite bind_run.
  match goal with
  | |- context [model_summary ?env ?s1] =>
      let Hc := fresh in
      destruct (model_summary_cases env s1 _ eq_refl) as [Hc | [? Hc]];
      rewrite Hc; clear Hc; cbv beta iota; [| build_fin]
  end.
  match goal with
  | |- context [pure_call ?env ?ev (Ok ?a) ?s1] =>
      let Hc := fresh in
      destruct (pure_call_cases env ev a s1) as [Hc | [? Hc]];
      rewrite Hc; clear Hc; build_fin
  end.
Qed.

Lemma build_model_is_not_atomic_witness :
  (build_model brittle 0.01 world1).1 = Raise (ExternalError "cannot compile") /\
  model (build_model brittle 0.01 world1).2
  = Some (mkKerasModel (next_id world1)
            (dense_stack (input_shape world1) (num_classes world1)) None 0).
Proof.
  destruct (build_model_is_not_atomic brittle 0.01 world1) as [_ H].
  apply (H (removelast (trace (build_model brittle 0.01 world1).2))
           (ExternalError "cannot compile") 0%nat (compile_config 0.01)).
  vm_compute. reflexivity.
Defined.

(** ** The log directory, continued *)

(** X8. A log directory that is not there is created with every directory
    above it that is missing: when [__init__] returns and [log_dir] did not
    exist, every leading part of the path is a directory afterwards, and
    whatever existed before is still what it was. *)
Theorem init_creates_parents (env : Env) (i : list Z) (n : Z) (l : string)
  (s s' : State) :
  __init__ env i n l s = (Ok tt, s') ->
  node_at (cwd env) (fs s) (parts (cwd env) l) = None ->
  (forall m, node_at (cwd env) (fs s') (take m (parts (cwd env) l)) = Some Dir) /\
  (forall p k, node_at (cwd env) (fs s) p = Some k ->
               node_at (cwd env) (fs s') p = Some k).
Proof.
  rewrite init_run. intros H Hnone. apply os_makedirs_Ok in H as [Hok ->].
  cbn [fs log set_fs set_log_dir set_num_classes set_input_shape set_model]
    in *.
  split.
  - apply isdir_above.
    destruct (makedirs_Ok _ _ _ Hok) as [Hd | Hf]; [exact Hd | congruence].
  - intros p k. apply grows_node, makedirs_grows. reflexivity.
Qed.

Lemma init_creates_parents_witness :
  exists s',
    __init__ calm [2] 3 "runs/face/logs" world0 = (Ok tt, s') /\
    node_at (cwd calm) (fs s') (cwd calm ++ ["runs"]) = Some Dir /\
    node_at (cwd calm) (fs s') (cwd calm ++ ["runs"; "face"]) = Some Dir /\
    node_at (cwd calm) (fs s') (cwd calm ++ ["runs"; "face"; "logs"]) = Some Dir.
Proof.
  assert (H : exists s', __init__ calm [2] 3 "runs/face/logs" world0 = (Ok tt, s')).
  { eexists. vm_compute. reflexivity. }
  destruct H as [s' H]. exists s'. split; [exact H |].
  destruct (init_creates_parents calm [2] 3 "runs/face/logs" world0 s' H)
    as [Hdirs _]; [vm_compute; reflexivity |].
  split; [apply (Hdirs 3%nat) | split; [apply (Hdirs 4%nat) | apply (Hdirs 5%nat)]].
Defined.

Section BelowFile.
Context (here : Path).






End BelowFile.





(** ** Processes, continued *)

(** X10. [run_tensorboard] does not look for a server that is already
    running: two calls that return have started two TensorBoard processes
    with the same command line on the same log directory, and both handles
    are that command line. *)
Theorem run_tensorboard_twice (env : Env) (s s1 s2 : State)
  (h1 h2 : list string) :
  run_tensorboard env s = (Ok h1, s1) ->
  run_tensorboard env s1 = (Ok h2, s2) ->
  h1 = ["tensorboard"; "--logdir"; log_dir s] /\ h2 = h1 /\
  children s2 = children s ++ [h1; h2].
Proof.
  intros H1 H2.
  pose proof (run_tensorboard_settled env s) as (_ & _ & El).
  rewrite H1 in El. cbn [snd] in El.
  apply run_tensorboard_Ok in H1 as (-> & Hc1).
  apply run_tensorboard_Ok in H2 as (-> & Hc2).
  rewrite El in *. split; [reflexivity |]. split; [reflexivity |].
  rewrite Hc2, Hc1, <- app_assoc. reflexivity.
Qed.

Lemma run_tensorboard_twice_witness :
  exists s2,
    children s2
    = children world1 ++ [["tensorboard"; "--logdir"; "./logs"];
                          ["tensorboard"; "--logdir"; "./logs"]].
Proof.
  assert (H1 : exists s1, run_tensorboard calm world1
                          = (Ok ["tensorboard"; "--logdir"; "./logs"], s1)).
  { eexists. vm_compute. reflexivity. }
  destruct H1 as [s1 H1].
  assert (H2 : exists s2, run_tensorboard calm s1
                          = (Ok ["tensorboard"; "--logdir"; "./logs"], s2)).
  { assert (E : s1 = (run_tensorboard calm world1).2) by (rewrite H1; reflexivity).
    rewrite E. eexists. vm_compute. reflexivity. }
  destruct H2 as [s2 H2]. exists s2.
  destruct (run_tensorboard_twice calm world1 s1 s2 _ _ H1 H2) as (_ & _ & H).
  exact H.
Defined.
(** ** Who assigns the model *)

#[export] Instance model_kept_preorder :
  PreOrder (fun s s' : State => model s' = model s).
Proof. split; [intros x; reflexivity | intros x y z; congruence]. Qed.

Lemma plot_training_history_model env h :
  keeps (fun s s' => model s' = model s) (plot_training_history env h).
Proof. unfold_calls. keeps_program ltac:(reflexivity). Qed.

(** X11. Only [__init__], [build_model] and [train] assign [self.model]:
    [prepare_dataset], [plot_training_history] and [run_tensorboard] leave
    it as it is on every path, returning or raising. *)
Theorem model_assigned_by_three (env : Env) (s : State) :
  (forall d, model (prepare_dataset env d s).2 = model s) /\
  (forall h, model (plot_training_history env h s).2 = model s) /\
  model (run_tensorboard env s).2 = model s.
Proof.
  split; [| split].
  - intros d. destruct (prepare_dataset_same_but_trace env d s) as (H & _).
    exact H.
  - intros h. apply plot_training_history_model.
  - apply run_tensorboard_model.
Qed.

(** ** What the training loop is given *)

Lemma filter_is_fit_conversion X1 f1 l1 X2 f2 l2 n :
  List.filter is_fit (conversion_calls X1 f1 l1 X2 f2 l2 n) = [].
Proof. reflexivity. Qed.

Lemma train_data_Ok env d e b s h s' :
  train env d e b s = (Ok h, s') ->
  exists ds train test X_train labels_train X_test labels_test y_train y_test,
    objects s !! d = Some ds /\
    ds !! "train" = Some train /\ ds !! "test" = Some test /\
    embedding train = Some X_train /\ label train = Some labels_train /\
    embedding test = Some X_test /\ label test = Some labels_test /\
    to_categorical (np_array (label_format train) labels_train)
                   (num_classes s) = Ok y_train /\
    to_categorical (np_array (label_format test) labels_test)
                   (num_classes s) = Ok y_test /\
    trace s' = trace s ++
               returned (train_calls s X_train (label_format train) labels_train
                                     X_test (label_format test) labels_test
                                     y_train y_test e b).
Proof.
  unfold train. intros H.
  apply bind_Ok in H as ([[[X_train y_train] X_test] y_test] & s1 & H1 & H).
  apply prepare_dataset_Ok in H1
    as (ds & tr & te & l1 & l2 & Hds & Htr & Hte & He1 & Hl1 & He2 & Hl2
        & Hy1 & Hy2 & Hsame & Ht1).
  destruct Hsame as (Em & Ei & En & El & _ & _ & _ & Eid).
  exists ds, tr, te, X_train, l1, X_test, l2, y_train, y_test.
  do 9 (split; [assumption |]).
  apply bind_Ok in H as (current & s1' & H1 & H).
  apply gets_Ok in H1 as (-> & ->).
  apply bind_Ok in H as (u & s2 & H1 & H).
  unfold callbacks_new, os_path_join in H.
  unfold train_calls, fitted_model_id.
  destruct (model s) as [k0|] eqn:Ek0; rewrite Em in H1.
  - apply ret_Ok in H1 as (_ & ->).
    do 7 returned_step H.
    apply bind_Ok in H as (h' & s3 & H1 & H).
    apply model_fit_Ok in H1 as (k & Hk & -> & ->).
    apply ret_Ok in H as (-> & ->).
    simpl in Hk. rewrite Em in Hk. injection Hk as <-.
    simpl. rewrite Ht1, El. rewrite <- !app_assoc. reflexivity.
  - apply build_model_Ok in H1
      as (Hm2 & _ & _ & El2 & _ & _ & _ & _ & Ht2).
    do 7 returned_step H.
    apply bind_Ok in H as (h' & s3 & H1 & H).
    apply model_fit_Ok in H1 as (k & Hk & -> & ->).
    apply ret_Ok in H as (-> & ->).
    simpl in Hk. rewrite Hm2 in Hk. injection Hk as <-.
    simpl. rewrite Ht2, Ht1, El2, El, Ei, En, Eid.
    unfold returned; rewrite !fmap_app, <- !app_assoc; reflexivity.
Qed.

(** X12. [train] fits on the train split and validates on the test split.
    A call that returns has made exactly one call into the training loop:
    on the model of the instance, with the train embeddings and the one-hot
    train labels as data, the test embeddings and the one-hot test labels
    as validation data, [epochs] and [batch_size] as passed, the four
    callbacks on the log directory, and [verbose=1]. *)
Theorem train_validates_on_test_split (env : Env) (d : nat) (e b : Z)
  (s s' : State) (h : History) :
  train env d e b s = (Ok h, s') ->
  exists ds train test X_train labels_train X_test labels_test y_train y_test,
    objects s !! d = Some ds /\
    ds !! "train" = Some train /\ ds !! "test" = Some test /\
    embedding train = Some X_train /\ label train = Some labels_train /\
    embedding test = Some X_test /\ label test = Some labels_test /\
    to_categorical (np_array (label_format train) labels_train)
                   (num_classes s) = Ok y_train /\
    to_categorical (np_array (label_format test) labels_test)
                   (num_classes s) = Ok y_test /\
    List.filter is_fit (new_calls s s')
    = [E_fit (fitted_model_id s) X_train y_train X_test y_test e b
             (four_callbacks (log_dir s)) 1].
Proof.
  intros H. apply train_data_Ok in H
    as (ds & tr & te & X1 & l1 & X2 & l2 & y1 & y2 & Hds & Htr & Hte & He1
        & Hl1 & He2 & Hl2 & Hy1 & Hy2 & Ht).
  exists ds, tr, te, X1, l1, X2, l2, y1, y2.
  do 9 (split; [assumption |]).
  unfold new_calls. rewrite (new_entries_app _ _ _ Ht), called_returned.
  unfold train_calls. rewrite !List.filter_app, filter_is_fit_conversion.
  destruct (model s); reflexivity.
Qed.

Lemma train_validates_on_test_split_witness :
  List.filter is_fit (new_calls world1 world2)
  = [E_fit 0 [[0.5; 0.25]; [0.75; 1]; [0; 0.125]]%float
           [[1; 0; 0]; [0; 0; 1]; [0; 1; 0]]%float
           [[1; 0.5]]%float [[0; 1; 0]]%float 100 8
           (four_callbacks "./logs") 1].
Proof.
  assert (Hrun : train calm 0 100 8 world1 = (Ok (mkHistory sample_curves), world2)).
  { vm_compute. reflexivity. }
  destruct (train_validates_on_test_split calm 0 100 8 world1 world2 _ Hrun)
    as (ds & tr & te & X1 & l1 & X2 & l2 & y1 & y2 & Hds & Htr & Hte & He1
        & Hl1 & He2 & Hl2 & Hy1 & Hy2 & H).
  vm_compute in Hds. injection Hds as <-.
  vm_compute in Htr. injection Htr as <-.
  vm_compute in Hte. injection Hte as <-.
  vm_compute in He1. injection He1 as <-.
  vm_compute in Hl1. injection Hl1 as <-.
  vm_compute in He2. injection He2 as <-.
  vm_compute in Hl2. injection Hl2 as <-.
  vm_compute in Hy1. injection Hy1 as <-.
  vm_compute in Hy2. injection Hy2 as <-.
  exact H.
Defined.

(** ** Data that is not all there *)

(** X13. [train] looks at the data before it builds anything: on a dataset
    that lacks a split or a column, every call of [train] raises, in every
    environment, and leaves the instance, the disk and the framework's
    objects as they were: no model was built and no file written. *)
Theorem train_stops_at_incomplete_data (env : Env) (d : nat) (e b : Z)
  (s : State) (ds : gmap string Dataset) :
  objects s !! d = Some ds -> ~ complete ds ->
  exists err s',
    train env d e b s = (Raise err, s') /\ same_but_trace s s'.
Proof.
  intros Hds Hinc. unfold train. rewrite bind_run.
  pose proof (prepare_dataset_same_but_trace env d s) as Hsame.
  destruct (prepare_dataset env d s)
    as [[[[[X_train y_train] X_test] y_test]|err] s1] eqn:E.
  - exfalso. apply Hinc. apply prepare_dataset_Ok in E
      as (ds' & tr & te & l1 & l2 & Hds' & Htr & Hte & He1 & Hl1 & He2 & Hl2 & _).
    rewrite Hds in Hds'. injection Hds' as <-.
    exists tr, te. rewrite He1, Hl1, He2, Hl2. repeat split; eauto.
  - exists err, s1. split; [reflexivity | exact Hsame].
Qed.

Lemma train_stops_at_incomplete_data_witness :
  exists err s',
    train calm 0 100 8 (world_with partial_dataset) = (Raise err, s') /\
    same_but_trace (world_with partial_dataset) s'.
Proof.
  apply (train_stops_at_incomplete_data calm 0 100 8
           (world_with partial_dataset) partial_dataset).
  - vm_compute. reflexivity.
  - intros (tr & te & _ & Hte & _). vm_compute in Hte. discriminate Hte.
Defined.


(** ** The driver cell *)

Lemma first_row_embedding split row x :
  first_row split = Ok row -> row_embedding row = Some x ->
  exists rest, embedding split = Some (x :: rest).
Proof.
  unfold first_row, column_first, mbind, Result_bind.
  destruct (embedding split) as [[|x' rest]|], (label split) as [[|y ys]|];
    try discriminate; intros H; injection H as <-; simpl; intros Hx;
    try discriminate Hx; injection Hx as <-; exists rest; reflexivity.
Qed.

Lemma first_row_runs split x rest y ys :
  embedding split = Some (x :: rest) -> label split = Some (y :: ys) ->
  first_row split = Ok (mkRow (Some x) (Some y)).
Proof. unfold first_row. intros -> ->. reflexivity. Qed.

Lemma first_row_empty split :
  embedding split = Some [] -> first_row split = Raise IndexError.
Proof. unfold first_row. intros ->. destruct (label split); reflexivity. Qed.

Lemma count_distinct_pos y ys : 0 < count_distinct (y :: ys).
Proof.
  unfold count_distinct.
  assert (H : remove_dups (y :: ys) <> []).
  { intros Hnil. assert (Hin : y ∈ remove_dups (y :: ys))
      by (apply elem_of_remove_dups; left).
    rewrite Hnil in Hin. apply elem_of_nil in Hin. exact Hin. }
  destruct (remove_dups (y :: ys)); [congruence | simpl; lia].
Qed.

Lemma init_Ok env i n l s s' :
  __init__ env i n l s = (Ok tt, s') ->
  model s' = None /\ input_shape s' = i /\ num_classes s' = n /\
  log_dir s' = l /\ objects s' = objects s /\ next_id s' = next_id s.
Proof.
  rewrite init_run. intros H. apply os_makedirs_Ok in H as [_ ->].
  repeat split.
Qed.

Lemma notebook_cell_Ok env d s s' :
  notebook_cell env d s = (Ok tt, s') ->
  exists ds split first rest labels k,
    objects s !! d = Some ds /\ ds !! "train" = Some split /\
    embedding split = Some (first :: rest) /\ label split = Some labels /\
    input_shape s' = [Z.of_nat (length first)] /\
    num_classes s' = count_distinct labels /\
    log_dir s' = default_log_dir /\
    fs s' !! (cwd env ++ ["training_history.png"]) = Some File /\
    model s' = Some k /\
    model_layers k
    = dense_stack [Z.of_nat (length first)] (count_distinct labels) /\
    compiled k = Some (compile_config default_learning_rate) /\
    fits k = 1%nat.
Proof.
  unfold notebook_cell, row_getitem. intros H.
  apply bind_Ok in H as (split & s1 & H1 & H).
  apply dataset_getitem_Ok in H1 as ((ds & Hds & Hsplit) & ->).
  apply bind_Ok in H as (row & s2 & H1 & H).
  apply pure_call_Ok in H1 as (Hrow & ->).
  apply bind_Ok in H as (first & s3 & H1 & H).
  apply column_getitem_Ok in H1 as (Hfirst & ->).
  destruct (first_row_embedding _ _ _ Hrow Hfirst) as [rest Hemb].
  apply bind_Ok in H as (split' & s4 & H1 & H).
  apply dataset_getitem_Ok in H1 as ((ds' & Hds' & Hsplit') & ->).
  cbn [objects log] in Hds'. rewrite Hds in Hds'. injection Hds' as <-.
  rewrite Hsplit in Hsplit'. injection Hsplit' as <-.
  apply bind_Ok in H as (labels & s5 & H1 & H).
  apply column_getitem_Ok in H1 as (Hlabels & ->).
  apply bind_Ok in H as ([] & s6 & Hinit & H).
  apply init_Ok in Hinit as (Hm6 & Hi6 & Hn6 & Hl6 & _).
  apply bind_Ok in H as (h & s7 & Htrain & Hplot).
  pose proof (train_settled env d default_epochs default_batch_size s6)
    as (Hi7 & Hn7 & Hl7).
  rewrite Htrain in Hi7, Hn7, Hl7. cbn [snd] in Hi7, Hn7, Hl7.
  apply train_Ok in Htrain
    as (X1 & f1 & l1 & X2 & f2 & l2 & y1 & y2 & _ & _ & _ & _
        & k & Hk & Hshape).
  rewrite Hm6 in Hshape.
  pose proof (plot_training_history_settled env h s7) as (Hi8 & Hn8 & Hl8).
  pose proof (plot_training_history_model env h s7) as Hm8.
  rewrite Hplot in Hi8, Hn8, Hl8, Hm8. cbn [snd] in Hi8, Hn8, Hl8, Hm8.
  apply plot_training_history_Ok in Hplot
    as (a & va & lo & vl & _ & _ & _ & _ & Hfs & _).
  exists ds, split, first, rest, labels, k.
  split; [exact Hds |]. split; [exact Hsplit |]. split; [exact Hemb |].
  split; [exact Hlabels |].
  split; [congruence |]. split; [congruence |]. split; [congruence |].
  split; [rewrite Hfs; apply lookup_insert_eq |].
  split; [congruence |].
  rewrite Hshape, Hi6, Hn6. repeat split.
Qed.

(** The state in which the driver cell calls [train]: the five look-ups are
    logged, the instance is configured and the log directory made. *)
Lemma notebook_cell_steps env (Hq : quiet env) d s ds split
  first rest labels :
  objects s !! d = Some ds -> ds !! "train" = Some split ->
  embedding split = Some (first :: rest) -> label split = Some labels ->
  labels <> [] ->
  unobstructed (cwd env) (fs s) default_log_dir ->
  exists s6,
    same_but_trace
      (set_fs (fs s6)
         (set_log_dir default_log_dir
            (set_num_classes (count_distinct labels)
               (set_input_shape [Z.of_nat (length first)]
                  (set_model None s))))) s6 /\
    isdir (cwd env) (fs s6) default_log_dir = true /\
    forall r,
      (history ← train env d default_epochs default_batch_size;
       plot_training_history env history) s6 = r ->
      notebook_cell env d s = r.
Proof.
  intros Hds Hsplit Hemb Hlab Hne Hfree.
  destruct labels as [|y ys]; [congruence |].
  destruct (makedirs_free (cwd env) default_log_dir (fs s)) as [Hok Hd];
    [discriminate | exact Hfree |].
  destruct (makedirs (cwd env) default_log_dir true (fs s)) as [r files]
    eqn:Hmk.
  cbn [fst snd] in Hok, Hd. subst r.
  set (s5 := log (E_getitem "dataset['train']" "label") None
            (log (E_getitem "dataset" "train") None
            (log (E_getitem "dataset['train'][0]" "embedding") None
            (log (E_getitem "dataset['train']" "0") None
            (log (E_getitem "dataset" "train") None s))))).
  set (s6 := log (E_makedirs default_log_dir true) None
               (set_fs files
                  (set_log_dir default_log_dir
                     (set_num_classes (count_distinct (y :: ys))
                        (set_input_shape [Z.of_nat (length first)]
                           (set_model None s5)))))).
  assert (Hinit : __init__ env [Z.of_nat (length first)]
                    (count_distinct (y :: ys)) default_log_dir s5
                  = (Ok tt, s6)).
  { rewrite init_run. apply os_makedirs_runs; [apply Hq | exact Hmk]. }
  exists s6. split; [repeat split |]. split.
  { exact Hd. }
  intros r Hr. unfold notebook_cell, row_getitem.
  eapply bind_Ok_intro;
    [apply (dataset_getitem_runs env d "train" _ ds split);
     [apply Hq | exact Hds | exact Hsplit] |].
  eapply bind_Ok_intro.
  { rewrite (first_row_runs _ _ _ _ _ Hemb Hlab). apply pure_call_runs, Hq. }
  eapply bind_Ok_intro; [apply column_getitem_runs; [exact Hq | reflexivity] |].
  eapply bind_Ok_intro;
    [apply (dataset_getitem_runs env d "train" _ ds split);
     [apply Hq | exact Hds | exact Hsplit] |].
  eapply bind_Ok_intro; [apply column_getitem_runs; [exact Hq | exact Hlab] |].
  eapply bind_Ok_intro; [exact Hinit |].
  exact Hr.
Qed.

Lemma notebook_cell_runs env (Hq : quiet env) d s ds split test
  first rest y ys X_test labels_test :
  objects s !! d = Some ds ->
  ds !! "train" = Some split -> ds !! "test" = Some test ->
  embedding split = Some (first :: rest) -> label split = Some (y :: ys) ->
  embedding test = Some X_test -> label test = Some labels_test ->
  rectangular (first :: rest) = true -> rectangular X_test = true ->
  Forall (fun l => 0 <= l < count_distinct (y :: ys)) (y :: ys) ->
  Forall (fun l => 0 <= l < count_distinct (y :: ys)) labels_test ->
  array_fits (length (y :: ys)) (count_distinct (y :: ys)) = true ->
  array_fits (length labels_test) (count_distinct (y :: ys)) = true ->
  unobstructed (cwd env) (fs s) default_log_dir ->
  (forall tr, first_missing (training env tr) = None) ->
  exists s', notebook_cell env d s = (Ok tt, s').
Proof.
  intros Hds Hsplit Htest Hemb Hlab He2 Hl2 Hr1 Hr2 Hin1 Hin2 Hfit1 Hfit2
    Hfree Hcurves.
  destruct (notebook_cell_steps env Hq d s ds split first rest (y :: ys))
    as (s6 & (_ & _ & Hn & _ & Hobj & _) & _ & Hsteps);
    try assumption; [discriminate |].
  cbn in Hn, Hobj.
  destruct (train_runs env Hq d default_epochs default_batch_size s6
              ds split test (first :: rest) (y :: ys) X_test labels_test)
    as (h & s7 & Htrain); try assumption; try (rewrite Hn; assumption).
  { rewrite Hobj. exact Hds. }
  { rewrite Hn. apply count_distinct_pos. }
  pose proof Htrain as Hh. apply train_Ok in Hh
    as (_ & _ & _ & _ & _ & _ & _ & _ & _ & _ & _ & Hh & _).
  destruct (first_missing_None _ (Hcurves (removelast (trace s7))))
    as (a & va & lo & vl & K1 & K2 & K3 & K4).
  destruct (plot_training_history_runs env Hq h s7 a va lo vl)
    as [s8 Hplot]; try (rewrite Hh; assumption).
  exists s8. apply Hsteps.
  eapply bind_Ok_intro; [exact Htrain |].
  exact Hplot.
Qed.

(** X14. What the driver cell sets up. A run of the cell that returns has
    created the instance with [input_shape] the length of the first train
    embedding, [num_classes] the number of distinct train labels and the
    log directory './logs'; the instance holds the dense stack of these
    sizes, compiled with the default learning rate and fitted once; and
    'training_history.png' is on disk, in the current directory. The cell
    does return when both splits have both columns and at least one train
    example, the embeddings are rectangular, every train and test label is
    one of 0, ..., n-1 for n the number of distinct train labels, arrays
    of one row per label and n columns are of a size NumPy makes, no
    regular file stands where './logs' leads or on the way, the training
    loop reports the four curves, and no library call fails for a reason
    of its own. *)
Theorem notebook_cell_sets_up (env : Env) (d : nat) (s : State) :
  (forall s',
     notebook_cell env d s = (Ok tt, s') ->
     exists ds split first rest labels k,
       objects s !! d = Some ds /\ ds !! "train" = Some split /\
       embedding split = Some (first :: rest) /\ label split = Some labels /\
       input_shape s' = [Z.of_nat (length first)] /\
       num_classes s' = count_distinct labels /\
       log_dir s' = "./logs" /\
       fs s' !! (cwd env ++ ["training_history.png"]) = Some File /\
       model s' = Some k /\
       model_layers k
       = dense_stack [Z.of_nat (length first)] (count_distinct labels) /\
       compiled k = Some (compile_config 1e-3) /\
       fits k = 1%nat) /\
  (quiet env ->
   forall ds split test first rest y ys X_test labels_test,
     objects s !! d = Some ds ->
     ds !! "train" = Some split -> ds !! "test" = Some test ->
     embedding split = Some (first :: rest) -> label split = Some (y :: ys) ->
     embedding test = Some X_test -> label test = Some labels_test ->
     rectangular (first :: rest) = true -> rectangular X_test = true ->
     Forall (fun l => 0 <= l < count_distinct (y :: ys)) (y :: ys) ->
     Forall (fun l => 0 <= l < count_distinct (y :: ys)) labels_test ->
     array_fits (length (y :: ys)) (count_distinct (y :: ys)) = true ->
     array_fits (length labels_test) (count_distinct (y :: ys)) = true ->
     unobstructed (cwd env) (fs s) "./logs" ->
     (forall tr, first_missing (training env tr) = None) ->
     exists s', notebook_cell env d s = (Ok tt, s')).
Proof.
  split.
  - intros s' H. exact (notebook_cell_Ok env d s s' H).
  - intros Hq ds split test first rest y ys X_test labels_test
      Hds Hsplit Htest Hemb Hlab He2 Hl2 Hr1 Hr2 Hin1 Hin2 Hfit1 Hfit2
      Hfree Hcurves.
    eapply (notebook_cell_runs env Hq); eassumption.
Qed.

Lemma notebook_cell_sets_up_witness :
  exists s',
    notebook_cell calm 0 world0 = (Ok tt, s') /\
    input_shape s' = [2] /\ num_classes s' = 3 /\ log_dir s' = "./logs".
Proof.
  destruct (notebook_cell_sets_up calm 0 world0) as [Hresult Hruns].
  destruct (Hruns calm_quiet sample_dataset
              (mkDataset (Some [[0.5; 0.25]; [0.75; 1]; [0; 0.125]]%float)
                         (Some [0; 2; 1]) python_list)
              (mkDataset (Some [[1; 0.5]]%float) (Some [1]) python_list)
              [0.5; 0.25]%float [[0.75; 1]; [0; 0.125]]%float 0 [2; 1]
              [[1; 0.5]]%float [1]) as [s' Hs'];
    try (vm_compute; reflexivity).
  - repeat (constructor;
            [split; [vm_compute; discriminate | vm_compute; reflexivity] |]).
    constructor.
  - repeat (constructor;
            [split; [vm_compute; discriminate | vm_compute; reflexivity] |]).
    constructor.
  - intros [|[|[|m]]]; vm_compute; discriminate.
  - exists s'. split; [exact Hs' |].
    destruct (Hresult s' Hs')
      as (ds & split & first & rest & labels & k & Hds & Hsplit & Hemb & Hlab
          & Hi & Hn & Hl & _).
    vm_compute in Hds. injection Hds as <-.
    vm_compute in Hsplit. injection Hsplit as <-.
    vm_compute in Hemb. injection Hemb as <- <-.
    vm_compute in Hlab. injection Hlab as <-.
    split; [exact Hi |]. split; [exact Hn | exact Hl].
Defined.

(** X15. The driver cell needs a train example to size the model. When the
    train split has no rows, the cell raises at [dataset['train'][0]], in
    every environment, before the instance exists: no attribute is set, no
    directory made and no model built; the error is [IndexError] unless a
    library call failed first for a reason of its own. *)
Theorem notebook_cell_needs_examples (env : Env) (d : nat) (s : State)
  (ds : gmap string Dataset) (split : Dataset) :
  objects s !! d = Some ds -> ds !! "train" = Some split ->
  embedding split = Some [] ->
  exists err s',
    notebook_cell env d s = (Raise err, s') /\
    same_but_trace s s' /\
    (quiet env -> err = IndexError).
Proof.
  intros Hds Hsplit Hemb. unfold notebook_cell. rewrite bind_run.
  unfold dataset_getitem at 1, call.
  destruct (raises env (trace s) (E_getitem "dataset" "train")) as [e|] eqn:Hr.
  - exists e, (log (E_getitem "dataset" "train") (Some e) s).
    split; [reflexivity |]. split; [apply same_but_trace_log |].
    intros Hq. rewrite Hq in Hr. discriminate Hr.
  - rewrite Hds, Hsplit, bind_run. unfold row_getitem, pure_call, call.
    rewrite (first_row_empty _ Hemb).
    destruct (raises env _ (E_getitem "dataset['train']" "0")) as [e|] eqn:Hr0.
    + eexists e, _. split; [reflexivity |].
      split; [repeat split |].
      intros Hq. rewrite Hq in Hr0. discriminate Hr0.
    + eexists IndexError, _. split; [reflexivity |].
      split; [repeat split | reflexivity].
Qed.

Lemma notebook_cell_needs_examples_witness :
  exists err s',
    notebook_cell stormy 0 (world_with empty_dataset) = (Raise err, s') /\
    same_but_trace (world_with empty_dataset) s' /\
    (quiet stormy -> err = IndexError).
Proof.
  apply (notebook_cell_needs_examples stormy 0 (world_with empty_dataset)
           empty_dataset (mkDataset (Some []) (Some []) python_list));
    vm_compute; reflexivity.
Defined.

(** X16. The driver cell takes the number of distinct train labels as the
    class count, which fits only labels that are class indices. When the
    labels are [int64] and some train or test label [l] is not within
    [-n, n) for [n] that number (a gap in the labels, as in 0 and 5), the
    cell creates './logs' and then raises [IndexError] from [train]: the
    instance is left without a model. This is so when arrays of one row
    per label and [n] columns are of a size NumPy makes, no regular file
    stands where './logs' leads or on the way, and no library call fails
    for a reason of its own. *)
Theorem notebook_cell_needs_class_indices (env : Env) (d : nat) (s : State)
  ds split test first rest labels X_test labels_test :
  quiet env ->
  objects s !! d = Some ds ->
  ds !! "train" = Some split -> ds !! "test" = Some test ->
  embedding split = Some (first :: rest) -> label split = Some labels ->
  embedding test = Some X_test -> label test = Some labels_test ->
  rectangular (first :: rest) = true -> rectangular X_test = true ->
  labels <> [] ->
  forallb fits_int64 (labels ++ labels_test) = true ->
  array_fits (length labels) (count_distinct labels) = true ->
  array_fits (length labels_test) (count_distinct labels) = true ->
  Exists (fun l => ~ (- count_distinct labels <= l < count_distinct labels))
         (labels ++ labels_test) ->
  unobstructed (cwd env) (fs s) "./logs" ->
  exists s',
    notebook_cell env d s = (Raise IndexError, s') /\
    model s' = None /\
    num_classes s' = count_distinct labels /\
    isdir (cwd env) (fs s') "./logs" = true.
Proof.
  intros Hq Hds Hsplit Htest Hemb Hlab He2 Hl2 Hr1 Hr2 Hne Hint Hfit1 Hfit2
    Hbad Hfree.
  destruct (notebook_cell_steps env Hq d s ds split first rest labels)
    as (s6 & (Hm & _ & Hn & _ & Hobj & _) & Hdir & Hsteps); try assumption.
  cbn in Hm, Hn, Hobj.
  destruct (prepare_dataset_IndexError env Hq d s6 ds split test
              (first :: rest) labels X_test labels_test)
    as (s7 & Hprep & Hsame); try assumption; try (rewrite Hn; assumption).
  { rewrite Hobj. exact Hds. }
  { rewrite Hn. destruct labels; [congruence | apply count_distinct_pos]. }
  exists s7. split.
  { apply Hsteps. apply bind_Raise_intro. unfold train.
    apply bind_Raise_intro. exact Hprep. }
  destruct Hsame as (Em & _ & En & _ & _ & Ef & _).
  rewrite Em, En, Ef. repeat split; assumption.
Qed.

Lemma notebook_cell_needs_class_indices_witness :
  exists s',
    notebook_cell calm 0 (world_with gapped_dataset) = (Raise IndexError, s') /\
    model s' = None /\
    num_classes s' = count_distinct [0; 5] /\
    isdir (cwd calm) (fs s') "./logs" = true.
Proof.
  apply (notebook_cell_needs_class_indices calm 0 (world_with gapped_dataset)
           gapped_dataset
           (mkDataset (Some [[0.5; 0.25]; [0.75; 1]]%float) (Some [0; 5])
                      python_list)
           (mkDataset (Some [[1; 0.5]]%float) (Some [0]) python_list)
           [0.5; 0.25]%float [[0.75; 1]]%float [0; 5] [[1; 0.5]]%float [0]);
    try (vm_compute; reflexivity); try reflexivity.
  - discriminate.
  - apply Exists_cons_tl, Exists_cons_hd. vm_compute. intros [_ Hlt].
    discriminate Hlt.
  - intros [|[|[|m]]]; vm_compute; discriminate.
Defined.
